(** * ComfyUI worker: a shallow embedding of [src/handler.py]

    The development follows the handler module function by function.
    Python values that travel through the handler (job payloads, websocket
    messages, history records) are JSON-shaped and dynamically typed, so
    they are embedded as one inductive type [pyval]; the operations the
    handler applies to them ([.get], [in], truthiness, [==]) are written out
    with the exception each of them raises on a value of the wrong type.

    Library calls (requests, websocket-client, boto3, tempfile, json) are
    answered by a [World] record of oracles; their effects on sockets, on
    temporary files and on the order of calls are recorded in an explicit
    [state]. *)

From Stdlib Require Import ZArith NArith List String Ascii Bool Lia.
From Stdlib Require Import Strings.Byte.
Import ListNotations.
Local Open Scope string_scope.
Local Open Scope Z_scope.

(** ** Python values *)

#[warnings="-register-all"]
Inductive pyval : Type :=
| PNone
| PBool (b : bool)
| PInt (z : Z)
| PStr (s : string)
| PList (l : list pyval)
| PDict (d : list (string * pyval)).

(** Dictionaries keep insertion order (Python 3.7+); keys are strings, as
    in every JSON object. *)
Fixpoint assoc {A : Type} (k : string) (d : list (string * A)) : option A :=
  match d with
  | [] => None
  | (k', v) :: d' => if String.eqb k k' then Some v else assoc k d'
  end.

(** [d[k] = v] on a dict: replaces in place or appends. *)
Fixpoint dict_set {A : Type} (k : string) (v : A) (d : list (string * A))
  : list (string * A) :=
  match d with
  | [] => [(k, v)]
  | (k', v') :: d' =>
      if String.eqb k k' then (k, v) :: d' else (k', v') :: dict_set k v d'
  end.

Definition is_none (v : pyval) : bool :=
  match v with PNone => true | _ => false end.

(** [bool(v)]: Python truthiness. *)
Definition truthy (v : pyval) : bool :=
  match v with
  | PNone => false
  | PBool b => b
  | PInt z => negb (z =? 0)
  | PStr s => negb (String.eqb s "")
  | PList l => match l with [] => false | _ => true end
  | PDict d => match d with [] => false | _ => true end
  end.

(** [v == "s"] for a string literal [s]. *)
Definition py_eq_str (v : pyval) (s : string) : bool :=
  match v with PStr t => String.eqb t s | _ => false end.

(** [a == b] on JSON-shaped values: [bool] is a subclass of [int], lists
    compare element-wise and dicts key-wise, whatever the order. *)
Fixpoint py_eq (a b : pyval) {struct a} : bool :=
  match a, b with
  | PNone, PNone => true
  | PBool x, PBool y => Bool.eqb x y
  | PBool x, PInt z => z =? (if x then 1 else 0)
  | PInt z, PBool x => z =? (if x then 1 else 0)
  | PInt x, PInt y => x =? y
  | PStr x, PStr y => String.eqb x y
  | PList x, PList y =>
      (fix go (x y : list pyval) {struct x} : bool :=
         match x, y with
         | [], [] => true
         | u :: x', v :: y' => py_eq u v && go x' y'
         | _, _ => false
         end) x y
  | PDict x, PDict y =>
      Nat.eqb (List.length x) (List.length y) &&
      (fix go (x : list (string * pyval)) {struct x} : bool :=
         match x with
         | [] => true
         | (k, u) :: x' =>
             match assoc k y with
             | Some v => py_eq u v && go x'
             | None => false
             end
         end) x
  | _, _ => false
  end.

(** ** Exceptions *)

Inductive exn_class : Type :=
| AttributeError
| TypeError
| KeyError
| ValueError
| JSONDecodeError
| UnicodeEncodeError
| BinasciiError
| OSError
| ConnectionRefusedError
| SocketTimeout
| RequestException
| RequestsTimeout
| WebSocketException
| WebSocketTimeoutException
| WebSocketConnectionClosedException
| PlainException.

Record exn : Type := Exn { exn_cls : exn_class; exn_text : string }.

Definition exn_class_eqb (a b : exn_class) : bool :=
  match a, b with
  | AttributeError, AttributeError | TypeError, TypeError
  | KeyError, KeyError | ValueError, ValueError
  | JSONDecodeError, JSONDecodeError | BinasciiError, BinasciiError
  | UnicodeEncodeError, UnicodeEncodeError
  | OSError, OSError | ConnectionRefusedError, ConnectionRefusedError
  | SocketTimeout, SocketTimeout | RequestException, RequestException
  | RequestsTimeout, RequestsTimeout
  | WebSocketException, WebSocketException
  | WebSocketTimeoutException, WebSocketTimeoutException
  | WebSocketConnectionClosedException, WebSocketConnectionClosedException
  | PlainException, PlainException => true
  | _, _ => false
  end.

(** The direct base class, [None] for classes deriving from [Exception]
    itself.  [requests.RequestException] derives from [IOError], which is
    [OSError]; [UnicodeEncodeError] derives from [ValueError] through
    [UnicodeError], which no clause of the module names. *)
Definition base_class (c : exn_class) : option exn_class :=
  match c with
  | JSONDecodeError => Some ValueError
  | UnicodeEncodeError => Some ValueError
  | BinasciiError => Some ValueError
  | ConnectionRefusedError => Some OSError
  | SocketTimeout => Some OSError
  | RequestException => Some OSError
  | RequestsTimeout => Some RequestException
  | WebSocketTimeoutException => Some WebSocketException
  | WebSocketConnectionClosedException => Some WebSocketException
  | _ => None
  end.

(** [isinstance(e, c)]: the hierarchy above is at most three levels deep. *)
Definition is_instance (e : exn) (c : exn_class) : bool :=
  let c0 := exn_cls e in
  exn_class_eqb c0 c ||
  match base_class c0 with
  | Some c1 =>
      exn_class_eqb c1 c ||
      match base_class c1 with
      | Some c2 => exn_class_eqb c2 c
      | None => false
      end
  | None => false
  end.

Inductive result (A : Type) : Type :=
| Ok (a : A)
| Raise (e : exn).
Arguments Ok {A} a.
Arguments Raise {A} e.

Definition rbind {A B : Type} (r : result A) (k : A -> result B) : result B :=
  match r with
  | Ok a => k a
  | Raise e => Raise e
  end.

Declare Scope result_scope.
Delimit Scope result_scope with result.
Notation "x <-r c ;; k" := (rbind c (fun x => k))
  (at level 100, c at next level, right associativity) : result_scope.

(** ** Dynamic operations on values *)

(** A dict key must be hashable: lists and dicts are not. *)
Definition hashable (k : pyval) : bool :=
  match k with
  | PList _ | PDict _ => false
  | _ => true
  end.

(** Looking a key up in a JSON object: every key it holds is a string. *)
Definition dict_lookup (k : pyval) (d : list (string * pyval)) : option pyval :=
  match k with
  | PStr key => assoc key d
  | _ => None
  end.

(** [v.get(k, default)]: only dicts have the method. *)
Definition py_get_val (v k default : pyval) : result pyval :=
  match v with
  | PDict d =>
      if hashable k
      then Ok (match dict_lookup k d with Some x => x | None => default end)
      else Raise (Exn TypeError "unhashable type")
  | _ => Raise (Exn AttributeError "object has no attribute 'get'")
  end.

Definition py_get (v : pyval) (k : string) (default : pyval) : result pyval :=
  py_get_val v (PStr k) default.

(** [s in t] on strings: substring test. *)
Definition is_substring (s t : string) : bool :=
  match String.index 0 s t with Some _ => true | None => false end.

(** [k in v]: key test on a dict, membership on a list, substring test on
    a string, [TypeError] on anything that is not a container. *)
Definition py_in (k v : pyval) : result bool :=
  match v with
  | PDict d =>
      if hashable k
      then Ok (match dict_lookup k d with Some _ => true | None => false end)
      else Raise (Exn TypeError "unhashable type")
  | PList l => Ok (existsb (py_eq k) l)
  | PStr s =>
      match k with
      | PStr t => Ok (is_substring t s)
      | _ => Raise (Exn TypeError "'in <string>' requires string as left operand")
      end
  | _ => Raise (Exn TypeError "argument is not iterable")
  end.

(** [v["k"]] with a string key: a dict answers or raises [KeyError]; lists
    and strings take integer indices only. *)
Definition py_index (v : pyval) (k : string) : result pyval :=
  match v with
  | PDict d =>
      match assoc k d with
      | Some x => Ok x
      | None => Raise (Exn KeyError ("'" ++ k ++ "'"))
      end
  | _ => Raise (Exn TypeError "indices must be integers")
  end.


(** [len(v)]: defined on containers and strings only. *)
Definition py_len (v : pyval) : result nat :=
  match v with
  | PStr s => Ok (String.length s)
  | PList l => Ok (List.length l)
  | PDict d => Ok (List.length d)
  | _ => Raise (Exn TypeError "object has no len()")
  end.

(** [for x in v]: the items a loop over [v] visits. *)
Definition py_iter (v : pyval) : result (list pyval) :=
  match v with
  | PList l => Ok l
  | PDict d => Ok (map (fun kv => PStr (fst kv)) d)
  | PStr s => Ok (map (fun c => PStr (String c EmptyString)) (list_ascii_of_string s))
  | _ => Raise (Exn TypeError "object is not iterable")
  end.

(** [v.items()] and [v.keys()]: dict methods. *)
Definition py_items (v : pyval) : result (list (string * pyval)) :=
  match v with
  | PDict d => Ok d
  | _ => Raise (Exn AttributeError "object has no attribute 'items'")
  end.

Definition py_keys (v : pyval) : result (list string) :=
  match v with
  | PDict d => Ok (map fst d)
  | _ => Raise (Exn AttributeError "object has no attribute 'keys'")
  end.

(** [v[0]]: the first element of a list, the first character of a string;
    a JSON object has no key [0].  An index out of range raises
    [IndexError], a class that no [except] clause of the module names. *)
Definition py_first (v : pyval) : result pyval :=
  match v with
  | PList (x :: _) => Ok x
  | PList [] => Raise (Exn PlainException "list index out of range")
  | PStr (String c _) => Ok (PStr (String c EmptyString))
  | PStr EmptyString => Raise (Exn PlainException "string index out of range")
  | PDict _ => Raise (Exn KeyError "0")
  | _ => Raise (Exn TypeError "object is not subscriptable")
  end.

(** [isinstance(v, list)] *)
Definition is_list (v : pyval) : bool :=
  match v with PList _ => true | _ => false end.

(** [sep.join(v)]: the items of [v] must all be strings. *)
Fixpoint join_strings (sep : string) (l : list string) : string :=
  match l with
  | [] => ""
  | [x] => x
  | x :: l' => x ++ sep ++ join_strings sep l'
  end.

Fixpoint all_strings (l : list pyval) : option (list string) :=
  match l with
  | [] => Some []
  | PStr s :: l' => option_map (cons s) (all_strings l')
  | _ => None
  end.

Definition py_join (sep : string) (v : pyval) : result string :=
  rbind (py_iter v) (fun items =>
  match all_strings items with
  | Some l => Ok (join_strings sep l)
  | None => Raise (Exn TypeError "sequence item: expected str instance")
  end).

(** [v += t] for a string [t]: concatenation on a string; a list is
    extended by the characters of [t]; nothing else takes a string. *)
Definition py_iadd_str (v : pyval) (t : string) : result pyval :=
  match v with
  | PStr s => Ok (PStr (s ++ t))
  | PList l =>
      Ok (PList (l ++ map (fun c => PStr (String c EmptyString))
                          (list_ascii_of_string t)))
  | _ => Raise (Exn TypeError "unsupported operand type(s) for +=")
  end.

(** [not l] on a list. *)
Definition is_nil {A : Type} (l : list A) : bool :=
  match l with [] => true | _ => false end.

(** [isinstance(v, dict)] *)
Definition is_dict (v : pyval) : bool :=
  match v with PDict _ => true | _ => false end.

(** The line feed and the bullet the messages of [queue_workflow] use. *)
Definition nl : string := String "010"%char EmptyString.
Definition bullet : string :=
  String "226"%char (String "128"%char (String "162"%char EmptyString)).

(** ** The world outside the handler *)

Definition bytes : Type := list byte.

(** A [requests.Response]: status code, raw content, the content as text,
    and what [response.json()] gives. *)
Record response : Type := Response {
  status_code : Z;
  content : bytes;
  text : string;
  json : result pyval
}.

(** What [ws.recv()] gives back: a text frame ([str]), a binary frame
    ([bytes]), or an exception. *)
Inductive recv_reply : Type :=
| RecvText (s : string)
| RecvBinary (b : bytes)
| RecvRaises (e : exn).

(** A boto3 client is determined by the configuration it was built from. *)
Record boto_client : Type := BotoClient {
  endpoint_url : option string;
  access_key_id : option string;
  secret_access_key : option string;
  region : option string
}.

(** Calls that leave the process, in the order they are made. *)
Inductive event : Type :=
| EvHttpGet (url : string)
| EvHttpPost (url : string)
| EvSleepMs (ms : Z)
| EvWsConnect (url : string) (sock : nat)
| EvWsClose (sock : nat)
| EvFetch (filename subfolder image_type : pyval)
| EvTmpCreate (path : string)
| EvRemove (path : string)
| EvPutObject (key : string)
| EvPresign (key : string).

(** The answers of the libraries and of the environment.  Pure library
    functions are plain functions; the network and the disk answer by call
    number, so that one endpoint may answer differently over time. *)
Record World : Type := {
  json_loads : string -> option pyval;      (* None: json.JSONDecodeError *)
  py_str : pyval -> string;                 (* str(v) inside an f-string *)
  urlencode : list (string * pyval) -> result string;
                                            (* urllib.parse.urlencode; Raise:
                                               a value it cannot encode *)
  splitext : string -> string;              (* os.path.splitext(p)[1] *)
  b64decode : string -> result bytes;       (* base64.b64decode *)
  from_buffer : bytes -> string;            (* magic.Magic(mime=True) *)
  environ : string -> option string;        (* os.environ.get *)
  WEBSOCKET_RECONNECT_ATTEMPTS : Z;
  WEBSOCKET_RECONNECT_DELAY_S : Z;
  uuid4 : nat -> string;                    (* str(uuid.uuid4()) *)
  http_get : string -> nat -> result response;
  http_post : string -> nat -> result response;
  ws_handshake : string -> nat -> option exn;  (* None: connected *)
  incoming : list recv_reply;               (* what successive ws.recv() give;
                                               nothing arrives after them *)
  tmp_name : string -> nat -> string;       (* NamedTemporaryFile(suffix).name *)
  tmp_create : nat -> option exn;           (* opening the temporary file *)
  tmp_write : nat -> option exn;            (* temp_file.write(image_bytes) *)
  s3_get_object : boto_client -> option string -> pyval -> result bytes;
  s3_put_object : boto_client -> option string -> string -> option exn;
  s3_presign : boto_client -> option string -> string -> result string;
  boto3_client : option string -> option string -> option string ->
                 option string -> result boto_client
                                            (* boto3.client("s3", ...); Raise:
                                               a configuration it refuses *)
}.

(** The process state: the effects made so far and the local variables of
    [handler] that its [except] and [finally] clauses read back. *)
Record state : Type := State {
  trace : list event;
  socks : list bool;              (* WebSocket objects so far: [connected] *)
  files : list (string * bytes);  (* temporary files present on disk *)
  reqs : nat;                     (* HTTP requests issued so far *)
  fresh : nat;                    (* names drawn so far (uuid4, tempfile) *)
  ws_var : option nat;            (* local [ws] *)
  errors : list string;           (* local [errors] *)
  output_data : list pyval;       (* local [output_data] *)
  temp_file_path : option string  (* local [temp_file_path], once assigned *)
}.

Definition init_state : state := State [] [] [] 0 0 None [] [] None.

(** ** A state and exception monad

    [Hang] is the outcome of a call that never returns: a blocking receive
    on a socket on which nothing more arrives. *)

Inductive outcome (A : Type) : Type :=
| Ret (a : A)
| Exc (e : exn)
| Hang.
Arguments Ret {A} a.
Arguments Exc {A} e.
Arguments Hang {A}.

Definition M (A : Type) : Type := state -> outcome A * state.

Definition ret {A : Type} (a : A) : M A := fun s => (Ret a, s).
Definition raise {A : Type} (e : exn) : M A := fun s => (Exc e, s).
Definition hang {A : Type} : M A := fun s => (Hang, s).

Definition bind {A B : Type} (m : M A) (k : A -> M B) : M B :=
  fun s =>
    match m s with
    | (Ret a, s') => k a s'
    | (Exc e, s') => (Exc e, s')
    | (Hang, s') => (Hang, s')
    end.

Declare Scope m_scope.
Delimit Scope m_scope with M.
Notation "x <- c ;; k" := (bind c (fun x => k))
  (at level 100, c at next level, right associativity) : m_scope.
Notation "c ;; k" := (bind c (fun _ => k))
  (at level 100, right associativity) : m_scope.

Definition lift {A : Type} (r : result A) : M A :=
  match r with
  | Ok a => ret a
  | Raise e => raise e
  end.

(** [try: m except Exception as e: h e]. *)
Definition try_except {A : Type} (m : M A) (h : exn -> M A) : M A :=
  fun s =>
    match m s with
    | (Exc e, s') => h e s'
    | r => r
    end.

(** [try: m finally: f]: [f] runs whenever control leaves [m]. *)
Definition try_finally {A : Type} (m : M A) (f : M unit) : M A :=
  fun s =>
    match m s with
    | (Ret a, s') =>
        match f s' with
        | (Ret _, s'') => (Ret a, s'')
        | (Exc e, s'') => (Exc e, s'')
        | (Hang, s'') => (Hang, s'')
        end
    | (Exc e, s') =>
        match f s' with
        | (Ret _, s'') => (Exc e, s'')
        | (Exc e', s'') => (Exc e', s'')
        | (Hang, s'') => (Hang, s'')
        end
    | (Hang, s') => (Hang, s')
    end.

Definition get_state : M state := fun s => (Ret s, s).
Definition modify (f : state -> state) : M unit := fun s => (Ret tt, f s).

(** *** State updates *)

Definition log (e : event) (s : state) : state :=
  State (trace s ++ [e]) (socks s) (files s) (reqs s) (fresh s) (ws_var s)
        (errors s) (output_data s) (temp_file_path s).
Definition set_socks (l : list bool) (s : state) : state :=
  State (trace s) l (files s) (reqs s) (fresh s) (ws_var s)
        (errors s) (output_data s) (temp_file_path s).
Definition set_files (l : list (string * bytes)) (s : state) : state :=
  State (trace s) (socks s) l (reqs s) (fresh s) (ws_var s)
        (errors s) (output_data s) (temp_file_path s).
Definition tick_reqs (s : state) : state :=
  State (trace s) (socks s) (files s) (S (reqs s)) (fresh s) (ws_var s)
        (errors s) (output_data s) (temp_file_path s).
Definition tick_fresh (s : state) : state :=
  State (trace s) (socks s) (files s) (reqs s) (S (fresh s)) (ws_var s)
        (errors s) (output_data s) (temp_file_path s).
Definition set_ws_var (v : option nat) (s : state) : state :=
  State (trace s) (socks s) (files s) (reqs s) (fresh s) v
        (errors s) (output_data s) (temp_file_path s).
Definition set_errors (l : list string) (s : state) : state :=
  State (trace s) (socks s) (files s) (reqs s) (fresh s) (ws_var s)
        l (output_data s) (temp_file_path s).
Definition set_output_data (l : list pyval) (s : state) : state :=
  State (trace s) (socks s) (files s) (reqs s) (fresh s) (ws_var s)
        (errors s) l (temp_file_path s).
Definition set_temp_file_path (p : option string) (s : state) : state :=
  State (trace s) (socks s) (files s) (reqs s) (fresh s) (ws_var s)
        (errors s) (output_data s) p.

(** Replace the [i]-th element of a list, if there is one. *)
Fixpoint list_set {A : Type} (i : nat) (x : A) (l : list A) : list A :=
  match l, i with
  | [], _ => []
  | _ :: l', O => x :: l'
  | y :: l', S i' => y :: list_set i' x l'
  end.

(** Remove a key from an association list. *)
Fixpoint assoc_remove {A : Type} (k : string) (d : list (string * A))
  : list (string * A) :=
  match d with
  | [] => []
  | (k', v) :: d' =>
      if String.eqb k k' then assoc_remove k d' else (k', v) :: assoc_remove k d'
  end.

(** ** Base64 (RFC 4648, standard alphabet, with padding)

    [base64.b64encode] is the encoder below; [b64decode_strict] is the
    decoder of the same RFC, the one a consumer of the result applies. *)

Definition b64_alphabet : list ascii :=
  list_ascii_of_string
    "ABCDEFGHIJKLMNOPQRSTUVWXYZabcdefghijklmnopqrstuvwxyz0123456789+/".

Definition b64_pad : ascii := "="%char.

Definition b64_char (n : N) : ascii := nth (N.to_nat n) b64_alphabet b64_pad.

Fixpoint index_of (c : ascii) (l : list ascii) (i : N) : option N :=
  match l with
  | [] => None
  | x :: l' => if Ascii.eqb c x then Some i else index_of c l' (N.succ i)
  end.

Definition b64_index (c : ascii) : option N := index_of c b64_alphabet 0%N.

Definition byte_of_N (n : N) : byte :=
  match Byte.of_N n with
  | Some b => b
  | None => x00
  end.

(** Three octets become four sextets; one or two trailing octets are
    padded with zero bits and [=]. *)
Fixpoint b64encode_chars (data : bytes) : list ascii :=
  match data with
  | [] => []
  | [a] =>
      let x := Byte.to_N a in
      [b64_char (x / 4); b64_char ((x mod 4) * 16); b64_pad; b64_pad]
  | [a; b] =>
      let x := Byte.to_N a in
      let y := Byte.to_N b in
      [b64_char (x / 4); b64_char ((x mod 4) * 16 + y / 16);
       b64_char ((y mod 16) * 4); b64_pad]
  | a :: b :: c :: rest =>
      let x := Byte.to_N a in
      let y := Byte.to_N b in
      let z := Byte.to_N c in
      b64_char (x / 4) :: b64_char ((x mod 4) * 16 + y / 16)
        :: b64_char ((y mod 16) * 4 + z / 64) :: b64_char (z mod 64)
        :: b64encode_chars rest
  end%N.

(** [base64.b64encode(data).decode("utf-8")] *)
Definition b64encode (data : bytes) : string :=
  string_of_list_ascii (b64encode_chars data).

Fixpoint b64decode_chars (l : list ascii) : option bytes :=
  match l with
  | [] => Some []
  | c1 :: c2 :: c3 :: c4 :: rest =>
      match b64_index c1, b64_index c2 with
      | Some s1, Some s2 =>
          let o1 := byte_of_N (s1 * 4 + s2 / 16) in
          if Ascii.eqb c3 b64_pad then
            if Ascii.eqb c4 b64_pad
            then match rest with [] => Some [o1] | _ => None end
            else None
          else
            match b64_index c3 with
            | Some s3 =>
                let o2 := byte_of_N ((s2 mod 16) * 16 + s3 / 4) in
                if Ascii.eqb c4 b64_pad
                then match rest with [] => Some [o1; o2] | _ => None end
                else
                  match b64_index c4 with
                  | Some s4 =>
                      let o3 := byte_of_N ((s3 mod 4) * 64 + s4) in
                      option_map (fun t => o1 :: o2 :: o3 :: t)
                                 (b64decode_chars rest)
                  | None => None
                  end
            | None => None
            end
      | _, _ => None
      end
  | _ => None
  end%N.

Definition b64decode_strict (s : string) : option bytes :=
  b64decode_chars (list_ascii_of_string s).

(** ** The module [handler.py] *)

Definition COMFY_API_AVAILABLE_INTERVAL_MS : Z := 50.
Definition COMFY_API_AVAILABLE_MAX_RETRIES : Z := 500.
Definition COMFY_HOST : string := "127.0.0.1:8188".

(** [range(n)] *)
Definition range (n : Z) : list Z := map Z.of_nat (seq 0 (Z.to_nat n)).

Section Handler.
Variable w : World.
Local Open Scope m_scope.

(** *** Library calls *)

Definition requests_get (url : string) : M response :=
  fun s => lift (http_get w url (reqs s)) (tick_reqs (log (EvHttpGet url) s)).

Definition requests_post (url : string) : M response :=
  fun s => lift (http_post w url (reqs s)) (tick_reqs (log (EvHttpPost url) s)).

(** [response.raise_for_status()]: an [HTTPError], a [RequestException],
    on a 4xx or 5xx status. *)
Definition raise_for_status (r : response) : M unit :=
  if (400 <=? status_code r) && (status_code r <? 600)
  then raise (Exn RequestException "HTTPError")
  else ret tt.

(** [time.sleep] refuses a negative length. *)
Definition sleep_ms (ms : Z) : M unit :=
  if ms <? 0
  then raise (Exn ValueError "sleep length must be non-negative")
  else modify (log (EvSleepMs ms)).

(** [websocket.WebSocket()]: a fresh object, not connected. *)
Definition WebSocket : M nat :=
  fun s => (Ret (List.length (socks s)), set_socks (socks s ++ [false]) s).

(** [sock.connect(url, timeout=10)]: the object is connected only once the
    handshake has succeeded. *)
Definition ws_connect (sock : nat) (url : string) : M unit :=
  fun s =>
    let s' := log (EvWsConnect url sock) s in
    match ws_handshake w url sock with
    | None => (Ret tt, set_socks (list_set sock true (socks s')) s')
    | Some e => (Exc e, s')
    end.

Definition ws_connected (sock : nat) : M bool :=
  fun s => (Ret (nth sock (socks s) false), s).

Definition ws_close (sock : nat) : M unit :=
  modify (fun s => set_socks (list_set sock false (socks s))
                             (log (EvWsClose sock) s)).

(** [ws.recv()] on the socket the local [ws] names.  A receive that ends
    in [WebSocketConnectionClosedException] leaves the object
    disconnected: the library drops its socket before it raises. *)
Definition ws_recv (fr : recv_reply) : M recv_reply :=
  fun s =>
    match fr with
    | RecvRaises e =>
        if is_instance e WebSocketConnectionClosedException
        then match ws_var s with
             | Some sock => (Exc e, set_socks (list_set sock false (socks s)) s)
             | None => (Exc e, s)
             end
        else (Exc e, s)
    | _ => (Ret fr, s)
    end.

(** *** [_comfy_server_status] *)

Definition _comfy_server_status : M pyval :=
  try_except
    (resp <- requests_get ("http://" ++ COMFY_HOST ++ "/") ;;
     ret (PDict [("reachable", PBool (status_code resp =? 200));
                 ("status_code", PInt (status_code resp))]))
    (fun exc =>
       ret (PDict [("reachable", PBool false);
                   ("error", PStr (exn_text exc))])).

(** *** [_attempt_websocket_reconnect] *)

Definition msg_http_unreachable : string :=
  "ComfyUI HTTP unreachable during websocket reconnect".
Definition msg_reconnect_failed (last : exn) : string :=
  "Connection closed and failed to reconnect. Last error: " ++ exn_text last.

(** The classes the handshake's [except] clause lists. *)
Definition handshake_failure (e : exn) : bool :=
  is_instance e WebSocketException || is_instance e ConnectionRefusedError
  || is_instance e SocketTimeout || is_instance e OSError.

Fixpoint reconnect_attempts (ws_url : string) (max_attempts delay_s : Z)
    (attempts : list Z) (last_reconnect_error : exn) : M nat :=
  match attempts with
  | [] =>
      raise (Exn WebSocketConnectionClosedException
                 (msg_reconnect_failed last_reconnect_error))
  | attempt :: rest =>
      srv_status <- _comfy_server_status ;;
      reachable <- lift (py_index srv_status "reachable") ;;
      if negb (truthy reachable) then
        raise (Exn WebSocketConnectionClosedException msg_http_unreachable)
      else
        r <- try_except
               (new_ws <- WebSocket ;;
                ws_connect new_ws ws_url ;;
                ret (inl new_ws))
               (fun reconn_err =>
                  if handshake_failure reconn_err then
                    (if attempt <? max_attempts - 1
                     then sleep_ms (1000 * delay_s)
                     else ret tt) ;;
                    ret (inr reconn_err)
                  else raise reconn_err) ;;
        match r with
        | inl new_ws => ret new_ws
        | inr reconn_err =>
            reconnect_attempts ws_url max_attempts delay_s rest reconn_err
        end
  end.

Definition _attempt_websocket_reconnect (ws_url : string)
    (max_attempts delay_s : Z) (initial_error : exn) : M nat :=
  reconnect_attempts ws_url max_attempts delay_s (range max_attempts)
                     initial_error.

(** *** [validate_input] *)

Definition msg_no_input : string := "Please provide input".
Definition msg_invalid_json : string := "Invalid JSON format in input".
Definition msg_missing_workflow : string := "Missing 'workflow' parameter".
Definition msg_malformed_media : string :=
  "'media' must be a list of objects with 'name' and 'media' keys".

(** [all("name" in media and "media" in media for media in media_list)]:
    [all] stops at the first false item, [and] at a false left operand. *)
Fixpoint all_have_keys (media_list : list pyval) : result bool :=
  match media_list with
  | [] => Ok true
  | media :: rest =>
      rbind (py_in (PStr "name") media) (fun has_name =>
      if has_name then
        rbind (py_in (PStr "media") media) (fun has_media =>
        if has_media then all_have_keys rest else Ok false)
      else Ok false)
  end.

(** The checks on the fields, once a string payload has been parsed. *)
Definition validate_fields (job_input : pyval)
  : result (option pyval * option string) :=
  rbind (py_get job_input "workflow" PNone) (fun workflow =>
  if is_none workflow then Ok (None, Some msg_missing_workflow)
  else
    rbind (py_get job_input "media" PNone) (fun media_list =>
    rbind (match media_list with
           | PNone => Ok true
           | PList l => all_have_keys l
           | _ => Ok false
           end) (fun well_formed =>
    if well_formed then
      Ok (Some (PDict [("workflow", workflow); ("media", media_list)]), None)
    else Ok (None, Some msg_malformed_media)))).

Definition validate_input (job_input : pyval)
  : result (option pyval * option string) :=
  match job_input with
  | PNone => Ok (None, Some msg_no_input)
  | _ =>
      let parsed :=
        match job_input with
        | PStr s => json_loads w s
        | _ => Some job_input
        end in
      match parsed with
      | None => Ok (None, Some msg_invalid_json)
      | Some job_input => validate_fields job_input
      end
  end.

(** *** [check_server] *)

Fixpoint check_server_attempts (url : string) (delay : Z) (attempts : list Z)
  : M bool :=
  match attempts with
  | [] => ret false
  | _ :: rest =>
      ready <- try_except
                 (response <- requests_get url ;;
                  ret (status_code response =? 200))
                 (fun e =>
                    if is_instance e RequestsTimeout then ret false
                    else if is_instance e RequestException then ret false
                    else raise e) ;;
      if ready then ret true
      else sleep_ms delay ;; check_server_attempts url delay rest
  end.

Definition check_server (url : string) (retries delay : Z) : M bool :=
  check_server_attempts url delay (range retries).

(** *** Object storage *)

(** [boto3.client] checks the configuration it is given, the endpoint URL
    among it, and raises on one it refuses. *)
Definition get_boto_client (endpoint access_key secret reg : option string)
  : result boto_client :=
  boto3_client w endpoint access_key secret reg.

(** [not value] on what [os.environ.get] returns. *)
Definition unset (value : option string) : bool :=
  match value with
  | None => true
  | Some v => String.eqb v ""
  end.

Fixpoint first_unset (vars : list string) : option string :=
  match vars with
  | [] => None
  | var :: rest => if unset (environ w var) then Some var else first_unset rest
  end.

Definition get_boto_upload_client : result (boto_client * option string) :=
  match first_unset ["BUCKET_ENDPOINT_URL"; "BUCKET_ACCESS_KEY_ID";
                     "BUCKET_SECRET_ACCESS_KEY"; "BUCKET_NAME"] with
  | Some var => Raise (Exn PlainException (var ++ " is None"))
  | None =>
      rbind (get_boto_client (environ w "BUCKET_ENDPOINT_URL")
                             (environ w "BUCKET_ACCESS_KEY_ID")
                             (environ w "BUCKET_SECRET_ACCESS_KEY")
                             (environ w "BUCKET_REGION")) (fun client =>
      Ok (client, environ w "BUCKET_NAME"))
  end.

Definition get_boto_download_client : result (boto_client * option string) :=
  match first_unset ["BUCKET_DOWNLOAD_ENDPOINT_URL";
                     "BUCKET_DOWNLOAD_ACCESS_KEY_ID";
                     "BUCKET_DOWNLOAD_SECRET_ACCESS_KEY";
                     "BUCKET_DOWNLOAD_NAME"] with
  | Some _ => get_boto_upload_client
  | None =>
      rbind (get_boto_client (environ w "BUCKET_DOWNLOAD_ENDPOINT_URL")
                             (environ w "BUCKET_DOWNLOAD_ACCESS_KEY_ID")
                             (environ w "BUCKET_DOWNLOAD_SECRET_ACCESS_KEY")
                             (environ w "BUCKET_DOWNLOAD_REGION")) (fun client =>
      Ok (client, environ w "BUCKET_DOWNLOAD_NAME"))
  end.

Definition boto_download_media (file_key : pyval) : M bytes :=
  cb <- lift get_boto_download_client ;;
  lift (s3_get_object w (fst cb) (snd cb) file_key).

(** [open(path, "rb").read()] *)
Definition read_file (path : string) : M bytes :=
  fun s =>
    match assoc path (files s) with
    | Some data => (Ret data, s)
    | None => (Exc (Exn OSError "No such file or directory"), s)
    end.

Definition boto_upload_media (job_id : pyval) (media_location : string)
  : M (string * string) :=
  cb <- lift get_boto_upload_client ;;
  s <- get_state ;;
  modify tick_fresh ;;
  let image_name := substring 0 8 (uuid4 w (fresh s)) in
  let file_extension := splitext w media_location in
  output <- read_file media_location ;;
  let mime_type := from_buffer w output in
  let file_key := py_str w job_id ++ "/" ++ image_name ++ file_extension in
  modify (log (EvPutObject file_key)) ;;
  match s3_put_object w (fst cb) (snd cb) file_key with
  | Some e => raise e
  | None =>
      modify (log (EvPresign file_key)) ;;
      presigned_url <- lift (s3_presign w (fst cb) (snd cb) file_key) ;;
      ret (presigned_url, file_key)
  end.

(** *** [upload_media] *)

(** [media_data.split(",", 1)[1]], reached only when ["," in media_data]. *)
Fixpoint after_comma (s : string) : string :=
  match s with
  | EmptyString => EmptyString
  | String c s' => if Ascii.eqb c ","%char then s' else after_comma s'
  end.

Definition py_after_comma (v : pyval) : result pyval :=
  match v with
  | PStr s => Ok (PStr (after_comma s))
  | _ => Raise (Exn AttributeError "object has no attribute 'split'")
  end.

Definition py_b64decode (v : pyval) : result bytes :=
  match v with
  | PStr s => b64decode w s
  | _ => Raise (Exn TypeError
                    "argument should be a bytes-like object or ASCII string")
  end.

(** [requests.get(url)] turns its argument into a string first. *)
Definition url_of (v : pyval) : string :=
  match v with
  | PStr s => s
  | _ => py_str w v
  end.

(** The body of the [try] for one item: [inl] is the success line. *)
Definition upload_one (media : pyval) : M string :=
  name <- lift (py_index media "name") ;;
  media_data <- lift (py_index media "media") ;;
  media_type <- lift (py_index media "type") ;;
  blob <-
    (if py_eq_str media_type "base64" then
       has_comma <- lift (py_in (PStr ",") media_data) ;;
       base64_data <- lift (if has_comma then py_after_comma media_data
                            else Ok media_data) ;;
       lift (py_b64decode base64_data)
     else if py_eq_str media_type "web" then
       response <- requests_get (url_of media_data) ;;
       raise_for_status response ;;
       ret (content response)
     else if py_eq_str media_type "s3" then
       boto_download_media media_data
     else
       raise (Exn PlainException
                  ("Unknown media type " ++ py_str w media_type))) ;;
  let mime_type := from_buffer w blob in
  response <- requests_post ("http://" ++ COMFY_HOST ++ "/upload/image") ;;
  raise_for_status response ;;
  ret ("Successfully uploaded " ++ py_str w name).

(** The [except] clauses of one item, in the order they are written.
    Each of them evaluates [media.get('name', 'unknown')]. *)
Definition upload_error_msg (media : pyval) (e : exn) : M string :=
  shown <- lift (py_get media "name" (PStr "unknown")) ;;
  let who := py_str w shown in
  if is_instance e BinasciiError then
    ret ("Error decoding base64 for " ++ who ++ ": " ++ exn_text e)
  else if is_instance e RequestsTimeout then
    ret ("Timeout uploading " ++ who)
  else if is_instance e RequestException then
    ret ("Error uploading " ++ who ++ ": " ++ exn_text e)
  else
    ret ("Unexpected error uploading " ++ who ++ ": " ++ exn_text e).

Fixpoint upload_each (items : list pyval) (responses upload_errors : list string)
  : M (list string * list string) :=
  match items with
  | [] => ret (responses, upload_errors)
  | media :: rest =>
      r <- try_except
             (line <- upload_one media ;; ret (inl line))
             (fun e => error_msg <- upload_error_msg media e ;;
                       ret (inr error_msg)) ;;
      match r with
      | inl line => upload_each rest (responses ++ [line]) upload_errors
      | inr error_msg => upload_each rest responses (upload_errors ++ [error_msg])
      end
  end.

Definition report (status message : string) (details : list string) : pyval :=
  PDict [("status", PStr status); ("message", PStr message);
         ("details", PList (map PStr details))].

Definition upload_media (media_list : pyval) : M pyval :=
  if negb (truthy media_list) then
    ret (report "success" "No media to upload" [])
  else
    _ <- lift (py_len media_list) ;;
    items <- lift (py_iter media_list) ;;
    r <- upload_each items [] [] ;;
    match snd r with
    | _ :: _ => ret (report "error" "Some media failed to upload" (snd r))
    | [] => ret (report "success" "All media uploaded successfully" (fst r))
    end.

(** *** [queue_workflow], [get_history], [get_image_data] *)

(** [get_available_models], which the 400 branch of [queue_workflow]
    calls. *)

Definition object_info_url : string := "http://" ++ COMFY_HOST ++ "/object_info".

(** The [try] block of [get_available_models]. *)
Definition read_available_models : M pyval :=
  bind (requests_get object_info_url) (fun response =>
  bind (raise_for_status response) (fun _ =>
  bind (lift (json response)) (fun object_info =>
  bind (lift (py_in (PStr "CheckpointLoaderSimple") object_info)) (fun has_loader =>
  if has_loader then
    bind (lift (py_index object_info "CheckpointLoaderSimple")) (fun checkpoint_info =>
    bind (lift (py_in (PStr "input") checkpoint_info)) (fun has_input =>
    bind (if has_input then
            bind (lift (py_index checkpoint_info "input")) (fun input =>
            lift (py_in (PStr "required") input))
          else ret false) (fun has_required =>
    if has_required then
      bind (lift (py_index checkpoint_info "input")) (fun input =>
      bind (lift (py_index input "required")) (fun required =>
      bind (lift (py_get required "ckpt_name" PNone)) (fun ckpt_options =>
      if truthy ckpt_options then
        bind (lift (py_len ckpt_options)) (fun n =>
        if (0 <? n)%nat then
          bind (lift (py_first ckpt_options)) (fun first =>
          if is_list first then
            ret (PDict [("checkpoints", first)])
          else
            ret (PDict [("checkpoints", PList [])]))
        else ret (PDict []))
      else ret (PDict []))))
    else ret (PDict []))))
  else ret (PDict []))))).

(** [get_available_models]: whatever goes wrong, the answer is [{}]. *)
Definition get_available_models : M pyval :=
  try_except read_available_models (fun _ => ret (PDict [])).

(** [str(v)]: a string is its own text. *)
Definition str_of (v : pyval) : string :=
  match v with
  | PStr s => s
  | _ => py_str w v
  end.

(** [error_message] after the block that reads [error_data["error"]]. *)
Definition error_summary (error_data : pyval) : result pyval :=
  rbind (py_in (PStr "error") error_data) (fun has_error =>
  if has_error then
    rbind (py_index error_data "error") (fun error_info =>
    if is_dict error_info then
      rbind (py_get error_info "message" (PStr "Workflow validation failed"))
            (fun error_message =>
      rbind (py_get error_info "type" PNone) (fun type =>
      if py_eq_str type "prompt_outputs_failed_validation"
      then Ok (PStr "Workflow validation failed")
      else Ok error_message))
    else Ok (PStr (str_of error_info)))
  else Ok (PStr "Workflow validation failed")).

(** The lines appended to [error_details] for the entries of
    [node_errors]. *)
Definition node_error_lines (node_errors : list (string * pyval))
  : list string :=
  flat_map (fun entry =>
              let node_id := fst entry in
              match snd entry with
              | PDict node_error =>
                  map (fun item => "Node " ++ node_id ++ " (" ++ fst item
                                   ++ "): " ++ str_of (snd item))
                      node_error
              | node_error => ["Node " ++ node_id ++ ": " ++ str_of node_error]
              end)
           node_errors.

(** [error_details] after the block that reads [error_data["node_errors"]]. *)
Definition error_lines (error_data : pyval) : result (list string) :=
  rbind (py_in (PStr "node_errors") error_data) (fun has_node_errors =>
  if has_node_errors then
    rbind (py_index error_data "node_errors") (fun node_errors =>
    rbind (py_items node_errors) (fun entries =>
    Ok (node_error_lines entries)))
  else Ok []).

Definition msg_model_missing : string :=
  nl ++ nl ++ "This usually means a required model or parameter is not available.".
Definition msg_no_checkpoints : string :=
  "No checkpoint models appear to be available. Please check your model installation.".

(** The branch of [queue_workflow] for a response with status 400: the
    [try] block, which always ends by raising, and its [except] clause. *)
Definition queue_workflow_400 (response : response) : M pyval :=
  try_except
    (error_data <- lift (json response) ;;
     error_message <- lift (error_summary error_data) ;;
     error_details <- lift (error_lines error_data) ;;
     type <- lift (py_get error_data "type" PNone) ;;
     if py_eq_str type "prompt_outputs_failed_validation" then
       error_message <- lift (py_get error_data "message"
                                     (PStr "Workflow validation failed")) ;;
       available_models <- get_available_models ;;
       checkpoints <- lift (py_get available_models "checkpoints" PNone) ;;
       error_message <-
         (if truthy checkpoints then
            error_message <- lift (py_iadd_str error_message
                                               msg_model_missing) ;;
            listed <- lift (py_index available_models "checkpoints") ;;
            names <- lift (py_join ", " listed) ;;
            lift (py_iadd_str error_message
                              (nl ++ "Available checkpoint models: " ++ names))
          else
            error_message <- lift (py_iadd_str error_message
                                               msg_model_missing) ;;
            lift (py_iadd_str error_message (nl ++ msg_no_checkpoints))) ;;
       raise (Exn ValueError (str_of error_message))
     else if negb (is_nil error_details) then
       let detailed_message :=
         str_of error_message ++ ":" ++ nl
         ++ join_strings nl (map (fun detail => bullet ++ " " ++ detail)
                                 error_details) in
       detailed_message <-
         (if existsb (fun detail => is_substring "not in list" detail
                                    && is_substring "ckpt_name" detail)
                     error_details
          then
            available_models <- get_available_models ;;
            checkpoints <- lift (py_get available_models "checkpoints" PNone) ;;
            if truthy checkpoints then
              listed <- lift (py_index available_models "checkpoints") ;;
              names <- lift (py_join ", " listed) ;;
              ret (detailed_message ++ nl ++ nl
                   ++ "Available checkpoint models: " ++ names)
            else ret (detailed_message ++ nl ++ nl ++ msg_no_checkpoints)
          else ret detailed_message) ;;
       raise (Exn ValueError detailed_message)
     else
       raise (Exn ValueError (str_of error_message ++ ". Raw response: "
                              ++ text response)))
    (fun e =>
       if is_instance e JSONDecodeError || is_instance e KeyError then
         raise (Exn ValueError
                    ("ComfyUI validation failed (could not parse error response): "
                     ++ text response))
       else raise e).

Definition queue_workflow (workflow : pyval) (client_id : string) : M pyval :=
  response <- requests_post ("http://" ++ COMFY_HOST ++ "/prompt") ;;
  if status_code response =? 400 then queue_workflow_400 response
  else
    raise_for_status response ;;
    lift (json response).

Definition get_history (prompt_id : pyval) : M pyval :=
  response <- requests_get ("http://" ++ COMFY_HOST ++ "/history/"
                            ++ py_str w prompt_id) ;;
  raise_for_status response ;;
  lift (json response).

(** The query string is built before the [try]: what [urlencode] raises
    leaves the function. *)
Definition get_image_data (filename subfolder image_type : pyval)
  : M (option bytes) :=
  modify (log (EvFetch filename subfolder image_type)) ;;
  url_values <- lift (urlencode w [("filename", filename);
                                   ("subfolder", subfolder);
                                   ("type", image_type)]) ;;
  try_except
    (response <- requests_get ("http://" ++ COMFY_HOST ++ "/view?"
                               ++ url_values) ;;
     raise_for_status response ;;
     ret (Some (content response)))
    (fun _ => ret None).

(** *** Local variables and files of [handler] *)

Definition append_error (msg : string) : M unit :=
  modify (fun s => set_errors (errors s ++ [msg]) s).

Definition append_output (entry : pyval) : M unit :=
  modify (fun s => set_output_data (output_data s ++ [entry]) s).

Fixpoint for_each {A : Type} (f : A -> M unit) (l : list A) : M unit :=
  match l with
  | [] => ret tt
  | x :: l' => f x ;; for_each f l'
  end.

(** [with tempfile.NamedTemporaryFile(suffix=..., delete=False) as f:
      f.write(image_bytes); temp_file_path = f.name].
    The file is on disk as soon as it is opened; [delete=False] keeps it
    there when the block is left, also by an exception of [write]. *)
Definition write_temp_file (suffix : string) (image_bytes : bytes) : M unit :=
  fun s =>
    let n := fresh s in
    match tmp_create w n with
    | Some e => (Exc e, tick_fresh s)
    | None =>
        let path := tmp_name w suffix n in
        let s1 := set_files (dict_set path [] (files s))
                            (log (EvTmpCreate path) (tick_fresh s)) in
        match tmp_write w n with
        | Some e => (Exc e, s1)
        | None =>
            (Ret tt, set_temp_file_path (Some path)
                       (set_files (dict_set path image_bytes (files s1)) s1))
        end
    end.

(** Reading the local [temp_file_path]. *)
Definition local_temp_file_path : M string :=
  fun s =>
    match temp_file_path s with
    | Some path => (Ret path, s)
    | None =>
        (Exc (Exn PlainException
                  "local variable 'temp_file_path' referenced before assignment"),
         s)
    end.

Definition path_exists (path : string) (s : state) : bool :=
  match assoc path (files s) with Some _ => true | None => false end.

Definition os_remove (path : string) : M unit :=
  fun s =>
    if path_exists path s
    then (Ret tt, set_files (assoc_remove path (files s)) (log (EvRemove path) s))
    else (Exc (Exn OSError "No such file or directory"), s).

(** *** The monitoring loop of [handler] *)

Inductive loop_step : Type :=
| Continue
| Break (execution_done : bool).

Definition execution_error_details (data : pyval) : M string :=
  node_type <- lift (py_get data "node_type" PNone) ;;
  node_id <- lift (py_get data "node_id" PNone) ;;
  exception_message <- lift (py_get data "exception_message" PNone) ;;
  ret ("Node Type: " ++ py_str w node_type ++ ", Node ID: " ++ py_str w node_id
       ++ ", Message: " ++ py_str w exception_message).

(** What the loop does with one decoded text frame. *)
Definition on_message (prompt_id message : pyval) : M loop_step :=
  type <- lift (py_get message "type" PNone) ;;
  if py_eq_str type "status" then
    data <- lift (py_get message "data" (PDict [])) ;;
    status_data <- lift (py_get data "status" (PDict [])) ;;
    exec_info <- lift (py_get status_data "exec_info" (PDict [])) ;;
    _ <- lift (py_get exec_info "queue_remaining" (PStr "N/A")) ;;
    ret Continue
  else if py_eq_str type "executing" then
    data <- lift (py_get message "data" (PDict [])) ;;
    node <- lift (py_get data "node" PNone) ;;
    if is_none node then
      pid <- lift (py_get data "prompt_id" PNone) ;;
      if py_eq pid prompt_id then ret (Break true) else ret Continue
    else ret Continue
  else if py_eq_str type "execution_error" then
    data <- lift (py_get message "data" (PDict [])) ;;
    pid <- lift (py_get data "prompt_id" PNone) ;;
    if py_eq pid prompt_id then
      error_details <- execution_error_details data ;;
      append_error ("Workflow execution error: " ++ error_details) ;;
      ret (Break false)
    else ret Continue
  else ret Continue.

(** The body of [while True], for one item the socket delivers: the [try]
    block and its [except] clauses, in the order they are written. *)
Definition monitor_iteration (ws_url : string) (prompt_id : pyval)
    (fr : recv_reply) : M loop_step :=
  try_except
    (out <- ws_recv fr ;;
     match out with
     | RecvText text =>
         match json_loads w text with
         | Some message => on_message prompt_id message
         | None => raise (Exn JSONDecodeError "Expecting value")
         end
     | _ => ret Continue
     end)
    (fun e =>
       if is_instance e WebSocketTimeoutException then ret Continue
       else if is_instance e WebSocketConnectionClosedException then
         new_ws <- _attempt_websocket_reconnect ws_url
                     (WEBSOCKET_RECONNECT_ATTEMPTS w)
                     (WEBSOCKET_RECONNECT_DELAY_S w) e ;;
         modify (set_ws_var (Some new_ws)) ;;
         ret Continue
       else if is_instance e JSONDecodeError then ret Continue
       else raise e).

(** [while True]: one iteration per item the socket delivers; with nothing
    left to deliver the blocking [recv] never returns. *)
Fixpoint monitor_loop (ws_url : string) (prompt_id : pyval)
    (frames : list recv_reply) : M bool :=
  match frames with
  | [] => hang
  | fr :: rest =>
      step <- monitor_iteration ws_url prompt_id fr ;;
      match step with
      | Continue => monitor_loop ws_url prompt_id rest
      | Break execution_done => ret execution_done
      end
  end.

(** *** Collecting and publishing the artifacts *)

Definition py_splitext (v : pyval) : result string :=
  match v with
  | PStr s => Ok (splitext w s)
  | _ => Raise (Exn TypeError "expected str, bytes or os.PathLike object")
  end.

Definition s3_entry (filename : pyval) (s3_url file_key : string) : pyval :=
  PDict [("filename", filename); ("type", PStr "s3_url");
         ("data", PStr s3_url); ("s3_file_key", PStr file_key)].

Definition base64_entry (filename : pyval) (base64_image : string) : pyval :=
  PDict [("filename", filename); ("type", PStr "base64");
         ("data", PStr base64_image)].

(** The branch taken when [BUCKET_ENDPOINT_URL] is set. *)
Definition publish_s3 (job_id filename : pyval) (file_extension : string)
    (image_bytes : bytes) : M unit :=
  try_except
    (write_temp_file file_extension image_bytes ;;
     path <- local_temp_file_path ;;
     uploaded <- boto_upload_media job_id path ;;
     path <- local_temp_file_path ;;
     os_remove path ;;
     append_output (s3_entry filename (fst uploaded) (snd uploaded)))
    (fun e =>
       append_error ("Error uploading " ++ py_str w filename ++ " to S3: "
                     ++ exn_text e) ;;
       s <- get_state ;;
       match temp_file_path s with
       | Some path =>
           if path_exists path s then
             try_except (os_remove path)
               (fun rm_err =>
                  if is_instance rm_err OSError then ret tt else raise rm_err)
           else ret tt
       | None => ret tt
       end).

(** The branch taken otherwise. *)
Definition publish_inline (filename : pyval) (image_bytes : bytes) : M unit :=
  append_output (base64_entry filename (b64encode image_bytes)).

Definition process_image (job_id : pyval) (node_id : string)
    (image_info : pyval) : M unit :=
  filename <- lift (py_get image_info "filename" PNone) ;;
  subfolder <- lift (py_get image_info "subfolder" (PStr "")) ;;
  img_type <- lift (py_get image_info "type" PNone) ;;
  if py_eq_str img_type "temp" then ret tt
  else if negb (truthy filename) then
    append_error ("Skipping image in node " ++ node_id
                  ++ " due to missing filename: " ++ py_str w image_info)
  else
    image_bytes <- get_image_data filename subfolder img_type ;;
    match image_bytes with
    | Some ((_ :: _) as data) =>
        ext <- lift (py_splitext filename) ;;
        let file_extension := if String.eqb ext "" then ".bin" else ext in
        if negb (unset (environ w "BUCKET_ENDPOINT_URL"))
        then publish_s3 job_id filename file_extension data
        else publish_inline filename data
    | _ =>
        append_error ("Failed to fetch image data for " ++ py_str w filename
                      ++ " from /view endpoint.")
    end.

Definition process_node (job_id : pyval) (node : string * pyval) : M unit :=
  let node_id := fst node in
  let node_output := snd node in
  has_images <- lift (py_in (PStr "images") node_output) ;;
  (if has_images then
     images <- lift (py_index node_output "images") ;;
     _ <- lift (py_len images) ;;
     items <- lift (py_iter images) ;;
     for_each (process_image job_id node_id) items
   else ret tt) ;;
  _ <- lift (py_keys node_output) ;;
  ret tt.

(** *** [handler] *)

Definition error_result (message : string) : pyval :=
  PDict [("error", PStr message)].

Definition error_result_with (message : string) (details : pyval) : pyval :=
  PDict [("error", PStr message); ("details", details)].

Definition str_list (l : list string) : pyval := PList (map PStr l).

Definition msg_unreachable : string :=
  "ComfyUI server (" ++ COMFY_HOST ++ ") not reachable after multiple retries.".
Definition msg_incomplete_monitoring : string :=
  "Workflow monitoring loop exited without confirmation of completion or error.".

(** From the end of the monitoring loop to the end of the [try] block.
    [Some r] is a [return r] from inside the block. *)
Definition after_monitoring (job_id prompt_id : pyval) (execution_done : bool)
  : M (option pyval) :=
  s <- get_state ;;
  if negb execution_done && is_nil (errors s) then
    raise (Exn ValueError msg_incomplete_monitoring)
  else
    history <- get_history prompt_id ;;
    present <- lift (py_in prompt_id history) ;;
    if negb present then
      let error_msg := "Prompt ID " ++ py_str w prompt_id
                       ++ " not found in history after execution." in
      s <- get_state ;;
      if is_nil (errors s) then ret (Some (error_result error_msg))
      else
        append_error error_msg ;;
        s <- get_state ;;
        ret (Some (error_result_with
                     "Job processing failed, prompt ID not found in history."
                     (str_list (errors s))))
    else
      prompt_history <- lift (py_get_val history prompt_id (PDict [])) ;;
      outputs <- lift (py_get prompt_history "outputs" (PDict [])) ;;
      (if negb (truthy outputs) then
         s <- get_state ;;
         if is_nil (errors s) then
           append_error ("No outputs found in history for prompt "
                         ++ py_str w prompt_id ++ ".")
         else ret tt
       else ret tt) ;;
      _ <- lift (py_len outputs) ;;
      nodes <- lift (py_items outputs) ;;
      for_each (process_node job_id) nodes ;;
      ret None.

(** Queueing the workflow, with the conversion of every failure into a
    [ValueError]. *)
Definition queue_and_get_prompt_id (workflow : pyval) (client_id : string)
  : M pyval :=
  try_except
    (queued_workflow <- queue_workflow workflow client_id ;;
     prompt_id <- lift (py_get queued_workflow "prompt_id" PNone) ;;
     if negb (truthy prompt_id) then
       raise (Exn ValueError ("Missing 'prompt_id' in queue response: "
                              ++ py_str w queued_workflow))
     else ret prompt_id)
    (fun e =>
       if is_instance e RequestException then
         raise (Exn ValueError ("Error queuing workflow: " ++ exn_text e))
       else if is_instance e ValueError then raise e
       else raise (Exn ValueError ("Unexpected error queuing workflow: "
                                   ++ exn_text e))).

(** The body of the outer [try]. *)
Definition handler_try (job_id workflow : pyval) (client_id : string)
  : M (option pyval) :=
  let ws_url := "ws://" ++ COMFY_HOST ++ "/ws?clientId=" ++ client_id in
  sock <- WebSocket ;;
  modify (set_ws_var (Some sock)) ;;
  ws_connect sock ws_url ;;
  prompt_id <- queue_and_get_prompt_id workflow client_id ;;
  execution_done <- monitor_loop ws_url prompt_id (incoming w) ;;
  after_monitoring job_id prompt_id execution_done.

(** The [except] clauses of the outer [try], in the order written. *)
Definition handler_except (e : exn) : M (option pyval) :=
  if is_instance e WebSocketException then
    ret (Some (error_result ("WebSocket communication error: " ++ exn_text e)))
  else if is_instance e RequestException then
    ret (Some (error_result ("HTTP communication error with ComfyUI: "
                             ++ exn_text e)))
  else if is_instance e ValueError then
    ret (Some (error_result (exn_text e)))
  else
    ret (Some (error_result ("An unexpected error occurred: " ++ exn_text e))).

(** [finally: if ws and ws.connected: ws.close()] *)
Definition handler_finally : M unit :=
  s <- get_state ;;
  match ws_var s with
  | Some sock =>
      connected <- ws_connected sock ;;
      if connected then ws_close sock else ret tt
  | None => ret tt
  end.

(** The lines after the [try] statement. *)
Definition assemble_result (output_data : list pyval) (errors : list string)
  : pyval :=
  let final_result : list (string * pyval) := [] in
  let final_result :=
    if is_nil output_data then final_result
    else dict_set "media" (PList output_data) final_result in
  let final_result :=
    if is_nil errors then final_result
    else dict_set "errors" (str_list errors) final_result in
  if is_nil output_data && negb (is_nil errors) then
    error_result_with "Job processing failed" (str_list errors)
  else if is_nil output_data && is_nil errors then
    PDict (dict_set "media" (PList [])
             (dict_set "status" (PStr "success_no_media") final_result))
  else PDict final_result.

(** [if error_message:] *)
Definition message_given (error_message : option string) : bool :=
  match error_message with
  | Some msg => negb (String.eqb msg "")
  | None => false
  end.

Definition option_pyval (o : option pyval) : pyval :=
  match o with Some v => v | None => PNone end.

(** [ws = None; prompt_id = None; output_data = []; errors = []], in a
    frame where [temp_file_path] is not bound yet. *)
Definition reset_locals (s : state) : state :=
  set_temp_file_path None
    (set_output_data [] (set_errors [] (set_ws_var None s))).

(** The outer [try ... except ... finally] statement. *)
Definition guarded_try (job_id workflow : pyval) (client_id : string)
  : M (option pyval) :=
  try_finally
    (try_except (handler_try job_id workflow client_id) handler_except)
    handler_finally.

(** The part of [handler] that starts with [ws = None]. *)
Definition run_workflow (job_id workflow : pyval) : M pyval :=
  modify reset_locals ;;
  s <- get_state ;;
  modify tick_fresh ;;
  let client_id := uuid4 w (fresh s) in
  returned <- guarded_try job_id workflow client_id ;;
  match returned with
  | Some result => ret result
  | None =>
      s <- get_state ;;
      ret (assemble_result (output_data s) (errors s))
  end.

(** [if input_media: ...]: [Some r] is a [return r]. *)
Definition upload_inputs (input_media : pyval) : M (option pyval) :=
  if truthy input_media then
    upload_result <- upload_media input_media ;;
    status <- lift (py_index upload_result "status") ;;
    if py_eq_str status "error" then
      details <- lift (py_index upload_result "details") ;;
      ret (Some (error_result_with
                   "Failed to upload one or more input media" details))
    else ret None
  else ret None.

Definition handler (job : pyval) : M pyval :=
  job_input <- lift (py_index job "input") ;;
  job_id <- lift (py_index job "id") ;;
  validated <- lift (validate_input job_input) ;;
  if message_given (snd validated) then
    ret (error_result (match snd validated with Some m => m | None => "" end))
  else
    let validated_data := option_pyval (fst validated) in
    workflow <- lift (py_index validated_data "workflow") ;;
    input_media <- lift (py_get validated_data "media" PNone) ;;
    ready <- check_server ("http://" ++ COMFY_HOST ++ "/")
                          COMFY_API_AVAILABLE_MAX_RETRIES
                          COMFY_API_AVAILABLE_INTERVAL_MS ;;
    if negb ready then ret (error_result msg_unreachable)
    else
      upload_failure <- upload_inputs input_media ;;
      match upload_failure with
      | Some result => ret result
      | None => run_workflow job_id workflow
      end.
End Handler.

(** ** Sample worlds

    Concrete answers of the libraries, used to run the functions above on
    explicit inputs. *)

Definition show (v : pyval) : string :=
  match v with
  | PStr s => s
  | PNone => "None"
  | PBool true => "True"
  | PBool false => "False"
  | _ => "<value>"
  end.

Definition last_dot_suffix (s : string) : string :=
  match String.index 0 "." s with
  | Some i => substring i (String.length s - i) s
  | None => ""
  end.

Definition ok_response (body : pyval) : response :=
  Response 200 [] "" (Ok body).

(** A short stand-in for a query string: the type and the file name. *)
Definition sample_query (d : list (string * pyval)) : string :=
  show (match assoc "type" d with
        | Some t => t
        | None => PNone
        end)
  ++ "/" ++
  show (match assoc "filename" d with
        | Some f => f
        | None => PNone
        end).

Definition sample_world
    (parsed : list (string * pyval))
    (env : list (string * string))
    (gets posts : string -> nat -> result response)
    (handshakes : string -> nat -> option exn)
    (frames : list recv_reply)
    (writes : nat -> option exn)
    (puts : string -> option exn) : World :=
  {| json_loads := fun s => assoc s parsed;
     py_str := show;
     urlencode := fun d => Ok (sample_query d);
     splitext := last_dot_suffix;
     b64decode := fun s => match b64decode_strict s with
                           | Some b => Ok b
                           | None => Raise (Exn BinasciiError "Incorrect padding")
                           end;
     from_buffer := fun _ => "application/octet-stream";
     environ := fun k => assoc k env;
     WEBSOCKET_RECONNECT_ATTEMPTS := 5;
     WEBSOCKET_RECONNECT_DELAY_S := 3;
     uuid4 := fun _ => "0f8fad5b-d9cb-469f-a165-70867728950e";
     http_get := gets;
     http_post := posts;
     ws_handshake := handshakes;
     incoming := frames;
     tmp_name := fun suffix n =>
                   "/tmp/tmp" ++ String (ascii_of_nat (48 + n)) "" ++ suffix;
     tmp_create := fun _ => None;
     tmp_write := writes;
     s3_get_object := fun _ _ _ => Raise (Exn PlainException "NoSuchKey");
     s3_put_object := fun _ _ key => puts key;
     s3_presign := fun _ _ key => Ok ("https://bucket.example/" ++ key);
     boto3_client := fun endpoint access_key secret reg =>
                       Ok (BotoClient endpoint access_key secret reg) |}.

(** A world in which the engine is up, answers every GET and POST with 200
    and an empty JSON object, and accepts every handshake. *)
Definition calm_world (parsed : list (string * pyval)) (frames : list recv_reply)
  : World :=
  sample_world parsed []
    (fun _ _ => Ok (ok_response (PDict [])))
    (fun _ _ => Ok (ok_response (PDict [])))
    (fun _ _ => None) frames (fun _ => None) (fun _ => None).

Definition root_url : string := "http://" ++ COMFY_HOST ++ "/".

Definition plain_job_input : pyval :=
  PDict [("workflow", PDict [("3", PDict [("class_type", PStr "KSampler")])])].

(** The engine never answers. *)
Definition down_world : World :=
  sample_world [] []
    (fun _ _ => Raise (Exn RequestException "Connection refused"))
    (fun _ _ => Raise (Exn RequestException "Connection refused"))
    (fun _ _ => Some (Exn ConnectionRefusedError "Connection refused"))
    [] (fun _ => None) (fun _ => None).

(** The engine answers 503 twice and 200 from the third request on. *)
Definition warming_world : World :=
  sample_world [] []
    (fun _ n => if (n <? 2)%nat then Ok (Response 503 [] "" (Raise (Exn JSONDecodeError "")))
                else Ok (ok_response (PDict [])))
    (fun _ _ => Ok (ok_response (PDict [])))
    (fun _ _ => None) [] (fun _ => None) (fun _ => None).

(** The media kinds [upload_media] knows. *)
Definition recognized_type (media_type : pyval) : bool :=
  py_eq_str media_type "base64" || py_eq_str media_type "web"
  || py_eq_str media_type "s3".

(** What is wrong with the [type] field of an item, as the text of the
    exception the item ends with: [KeyError('type')] when the field is
    missing, the explicit [Exception] when its value is not a known kind. *)
Definition type_problem (w : World) (d : list (string * pyval)) : option string :=
  match assoc "type" d with
  | None => Some "'type'"
  | Some media_type =>
      if recognized_type media_type then None
      else Some ("Unknown media type " ++ py_str w media_type)
  end.

(** An item as the validator requires it: an object with [name] and
    [media]. *)
Definition well_formed_item (media : pyval) : Prop :=
  exists d name data,
    media = PDict d /\ assoc "name" d = Some name /\ assoc "media" d = Some data.

(** One iteration of the loop of [upload_media]. *)
Definition upload_item (w : World) (media : pyval) : M (string + string) :=
  try_except
    (bind (upload_one w media) (fun line => ret (inl line)))
    (fun e => bind (upload_error_msg w media e)
                   (fun error_msg => ret (inr error_msg))).

Definition item_inline : pyval :=
  PDict [("name", PStr "in.png"); ("media", PStr "AQI="); ("type", PStr "base64")].
Definition item_untyped : pyval :=
  PDict [("name", PStr "mask.png"); ("media", PStr "AQI=")].
Definition item_odd_type : pyval :=
  PDict [("name", PStr "clip.mp4"); ("media", PStr "AQI="); ("type", PStr "ftp")].

(** *** Reading a trace *)

Definition is_connect (e : event) : bool :=
  match e with EvWsConnect _ _ => true | _ => false end.

(** Number of websocket handshakes attempted in a trace. *)
Definition count_connects (t : list event) : nat :=
  List.length (filter is_connect t).

(** Every handshake in the trace goes to [ws_url] and comes right after a
    GET of the engine's root; [probed] tells whether such a GET came just
    before the trace. *)
Fixpoint probes_precede_connects (ws_url : string) (probed : bool)
    (t : list event) : bool :=
  match t with
  | [] => true
  | EvHttpGet u :: t' =>
      probes_precede_connects ws_url (String.eqb u root_url) t'
  | EvWsConnect u _ :: t' =>
      probed && String.eqb u ws_url && probes_precede_connects ws_url false t'
  | _ :: t' => probes_precede_connects ws_url false t'
  end.

(** The state after one probe of [_comfy_server_status]. *)
Definition probed (s : state) : state :=
  tick_reqs (log (EvHttpGet root_url) s).

(** The state after a handshake attempt on a fresh socket. *)
Definition tried (ws_url : string) (s : state) : state :=
  log (EvWsConnect ws_url (List.length (socks s)))
      (set_socks (socks s ++ [false]) (probed s)).

(** *** Reading the sockets *)

(** No websocket object is connected. *)
Definition all_closed (l : list bool) : Prop := Forall (fun b => b = false) l.

(** The object numbered [sock] is connected, and no other. *)
Definition only_open (sock : nat) (l : list bool) : Prop :=
  exists before after,
    l = (before ++ true :: after)%list /\ List.length before = sock
    /\ all_closed before /\ all_closed after.


Definition connection_closed (e : exn) : bool :=
  is_instance e WebSocketConnectionClosedException.

Definition demo_ws_url : string :=
  "ws://" ++ COMFY_HOST ++ "/ws?clientId=0f8fad5b-d9cb-469f-a165-70867728950e".

Definition lost_connection : exn :=
  Exn WebSocketConnectionClosedException "Connection to remote host was lost.".

(** The engine answers over HTTP; its websocket endpoint refuses the first
    two handshakes and accepts the third. *)
Definition flaky_world : World :=
  sample_world [] []
    (fun _ _ => Ok (ok_response (PDict [])))
    (fun _ _ => Ok (ok_response (PDict [])))
    (fun _ n => if (n <? 2)%nat
                then Some (Exn ConnectionRefusedError "Connection refused")
                else None)
    [] (fun _ => None) (fun _ => None).


(** *** Reading the frames *)

Definition message_type_is (message : pyval) (t : string) : bool :=
  match py_get message "type" PNone with
  | Ok type => py_eq_str type t
  | Raise _ => false
  end.

(** An [executing] message with a null node and the prompt id of the job:
    the engine has finished. *)
Definition is_completion_message (prompt_id message : pyval) : bool :=
  message_type_is message "executing"
  && match py_get message "data" (PDict []) with
     | Ok data =>
         match py_get data "node" PNone, py_get data "prompt_id" PNone with
         | Ok node, Ok pid => is_none node && py_eq pid prompt_id
         | _, _ => false
         end
     | Raise _ => false
     end.

(** An [execution_error] message with the prompt id of the job. *)
Definition is_error_message (prompt_id message : pyval) : bool :=
  message_type_is message "execution_error"
  && match py_get message "data" (PDict []) with
     | Ok data =>
         match py_get data "prompt_id" PNone with
         | Ok pid => py_eq pid prompt_id
         | Raise _ => false
         end
     | Raise _ => false
     end.

Definition frame_message (w : World) (fr : recv_reply) : option pyval :=
  match fr with
  | RecvText text => json_loads w text
  | _ => None
  end.

Definition completion_signal (w : World) (prompt_id : pyval) (fr : recv_reply)
  : bool :=
  match frame_message w fr with
  | Some message => is_completion_message prompt_id message
  | None => false
  end.

Definition execution_error_signal (w : World) (prompt_id : pyval)
    (fr : recv_reply) : bool :=
  match frame_message w fr with
  | Some message => is_error_message prompt_id message
  | None => false
  end.

(** *** Invariants of the state *)

(** [m] keeps [P]: from a state where [P] holds it leads, however it ends,
    to a state where [P] holds. *)
Definition preserves {A : Type} (P : state -> Prop) (m : M A) : Prop :=
  forall s r s', P s -> m s = (r, s') -> P s'.

(** An event that is not a fetch of a [temp] artifact. *)
Definition benign (e : event) : bool :=
  match e with
  | EvFetch _ _ image_type => negb (py_eq_str image_type "temp")
  | _ => true
  end.

(** No artifact of type [temp] was fetched. *)
Definition no_temp_fetch (s : state) : Prop :=
  Forall (fun e => benign e = true) (trace s).

(** At most the socket the local [ws] names is connected. *)
Definition ws_tracks_open_socket (s : state) : Prop :=
  all_closed (socks s)
  \/ exists sock, ws_var s = Some sock /\ only_open sock (socks s).

(** An artifact descriptor whose [type] is [temp]. *)
Definition is_temp_descriptor (image_info : pyval) : bool :=
  match image_info with
  | PDict d =>
      match assoc "type" d with
      | Some image_type => py_eq_str image_type "temp"
      | None => false
      end
  | _ => false
  end.

Definition demo_history : pyval :=
  PDict [("p1", PDict [("outputs", PDict [("9", PDict [("images", PList [
     PDict [("filename", PStr "a.png"); ("subfolder", PStr "");
            ("type", PStr "output")];
     PDict [("filename", PStr "t.png"); ("subfolder", PStr "");
            ("type", PStr "temp")]])])])])].

Definition demo_parsed : list (string * pyval) :=
  [("done", PDict [("type", PStr "executing");
                   ("data", PDict [("node", PNone); ("prompt_id", PStr "p1")])])].

Definition demo_gets (url : string) (n : nat) : result response :=
  if String.eqb url ("http://" ++ COMFY_HOST ++ "/history/p1")
  then Ok (ok_response demo_history)
  else Ok (Response 200 [x01; x02] "" (Ok (PDict []))).

Definition demo_posts (url : string) (n : nat) : result response :=
  Ok (ok_response (PDict [("prompt_id", PStr "p1")])).

(** A job that completes: one frame announces the end of the execution, the
    history lists one output image and one temporary preview, every artifact
    can be fetched, and no bucket is configured. *)
Definition demo_world : World :=
  sample_world demo_parsed [] demo_gets demo_posts (fun _ _ => None)
               [RecvText "done"] (fun _ => None) (fun _ => None).

Definition demo_job : pyval :=
  PDict [("input", plain_job_input); ("id", PStr "job-1")].

Definition bucket_env : list (string * string) :=
  [("BUCKET_ENDPOINT_URL", "https://s3.example");
   ("BUCKET_ACCESS_KEY_ID", "key"); ("BUCKET_SECRET_ACCESS_KEY", "secret");
   ("BUCKET_NAME", "renders")].

Definition disk_full : exn := Exn OSError "[Errno 28] No space left on device".

(** The job of [demo_world] with a bucket configured and a full disk: the
    temporary file can be created, writing the image into it fails. *)
Definition full_disk_world : World :=
  sample_world demo_parsed bucket_env demo_gets demo_posts (fun _ _ => None)
               [RecvText "done"] (fun _ => Some disk_full) (fun _ => None).

(** The same job with a bucket that refuses the upload. *)
Definition failing_bucket_world : World :=
  sample_world demo_parsed bucket_env demo_gets demo_posts (fun _ _ => None)
               [RecvText "done"] (fun _ => None)
               (fun _ => Some (Exn PlainException "AccessDenied")).

(** The same job with a working bucket. *)
Definition bucket_world : World :=
  sample_world demo_parsed bucket_env demo_gets demo_posts (fun _ _ => None)
               [RecvText "done"] (fun _ => None) (fun _ => None).

(** The connection drops once while the job runs; the second handshake of
    the reconnection succeeds. *)
Definition dropping_world : World :=
  sample_world demo_parsed [] demo_gets demo_posts
               (fun _ n => if (n =? 1)%nat
                           then Some (Exn ConnectionRefusedError "Connection refused")
                           else None)
               [RecvRaises lost_connection; RecvText "done"]
               (fun _ => None) (fun _ => None).

(** The connection drops and the engine refuses every new handshake. *)
Definition lost_world : World :=
  sample_world demo_parsed [] demo_gets demo_posts
               (fun _ n => if (n =? 0)%nat then None
                           else Some (Exn ConnectionRefusedError "Connection refused"))
               [RecvRaises lost_connection; RecvText "done"]
               (fun _ => None) (fun _ => None).

Definition demo_workflow : pyval :=
  PDict [("3", PDict [("class_type", PStr "KSampler")])].

(** A payload whose [media] list holds a number. *)
Definition job_with_bad_media : pyval :=
  PDict [("workflow", PDict [("key", PStr "value")]); ("media", PList [PInt 1])].

(** *** Reading the answers of the engine *)

(** An attempt that does not find the engine ready: a response with another
    status, or a [requests] exception ([Timeout] is one). *)
Definition is_miss (r : result response) : bool :=
  match r with
  | Ok resp => negb (status_code resp =? 200)
  | Raise e => is_instance e RequestException
  end.

Definition is_ready (r : result response) : bool :=
  match r with
  | Ok resp => status_code resp =? 200
  | Raise _ => false
  end.

(** [returns m]: whatever the state, [m] ends, with a value or with an
    exception. *)
Definition returns {A : Type} (m : M A) : Prop :=
  forall s s', m s <> (Hang, s').

(** The engine answers the probe of round [k], counted from state [s]. *)
Definition probe_ok (w : World) (s : state) (k : nat) : Prop :=
  is_ready (http_get w root_url (reqs s + k)) = true.

(** The handshake of round [k] fails with one of the exceptions the loop
    catches. *)
Definition handshake_fails (w : World) (ws_url : string) (s : state) (k : nat)
  : Prop :=
  exists e, ws_handshake w ws_url (List.length (socks s) + k) = Some e
            /\ handshake_failure e = true.

(** The sockets and the local [ws] are as given. *)
Definition sockets_are (l : list bool) (v : option nat) (s : state) : Prop :=
  socks s = l /\ ws_var s = v.

(** [ws_tracks_open_socket], as a property of the two fields it reads. *)
Definition tracked (l : list bool) (v : option nat) : Prop :=
  all_closed l \/ exists sock, v = Some sock /\ only_open sock l.

(** The recorded outputs and errors are those of state [s0]. *)
Definition records_of (s0 s : state) : Prop :=
  output_data s = output_data s0 /\ errors s = errors s0.

(** The [try] block of the publication, up to the removal of the file. *)
Definition upload_steps (w : World) (job_id : pyval) (file_extension : string)
    (image_bytes : bytes) : M (string * string) :=
  bind (write_temp_file w file_extension image_bytes) (fun _ =>
  bind local_temp_file_path (fun path =>
  bind (boto_upload_media w job_id path) (fun uploaded =>
  bind local_temp_file_path (fun path =>
  bind (os_remove path) (fun _ => ret uploaded))))).

(** The temporary files and the local [temp_file_path] are as given. *)
Definition disk_is (l : list (string * bytes)) (p : option string) (s : state)
  : Prop :=
  files s = l /\ temp_file_path s = p.

(** The [filename] of a published entry and of an artifact descriptor. *)
Definition entry_filename (entry : pyval) : option pyval :=
  match entry with
  | PDict d => assoc "filename" d
  | _ => None
  end.

Definition descriptor_filename (image_info : pyval) : pyval :=
  match py_get image_info "filename" PNone with
  | Ok filename => filename
  | Raise _ => PNone
  end.

(** The outputs are as given. *)
Definition outputs_are (l : list pyval) (s : state) : Prop := output_data s = l.

(** The query string [get_image_data] builds, and the URL it asks for. *)
Definition view_query (w : World) (filename subfolder image_type : pyval)
  : result string :=
  urlencode w [("filename", filename); ("subfolder", subfolder);
               ("type", image_type)].

Definition view_url (url_values : string) : string :=
  "http://" ++ COMFY_HOST ++ "/view?" ++ url_values.

(** The fields [process_image] reads from a descriptor. *)
Definition descriptor_subfolder (d : list (string * pyval)) : pyval :=
  match assoc "subfolder" d with Some x => x | None => PStr "" end.

Definition descriptor_type (d : list (string * pyval)) : pyval :=
  match assoc "type" d with Some x => x | None => PNone end.

(** An object that holds both [name] and [media]. *)
Definition has_name_and_media (media : pyval) : bool :=
  match media with
  | PDict d =>
      match assoc "name" d, assoc "media" d with
      | Some _, Some _ => true
      | _, _ => false
      end
  | _ => false
  end.

Definition is_object (v : pyval) : bool :=
  match v with PDict _ => true | _ => false end.

(** ** Further functions of the module *)

(** An [/object_info] answer that lists two checkpoints. *)
Definition demo_object_info : pyval :=
  PDict [("KSampler", PDict []);
         ("CheckpointLoaderSimple",
          PDict [("input",
                  PDict [("required",
                          PDict [("ckpt_name",
                                  PList [PList [PStr "sd15.safetensors";
                                                PStr "sdxl.safetensors"];
                                         PDict []])])])])].

Definition models_world : World :=
  sample_world [] []
    (fun _ _ => Ok (ok_response demo_object_info))
    (fun _ _ => Ok (ok_response (PDict [])))
    (fun _ _ => None) [] (fun _ => None) (fun _ => None).

(** The variables [get_boto_upload_client] and [get_boto_download_client]
    require, in the order they test them. *)
Definition upload_vars : list string :=
  ["BUCKET_ENDPOINT_URL"; "BUCKET_ACCESS_KEY_ID"; "BUCKET_SECRET_ACCESS_KEY";
   "BUCKET_NAME"].

Definition download_vars : list string :=
  ["BUCKET_DOWNLOAD_ENDPOINT_URL"; "BUCKET_DOWNLOAD_ACCESS_KEY_ID";
   "BUCKET_DOWNLOAD_SECRET_ACCESS_KEY"; "BUCKET_DOWNLOAD_NAME"].

Definition all_set (w : World) (vars : list string) : Prop :=
  Forall (fun var => unset (environ w var) = false) vars.

(** What [boto3.client] makes of the upload and of the download
    variables. *)
Definition boto3_upload (w : World) : result boto_client :=
  boto3_client w (environ w "BUCKET_ENDPOINT_URL")
                 (environ w "BUCKET_ACCESS_KEY_ID")
                 (environ w "BUCKET_SECRET_ACCESS_KEY")
                 (environ w "BUCKET_REGION").

Definition boto3_download (w : World) : result boto_client :=
  boto3_client w (environ w "BUCKET_DOWNLOAD_ENDPOINT_URL")
                 (environ w "BUCKET_DOWNLOAD_ACCESS_KEY_ID")
                 (environ w "BUCKET_DOWNLOAD_SECRET_ACCESS_KEY")
                 (environ w "BUCKET_DOWNLOAD_REGION").

(** The client and the bucket of the upload and of the download variables,
    for a configuration [boto3.client] accepts. *)
Definition upload_client (w : World) : boto_client * option string :=
  (BotoClient (environ w "BUCKET_ENDPOINT_URL")
              (environ w "BUCKET_ACCESS_KEY_ID")
              (environ w "BUCKET_SECRET_ACCESS_KEY")
              (environ w "BUCKET_REGION"),
   environ w "BUCKET_NAME").

Definition download_client (w : World) : boto_client * option string :=
  (BotoClient (environ w "BUCKET_DOWNLOAD_ENDPOINT_URL")
              (environ w "BUCKET_DOWNLOAD_ACCESS_KEY_ID")
              (environ w "BUCKET_DOWNLOAD_SECRET_ACCESS_KEY")
              (environ w "BUCKET_DOWNLOAD_REGION"),
   environ w "BUCKET_DOWNLOAD_NAME").

(** A world that only has an environment. *)
Definition env_world (env : list (string * string)) : World :=
  sample_world [] env
    (fun _ _ => Ok (ok_response (PDict [])))
    (fun _ _ => Ok (ok_response (PDict [])))
    (fun _ _ => None) [] (fun _ => None) (fun _ => None).

(** World [w] with another [boto3.client]. *)
Definition with_boto3_client (w : World)
    (f : option string -> option string -> option string -> option string ->
         result boto_client) : World :=
  {| json_loads := json_loads w; py_str := py_str w; urlencode := urlencode w;
     splitext := splitext w; b64decode := b64decode w;
     from_buffer := from_buffer w; environ := environ w;
     WEBSOCKET_RECONNECT_ATTEMPTS := WEBSOCKET_RECONNECT_ATTEMPTS w;
     WEBSOCKET_RECONNECT_DELAY_S := WEBSOCKET_RECONNECT_DELAY_S w;
     uuid4 := uuid4 w; http_get := http_get w; http_post := http_post w;
     ws_handshake := ws_handshake w; incoming := incoming w;
     tmp_name := tmp_name w; tmp_create := tmp_create w;
     tmp_write := tmp_write w; s3_get_object := s3_get_object w;
     s3_put_object := s3_put_object w; s3_presign := s3_presign w;
     boto3_client := f |}.

(** A [boto3.client] that refuses an endpoint without a scheme. *)
Definition strict_boto3 (endpoint access_key secret reg : option string)
  : result boto_client :=
  match endpoint with
  | Some url =>
      if is_substring "://" url
      then Ok (BotoClient endpoint access_key secret reg)
      else Raise (Exn ValueError ("Invalid endpoint: " ++ url))
  | None => Ok (BotoClient endpoint access_key secret reg)
  end.

(** A complete bucket configuration whose endpoint is not a URL. *)
Definition malformed_bucket_env : list (string * string) :=
  [("BUCKET_ENDPOINT_URL", "s3.example");
   ("BUCKET_ACCESS_KEY_ID", "key"); ("BUCKET_SECRET_ACCESS_KEY", "secret");
   ("BUCKET_NAME", "outputs")].

Definition malformed_bucket_world : World :=
  with_boto3_client (env_world malformed_bucket_env) strict_boto3.

(** A complete download configuration whose endpoint is not a URL, beside
    an upload configuration. *)
Definition malformed_download_env : list (string * string) :=
  [("BUCKET_DOWNLOAD_ENDPOINT_URL", "in.example");
   ("BUCKET_DOWNLOAD_ACCESS_KEY_ID", "in-key");
   ("BUCKET_DOWNLOAD_SECRET_ACCESS_KEY", "in-secret");
   ("BUCKET_DOWNLOAD_NAME", "inputs");
   ("BUCKET_ENDPOINT_URL", "https://s3.example");
   ("BUCKET_ACCESS_KEY_ID", "key"); ("BUCKET_SECRET_ACCESS_KEY", "secret");
   ("BUCKET_NAME", "outputs")].

Definition malformed_download_world : World :=
  with_boto3_client (env_world malformed_download_env) strict_boto3.

(** A bucket configuration without the bucket name. *)
Definition nameless_bucket_env : list (string * string) :=
  [("BUCKET_ENDPOINT_URL", "https://s3.example");
   ("BUCKET_ACCESS_KEY_ID", "key"); ("BUCKET_SECRET_ACCESS_KEY", "secret")].

(** A download configuration beside an upload configuration. *)
Definition two_buckets_env : list (string * string) :=
  [("BUCKET_DOWNLOAD_ENDPOINT_URL", "https://in.example");
   ("BUCKET_DOWNLOAD_ACCESS_KEY_ID", "in-key");
   ("BUCKET_DOWNLOAD_SECRET_ACCESS_KEY", "in-secret");
   ("BUCKET_DOWNLOAD_NAME", "inputs")] ++ bucket_env.

(** The prefixes the [except] clauses of [handler] put before the text of
    the exception they caught. *)
Definition except_prefixes : list string :=
  ["WebSocket communication error: "; "HTTP communication error with ComfyUI: ";
   ""; "An unexpected error occurred: "].

(** The state in which the [try] statement of [handler] is entered. *)
Definition try_entry (s : state) : state := tick_fresh (reset_locals s).

(** The client id of the run that starts in [s]. *)
Definition run_client_id (w : World) (s : state) : string :=
  uuid4 w (fresh (reset_locals s)).

(** A 4xx or 5xx status. *)
Definition is_http_error (resp : response) : bool :=
  (400 <=? status_code resp)%Z && (status_code resp <? 600)%Z.

(** What [get_image_data] makes of the answer of [/view]. *)
Definition fetched (r : result response) : option bytes :=
  match r with
  | Ok resp => if is_http_error resp then None else Some (content resp)
  | Raise _ => None
  end.

(** A world whose engine refuses every request. *)
Definition offline_world : World :=
  sample_world [] []
    (fun _ _ => Raise (Exn RequestException "connection refused"))
    (fun _ _ => Raise (Exn RequestException "connection refused"))
    (fun _ _ => None) [] (fun _ => None) (fun _ => None).

(** The messages [validate_input] can give. *)
Definition validation_messages : list string :=
  [msg_no_input; msg_invalid_json; msg_missing_workflow; msg_malformed_media].

Definition msg_upload_failed : string :=
  "Failed to upload one or more input media".

(** A job whose payload is not valid JSON. *)
Definition garbled_job : pyval :=
  PDict [("id", PStr "job-1"); ("input", PStr "invalid json")].

(** A job whose second input has a kind the worker does not know. *)
Definition job_with_odd_input : pyval :=
  PDict [("id", PStr "job-1");
         ("input", PDict [("workflow", demo_workflow);
                          ("media", PList [item_inline; item_odd_type])])].

(** *** Frames the monitoring loop passes over *)

(** [d.get(k, default)] on the entries of an object. *)
Definition field_or (k : string) (default : pyval) (d : list (string * pyval))
  : pyval :=
  match assoc k d with Some x => x | None => default end.

(** The [data] of a message names another prompt. *)
Definition other_prompt (prompt_id data : pyval) : bool :=
  match data with
  | PDict dd => negb (py_eq (field_or "prompt_id" PNone dd) prompt_id)
  | _ => false
  end.

(** The [data] of an [executing] message names a node: the run goes on. *)
Definition still_running (data : pyval) : bool :=
  match data with
  | PDict dd => negb (is_none (field_or "node" PNone dd))
  | _ => false
  end.

(** The [data] of a [status] message, with objects where the loop reads
    fields. *)
Definition status_update (data : pyval) : bool :=
  match data with
  | PDict dd =>
      match field_or "status" (PDict []) dd with
      | PDict sd =>
          match field_or "exec_info" (PDict []) sd with
          | PDict _ => true
          | _ => false
          end
      | _ => false
      end
  | _ => false
  end.

(** A decoded message that is neither the end nor the failure of the
    prompt: a status update, a node of this run or news of another prompt,
    or a message of a type the loop does not look at. *)
Definition passing_message (prompt_id message : pyval) : bool :=
  match message with
  | PDict m =>
      let type := field_or "type" PNone m in
      let data := field_or "data" (PDict []) m in
      if py_eq_str type "status" then status_update data
      else if py_eq_str type "executing" then
        still_running data || other_prompt prompt_id data
      else if py_eq_str type "execution_error" then
        other_prompt prompt_id data
      else true
  | _ => false
  end.

(** A binary frame, a receive that timed out, text that is not JSON, or a
    passing message. *)
Definition passing_frame (w : World) (prompt_id : pyval) (fr : recv_reply)
  : bool :=
  match fr with
  | RecvBinary _ => true
  | RecvRaises e => is_instance e WebSocketTimeoutException
  | RecvText text =>
      match json_loads w text with
      | Some message => passing_message prompt_id message
      | None => true
      end
  end.

Definition progress_message : pyval :=
  PDict [("type", PStr "progress");
         ("data", PDict [("value", PInt 3); ("max", PInt 20)])].
Definition node_message : pyval :=
  PDict [("type", PStr "executing");
         ("data", PDict [("node", PStr "3"); ("prompt_id", PStr "p1")])].
Definition foreign_done_message : pyval :=
  PDict [("type", PStr "executing");
         ("data", PDict [("node", PNone); ("prompt_id", PStr "p0")])].
Definition status_message : pyval :=
  PDict [("type", PStr "status");
         ("data", PDict [("status",
                          PDict [("exec_info",
                                  PDict [("queue_remaining", PInt 1)])])])].
Definition done_message : pyval :=
  PDict [("type", PStr "executing");
         ("data", PDict [("node", PNone); ("prompt_id", PStr "p1")])].

(** A world whose socket delivers noise before the end of prompt [p1]. *)
Definition noisy_frames : list recv_reply :=
  [RecvText "status"; RecvBinary []; RecvText "progress";
   RecvRaises (Exn WebSocketTimeoutException "timed out");
   RecvText "node"; RecvText "garbage"; RecvText "foreign"].

Definition noisy_world : World :=
  calm_world [("status", status_message); ("progress", progress_message);
              ("node", node_message); ("foreign", foreign_done_message);
              ("done", done_message)]
             (noisy_frames ++ [RecvText "done"]).

(** *** Reading the history *)

Definition history_url (w : World) (prompt_id : pyval) : string :=
  "http://" ++ COMFY_HOST ++ "/history/" ++ py_str w prompt_id.

(** The state after the request of [get_history]. *)
Definition history_read (w : World) (prompt_id : pyval) (s : state) : state :=
  tick_reqs (log (EvHttpGet (history_url w prompt_id)) s).

(** The engine answers the request of [get_history] made in state [s] with
    the JSON object [history]. *)
Definition history_is (w : World) (prompt_id : pyval) (s : state)
    (history : list (string * pyval)) : Prop :=
  exists resp,
    http_get w (history_url w prompt_id) (reqs s) = Ok resp
    /\ is_http_error resp = false
    /\ json resp = Ok (PDict history).

Definition msg_not_in_history (w : World) (prompt_id : pyval) : string :=
  "Prompt ID " ++ py_str w prompt_id ++ " not found in history after execution.".

Definition msg_no_outputs (w : World) (prompt_id : pyval) : string :=
  "No outputs found in history for prompt " ++ py_str w prompt_id ++ ".".

(** The result for a run that published nothing and recorded nothing. *)
Definition success_no_media : pyval :=
  PDict [("status", PStr "success_no_media"); ("media", PList [])].

(** A node output without artifacts. *)
Definition has_no_images (node : string * pyval) : Prop :=
  exists d, snd node = PDict d /\ assoc "images" d = None.

(** A world whose history is [history], for every prompt. *)
Definition history_world (history : pyval) : World :=
  sample_world [] []
    (fun _ _ => Ok (ok_response history))
    (fun _ _ => Ok (ok_response (PDict [])))
    (fun _ _ => None) [] (fun _ => None) (fun _ => None).

(** A state in which an execution error was recorded. *)
Definition state_with_error : state :=
  set_errors ["Workflow execution error: Node Type: KSampler"] init_state.

Definition text_only_history : list (string * pyval) :=
  [("p1", PDict [("outputs",
                  PDict [("7", PDict [("text", PList [PStr "a cat"])])])])].

(** *** Artifacts that cannot be published *)

Definition msg_missing_filename (w : World) (node_id : string)
    (image_info : pyval) : string :=
  "Skipping image in node " ++ node_id ++ " due to missing filename: "
  ++ py_str w image_info.

Definition msg_fetch_failed (w : World) (filename : pyval) : string :=
  "Failed to fetch image data for " ++ py_str w filename
  ++ " from /view endpoint.".

(** The state after the request of [get_image_data] for the query string
    [url_values]. *)
Definition fetch_done (url_values : string)
    (filename subfolder image_type : pyval) (s : state) : state :=
  tick_reqs (log (EvHttpGet (view_url url_values))
                 (log (EvFetch filename subfolder image_type) s)).

(** [not image_bytes]: nothing came back, or an empty body. *)
Definition nothing_fetched (o : option bytes) : bool :=
  match o with
  | Some (_ :: _) => false
  | _ => true
  end.

(** World [w] with another [urlencode]. *)
Definition with_urlencode (w : World)
    (f : list (string * pyval) -> result string) : World :=
  {| json_loads := json_loads w; py_str := py_str w; urlencode := f;
     splitext := splitext w; b64decode := b64decode w;
     from_buffer := from_buffer w; environ := environ w;
     WEBSOCKET_RECONNECT_ATTEMPTS := WEBSOCKET_RECONNECT_ATTEMPTS w;
     WEBSOCKET_RECONNECT_DELAY_S := WEBSOCKET_RECONNECT_DELAY_S w;
     uuid4 := uuid4 w; http_get := http_get w; http_post := http_post w;
     ws_handshake := ws_handshake w; incoming := incoming w;
     tmp_name := tmp_name w; tmp_create := tmp_create w;
     tmp_write := tmp_write w; s3_get_object := s3_get_object w;
     s3_put_object := s3_put_object w; s3_presign := s3_presign w;
     boto3_client := boto3_client w |}.

(** The bytes a lone surrogate, U+D83D, leaves in a file name. *)
Definition lone_surrogate : string :=
  String "237"%char (String "160"%char (String "189"%char EmptyString)).

(** A [urlencode] that cannot encode a file name with that surrogate. *)
Definition strict_urlencode (d : list (string * pyval)) : result string :=
  match assoc "filename" d with
  | Some (PStr name) =>
      if is_substring lone_surrogate name
      then Raise (Exn UnicodeEncodeError "surrogates not allowed")
      else Ok (sample_query d)
  | _ => Ok (sample_query d)
  end.

Definition strict_files_world : World :=
  with_urlencode (calm_world [] []) strict_urlencode.

Definition surrogate_name : pyval := PStr (lone_surrogate ++ ".png").

Definition surrogate_descriptor : list (string * pyval) :=
  [("filename", surrogate_name); ("subfolder", PStr "");
   ("type", PStr "output")].

(** A world whose engine answers every GET with 404. *)
Definition missing_files_world : World :=
  sample_world [] []
    (fun _ _ => Ok (Response 404 [] "" (Ok (PDict []))))
    (fun _ _ => Ok (ok_response (PDict [])))
    (fun _ _ => None) [] (fun _ => None) (fun _ => None).

Definition nameless_descriptor : list (string * pyval) :=
  [("subfolder", PStr ""); ("type", PStr "output")].

Definition lost_descriptor : list (string * pyval) :=
  [("filename", PStr "a.png"); ("subfolder", PStr ""); ("type", PStr "output")].

(** *** Publishing to the object store *)

(** The name of the temporary file [publish_s3] creates in state [s]. *)
Definition temp_path (w : World) (file_extension : string) (s : state)
  : string :=
  tmp_name w file_extension (fresh s).

(** The key [boto_upload_media] stores that file under. *)
Definition object_key (w : World) (job_id : pyval) (file_extension : string)
    (s : state) : string :=
  py_str w job_id ++ "/" ++ substring 0 8 (uuid4 w (S (fresh s)))
  ++ splitext w (temp_path w file_extension s).

(** The temporary file can be created and written in state [s]. *)
Definition disk_accepts (w : World) (s : state) : Prop :=
  tmp_create w (fresh s) = None /\ tmp_write w (fresh s) = None.

Definition msg_s3_failed (w : World) (filename : pyval) (e : exn) : string :=
  "Error uploading " ++ py_str w filename ++ " to S3: " ++ exn_text e.

(** *** Data URLs *)

Fixpoint comma_free (s : string) : bool :=
  match s with
  | EmptyString => true
  | String c s' => negb (Ascii.eqb c ","%char) && comma_free s'
  end.

(** *** The error a failed reconnection reports *)

(** The exception of the last of [n] handshakes made from state [s]; with
    no handshake at all, the error the reconnection was entered with. *)
Definition last_handshake_error (w : World) (ws_url : string) (s : state)
    (n : nat) (initial_error : exn) : exn :=
  match n with
  | O => initial_error
  | S m =>
      match ws_handshake w ws_url (List.length (socks s) + m) with
      | Some e => e
      | None => initial_error
      end
  end.

(** A world whose handshakes fail, each with a text of its own. *)
Definition stubborn_world : World :=
  sample_world [] []
    (fun _ _ => Ok (ok_response (PDict [])))
    (fun _ _ => Ok (ok_response (PDict [])))
    (fun _ n => Some (Exn ConnectionRefusedError
                          ("refused #" ++ String (ascii_of_nat (48 + n)) "")))
    [] (fun _ => None) (fun _ => None).

(** *** What the validator accepts *)

(** Both membership tests of the validator succeed on the item. *)
Definition names_both_keys (media : pyval) : Prop :=
  py_in (PStr "name") media = Ok true /\ py_in (PStr "media") media = Ok true.

(** A payload with more than the validator looks at. *)
Definition crowded_payload : list (string * pyval) :=
  [("webhook", PStr "https://example.org/hook"); ("workflow", demo_workflow);
   ("media", PList [item_inline; PStr "name and media"])].

(** The fields of a payload with a workflow and no media. *)
Definition plain_fields : list (string * pyval) :=
  [("workflow", PDict [("3", PDict [("class_type", PStr "KSampler")])])].

(** *** One input of [upload_media] *)

Definition upload_url : string := "http://" ++ COMFY_HOST ++ "/upload/image".

(** The text [upload_media] decodes for an inline input. *)
Definition inline_payload (data : string) : string :=
  if is_substring "," data then after_comma data else data.

(** An input object with the three fields the loop reads. *)
Definition input_fields (d : list (string * pyval)) (name data : pyval)
    (kind : string) : Prop :=
  assoc "name" d = Some name /\ assoc "media" d = Some data
  /\ assoc "type" d = Some (PStr kind).

(** The state after the POST of one input. *)
Definition posted (s : state) : state :=
  tick_reqs (log (EvHttpPost upload_url) s).

(** The state after the download of a web input. *)
Definition downloaded (url : string) (s : state) : state :=
  tick_reqs (log (EvHttpGet url) s).

Definition item_garbled : list (string * pyval) :=
  [("name", PStr "in.png"); ("media", PStr "data:image/png;base64,A");
   ("type", PStr "base64")].

Definition item_remote : list (string * pyval) :=
  [("name", PStr "in.png"); ("media", PStr "https://example.org/in.png");
   ("type", PStr "web")].

(** A world in which every GET times out. *)
Definition slow_world : World :=
  sample_world [] []
    (fun _ _ => Raise (Exn RequestsTimeout "Read timed out."))
    (fun _ _ => Ok (ok_response (PDict [])))
    (fun _ _ => None) [] (fun _ => None) (fun _ => None).

(** *** The rounds of the readiness probe *)

(** What [n] missed rounds of [check_server] leave in the trace. *)
Definition missed_rounds (url : string) (delay : Z) (attempts : list Z)
  : list event :=
  flat_map (fun _ => [EvHttpGet url; EvSleepMs delay]) attempts.

(** *** Exits of the [try] block before the loop and inside it *)

Definition ws_url_of (client_id : string) : string :=
  "ws://" ++ COMFY_HOST ++ "/ws?clientId=" ++ client_id.

(** The state after a first handshake that failed: the object exists, [ws]
    names it, and it is not connected. *)
Definition refused (client_id : string) (s : state) : state :=
  log (EvWsConnect (ws_url_of client_id) (List.length (socks s)))
      (set_ws_var (Some (List.length (socks s)))
                  (set_socks (socks s ++ [false]) s)).

Definition not_an_object : exn :=
  Exn AttributeError "object has no attribute 'get'".

(** A world whose socket delivers a JSON array. *)
Definition array_world : World :=
  calm_world [("[]", PList [])] [RecvText "[]"].

(** *** The requests of the queueing block *)

Definition prompt_url : string := "http://" ++ COMFY_HOST ++ "/prompt".

(** The state after the POST of [queue_workflow], and after the GET of
    [get_available_models]. *)
Definition prompt_posted (s : state) : state :=
  tick_reqs (log (EvHttpPost prompt_url) s).

Definition models_read (s : state) : state :=
  tick_reqs (log (EvHttpGet object_info_url) s).

(** The engine rejects every workflow for a checkpoint it does not have. *)
Definition rejection_body : pyval :=
  PDict [("error", PDict [("type", PStr "prompt_outputs_failed_validation");
                          ("message", PStr "Prompt outputs failed validation")]);
         ("node_errors",
          PDict [("4", PDict [("errors",
                               PStr "ckpt_name: value not in list")])])].

Definition rejecting_world : World :=
  sample_world [] []
    (fun _ _ => Ok (ok_response demo_object_info))
    (fun _ _ => Ok (Response 400 [] "rejected" (Ok rejection_body)))
    (fun _ _ => None) [] (fun _ => None) (fun _ => None).

(** *** A text item that passes validation *)

(** A string passes both membership tests of the validator when it
    contains the two words. *)
Definition text_item : pyval := PStr "name media".

Definition job_with_text_media : pyval :=
  PDict [("workflow", PDict [("key", PStr "value")]);
         ("media", PList [text_item])].

(** *** The lines of a media list *)

(** The error line of an input named [name] for the exception [e]: the
    [except] clauses of the loop of [upload_media], in the order written. *)
Definition error_line (w : World) (name : pyval) (e : exn) : string :=
  if is_instance e BinasciiError then
    "Error decoding base64 for " ++ py_str w name ++ ": " ++ exn_text e
  else if is_instance e RequestsTimeout then
    "Timeout uploading " ++ py_str w name
  else if is_instance e RequestException then
    "Error uploading " ++ py_str w name ++ ": " ++ exn_text e
  else
    "Unexpected error uploading " ++ py_str w name ++ ": " ++ exn_text e.

Definition success_line (w : World) (name : pyval) : string :=
  "Successfully uploaded " ++ py_str w name.

(** One iteration of the loop for an inline input named [name], in terms
    of the Base64 text [encoded] that is left of its [media]. *)
Definition inline_upload (w : World) (name : pyval) (encoded : string)
    (s : state) : outcome (string + string) * state :=
  match b64decode w encoded with
  | Raise e => (Ret (inr (error_line w name e)), s)
  | Ok _ =>
      match http_post w upload_url (reqs s) with
      | Raise e => (Ret (inr (error_line w name e)), posted s)
      | Ok resp =>
          if is_http_error resp
          then (Ret (inr (error_line w name
                                     (Exn RequestException "HTTPError"))),
                posted s)
          else (Ret (inl (success_line w name)), posted s)
      end
  end.

(** The iterations of the loop, one after the other: the line of every
    item, [inl] for a success and [inr] for an error, in the order of the
    list. *)
Fixpoint item_lines (w : World) (items : list pyval)
  : M (list (string + string)) :=
  match items with
  | [] => ret []
  | media :: rest =>
      bind (upload_item w media) (fun line =>
      bind (item_lines w rest) (fun lines => ret (line :: lines)))
  end.

Definition successes (lines : list (string + string)) : list string :=
  flat_map (fun line => match line with inl x => [x] | inr _ => [] end) lines.

Definition failures (lines : list (string + string)) : list string :=
  flat_map (fun line => match line with inl _ => [] | inr x => [x] end) lines.

(** The report for the lines of the items, as the spec words it: an error
    as soon as one item failed, with the error lines; a success otherwise,
    with the success lines. *)
Definition report_of (lines : list (string + string)) : pyval :=
  if existsb (fun line => match line with inl _ => false | inr _ => true end)
             lines
  then report "error" "Some media failed to upload" (failures lines)
  else report "success" "All media uploaded successfully" (successes lines).

(** The name [upload_media] reads from an item. *)
Definition item_name (media : pyval) : pyval :=
  match media with
  | PDict d => field_or "name" PNone d
  | _ => PNone
  end.

(** The item is an inline input that decodes, and the POST made for it, the
    [i]-th request counted from state [s], is answered without error. *)
Definition uploadable_inline (w : World) (s : state) (i : nat) (media : pyval)
  : Prop :=
  exists d name data blob resp,
    media = PDict d /\ input_fields d name (PStr data) "base64"
    /\ b64decode w (inline_payload data) = Ok blob
    /\ http_post w upload_url (reqs s + i) = Ok resp
    /\ is_http_error resp = false.

Definition item_second : pyval :=
  PDict [("name", PStr "mask.png"); ("media", PStr "data:image/png;base64,AQI=");
         ("type", PStr "base64")].

(** * Properties *)

Local Open Scope list_scope.

(** ** Input validation *)

(** C1 (code defect).  [validate_input] does not check that the payload, or
    an element of [media], is an object before it applies [.get] and [in] to
    it: on the payload [5], and on a payload whose [media] list holds the
    number [1], it raises ([AttributeError], [TypeError]) instead of
    returning a pair, and the exception leaves [handler] as well. *)
Theorem validate_input_raises_on_non_objects :
  forall (w : World) (s : state),
    validate_input w (PInt 5)
      = Raise (Exn AttributeError "object has no attribute 'get'")
    /\ validate_input w job_with_bad_media
      = Raise (Exn TypeError "argument is not iterable")
    /\ handler w (PDict [("input", job_with_bad_media); ("id", PStr "job-1")]) s
      = (Exc (Exn TypeError "argument is not iterable"), s).
Proof.
  intros w s. repeat split; reflexivity.
Qed.

(** On an object payload the rules of the validator apply in the order of
    the specification. *)
Lemma validate_input_null (w : World) :
  validate_input w PNone = Ok (None, Some msg_no_input).
Proof. reflexivity. Qed.

Lemma validate_input_bad_json (w : World) (text : string) :
  json_loads w text = None ->
  validate_input w (PStr text) = Ok (None, Some msg_invalid_json).
Proof. intros H. simpl. rewrite H. reflexivity. Qed.

Lemma validate_input_missing_workflow (w : World) (d : list (string * pyval)) :
  assoc "workflow" d = None ->
  validate_input w (PDict d) = Ok (None, Some msg_missing_workflow).
Proof.
  intros H. unfold validate_input, validate_fields, py_get, py_get_val.
  simpl. rewrite H. reflexivity.
Qed.

Lemma validate_input_no_media (w : World) (d : list (string * pyval))
    (workflow : pyval) :
  assoc "workflow" d = Some workflow -> is_none workflow = false ->
  assoc "media" d = None ->
  validate_input w (PDict d)
    = Ok (Some (PDict [("workflow", workflow); ("media", PNone)]), None).
Proof.
  intros Hw Hn Hm.
  unfold validate_input, validate_fields, py_get, py_get_val. simpl.
  rewrite Hw. simpl. rewrite Hn, Hm. reflexivity.
Qed.

Lemma all_have_keys_objects (l : list pyval) :
  forallb is_object l = true ->
  all_have_keys l = Ok (forallb has_name_and_media l).
Proof.
  induction l as [| media rest IH]; [reflexivity |].
  cbn [forallb]. intros H. apply andb_prop in H. destruct H as (Hobj & Hrest).
  destruct media as [| | | | | d]; try discriminate.
  cbn [all_have_keys py_in hashable dict_lookup rbind has_name_and_media].
  destruct (assoc "name" d); [| reflexivity].
  destruct (assoc "media" d); [| reflexivity].
  cbn [andb]. apply IH, Hrest.
Qed.

(** On an object payload with a workflow: a [media] that is a list of
    objects is accepted exactly when each of them holds [name] and [media];
    a [media] that is neither [None] nor a list is refused. *)
Lemma validate_input_media_list (w : World) (d : list (string * pyval))
    (workflow : pyval) (l : list pyval) :
  assoc "workflow" d = Some workflow -> is_none workflow = false ->
  assoc "media" d = Some (PList l) ->
  forallb is_object l = true ->
  validate_input w (PDict d)
  = if forallb has_name_and_media l
    then Ok (Some (PDict [("workflow", workflow); ("media", PList l)]), None)
    else Ok (None, Some msg_malformed_media).
Proof.
  intros Hw Hn Hm Hobj.
  unfold validate_input, validate_fields, py_get, py_get_val.
  cbn [hashable dict_lookup rbind]. rewrite Hw. cbn [rbind]. rewrite Hn, Hm.
  rewrite (all_have_keys_objects l Hobj). cbn [rbind].
  destruct (forallb has_name_and_media l); reflexivity.
Qed.

Lemma validate_input_media_not_a_list (w : World) (d : list (string * pyval))
    (workflow media_list : pyval) :
  assoc "workflow" d = Some workflow -> is_none workflow = false ->
  assoc "media" d = Some media_list ->
  is_none media_list = false ->
  (forall l, media_list <> PList l) ->
  validate_input w (PDict d) = Ok (None, Some msg_malformed_media).
Proof.
  intros Hw Hn Hm Hnone Hlist.
  unfold validate_input, validate_fields, py_get, py_get_val.
  cbn [hashable dict_lookup rbind]. rewrite Hw. cbn [rbind]. rewrite Hn, Hm.
  destruct media_list as [| b | z | t | l | d']; try discriminate;
    try reflexivity.
  exfalso. exact (Hlist l eq_refl).
Qed.

(** ** Result assembly *)

(** C2.  After the [try] statement has completed without returning, [handler]
    returns what [assemble_result] makes of the published artifacts and of
    the recorded errors: a failure when nothing was published and something
    was recorded, [success_no_media] with an empty media list when both are
    empty, and otherwise the media, with the errors alongside if any. *)
Theorem result_assembly_outcomes :
  forall (w : World) (job_id workflow : pyval) (s s1 : state),
    guarded_try w job_id workflow (uuid4 w (fresh (reset_locals s)))
                (tick_fresh (reset_locals s)) = (Ret None, s1) ->
    run_workflow w job_id workflow s
      = (Ret (assemble_result (output_data s1) (errors s1)), s1)
    /\ (forall e errs,
          assemble_result [] (e :: errs)
          = error_result_with "Job processing failed" (str_list (e :: errs)))
    /\ assemble_result [] []
       = PDict [("status", PStr "success_no_media"); ("media", PList [])]
    /\ (forall a media,
          assemble_result (a :: media) []
          = PDict [("media", PList (a :: media))])
    /\ (forall a media e errs,
          assemble_result (a :: media) (e :: errs)
          = PDict [("media", PList (a :: media));
                   ("errors", str_list (e :: errs))]).
Proof.
  intros w job_id workflow s s1 H.
  split; [| repeat split; reflexivity].
  unfold run_workflow, bind, modify, get_state. simpl.
  change (fresh s) with (fresh (reset_locals s)).
  rewrite H. reflexivity.
Qed.

(** ** Running monadic code *)

Lemma bind_ret {A B : Type} (m : M A) (k : A -> M B) (s s1 : state) (a : A) :
  m s = (Ret a, s1) -> bind m k s = k a s1.
Proof. intros H. unfold bind. rewrite H. reflexivity. Qed.

Lemma bind_exc {A B : Type} (m : M A) (k : A -> M B) (s s1 : state) (e : exn) :
  m s = (Exc e, s1) -> bind m k s = (Exc e, s1).
Proof. intros H. unfold bind. rewrite H. reflexivity. Qed.

Lemma bind_hang {A B : Type} (m : M A) (k : A -> M B) (s s1 : state) :
  m s = (Hang, s1) -> bind m k s = (Hang, s1).
Proof. intros H. unfold bind. rewrite H. reflexivity. Qed.

Lemma range_length (n : Z) : List.length (range n) = Z.to_nat n.
Proof. unfold range. rewrite length_map, length_seq. reflexivity. Qed.

Lemma range_split (n : Z) (k : nat) :
  (k < Z.to_nat n)%nat ->
  exists l1 x l2,
    range n = l1 ++ x :: l2 /\ List.length l1 = k /\ x = Z.of_nat k.
Proof.
  intros Hk. unfold range.
  replace (Z.to_nat n) with (k + S (Z.to_nat n - S k))%nat by lia.
  rewrite seq_app, map_app. simpl.
  eexists _, _, _. split; [reflexivity |].
  rewrite length_map, length_seq. split; reflexivity.
Qed.

(** ** The readiness probe *)

Section CheckServer.
Variable w : World.
Variable url : string.
Variable delay : Z.
Hypothesis delay_ok : 0 <= delay.

Lemma timeout_is_request_exception (e : exn) :
  is_instance e RequestsTimeout = true -> is_instance e RequestException = true.
Proof. destruct e as [[] t]; cbv; intros H; congruence. Qed.

(** One missed attempt: a request, then the pause. *)
Lemma check_server_miss (x : Z) (rest : list Z) (s : state) :
  is_miss (http_get w url (reqs s)) = true ->
  check_server_attempts w url delay (x :: rest) s
  = check_server_attempts w url delay rest
      (log (EvSleepMs delay) (tick_reqs (log (EvHttpGet url) s))).
Proof.
  intros Hm. simpl. unfold bind at 1, try_except, bind at 1, requests_get.
  destruct (http_get w url (reqs s)) as [resp | e]; simpl in *.
  - apply negb_true_iff in Hm. rewrite Hm. unfold bind, sleep_ms.
    destruct (delay <? 0) eqn:Hd; [apply Z.ltb_lt in Hd; lia |].
    reflexivity.
  - assert (Hr : (if is_instance e RequestsTimeout then @ret bool false
                  else if is_instance e RequestException then ret false
                       else raise e) = ret false).
    { destruct (is_instance e RequestsTimeout); [reflexivity |].
      rewrite Hm. reflexivity. }
    rewrite Hr. unfold ret, bind, sleep_ms.
    destruct (delay <? 0) eqn:Hd; [apply Z.ltb_lt in Hd; lia |].
    reflexivity.
Qed.

Lemma check_server_hit (x : Z) (rest : list Z) (s : state) :
  is_ready (http_get w url (reqs s)) = true ->
  check_server_attempts w url delay (x :: rest) s
  = (Ret true, tick_reqs (log (EvHttpGet url) s)).
Proof.
  intros Hm. simpl. unfold bind at 1, try_except, bind at 1, requests_get.
  destruct (http_get w url (reqs s)) as [resp | e]; simpl in *;
    [| discriminate].
  rewrite Hm. reflexivity.
Qed.

Lemma check_server_attempts_all_miss (attempts : list Z) :
  forall s : state,
    (forall k, (k < List.length attempts)%nat ->
               is_miss (http_get w url (reqs s + k)) = true) ->
    exists s',
      check_server_attempts w url delay attempts s = (Ret false, s')
      /\ reqs s' = (reqs s + List.length attempts)%nat
      /\ socks s' = socks s /\ ws_var s' = ws_var s.
Proof.
  induction attempts as [| x rest IH]; intros s Hall.
  - exists s. simpl. repeat split; lia.
  - rewrite check_server_miss.
    2:{ specialize (Hall 0%nat). rewrite Nat.add_0_r in Hall.
        apply Hall. simpl. lia. }
    destruct (IH (log (EvSleepMs delay) (tick_reqs (log (EvHttpGet url) s))))
      as (s' & Hrun & Hreq & Hsocks & Hws).
    + intros k Hk. simpl. rewrite <- Nat.add_succ_r.
      apply Hall. simpl. lia.
    + exists s'. rewrite Hrun. simpl in *. repeat split; try assumption. lia.
Qed.

Lemma check_server_attempts_hit (before : list Z) (x : Z) (after : list Z) :
  forall s : state,
    (forall k, (k < List.length before)%nat ->
               is_miss (http_get w url (reqs s + k)) = true) ->
    is_ready (http_get w url (reqs s + List.length before)) = true ->
    exists s',
      check_server_attempts w url delay (before ++ x :: after) s = (Ret true, s')
      /\ reqs s' = S (reqs s + List.length before).
Proof.
  induction before as [| y rest IH]; intros s Hall Hhit.
  - simpl app. rewrite check_server_hit.
    + eexists. split; [reflexivity |]. simpl. lia.
    + simpl in Hhit. rewrite Nat.add_0_r in Hhit. exact Hhit.
  - simpl app. rewrite check_server_miss.
    2:{ specialize (Hall 0%nat). rewrite Nat.add_0_r in Hall.
        apply Hall. simpl. lia. }
    destruct (IH (log (EvSleepMs delay) (tick_reqs (log (EvHttpGet url) s))))
      as (s' & Hrun & Hreq).
    + intros k Hk. simpl. rewrite <- Nat.add_succ_r.
      apply Hall. simpl. lia.
    + simpl. rewrite <- Nat.add_succ_r. exact Hhit.
    + exists s'. split; [exact Hrun |]. simpl in *. lia.
Qed.
End CheckServer.

(** A validated payload is a dict with exactly the keys [workflow] and
    [media], the latter [None] or a list. *)
Lemma validate_input_ok_shape (w : World) (job_input data : pyval)
    (msg : option string) :
  validate_input w job_input = Ok (Some data, msg) ->
  exists workflow media_list,
    data = PDict [("workflow", workflow); ("media", media_list)]
    /\ msg = None /\ is_none workflow = false
    /\ (media_list = PNone \/ exists l, media_list = PList l).
Proof.
  intros H.
  assert (Hfields : exists ji, validate_fields ji = Ok (Some data, msg)).
  { unfold validate_input in H.
    destruct job_input as [| b | z | t | l | d]; try discriminate; eauto.
    destruct (json_loads w t); [eauto | discriminate]. }
  clear H. destruct Hfields as (ji & H). unfold validate_fields in H.
  destruct (py_get ji "workflow" PNone) as [wf | e]; [| discriminate].
  simpl in H. destruct (is_none wf) eqn:Hwf; [discriminate |].
  destruct (py_get ji "media" PNone) as [ml | e]; [| discriminate].
  simpl in H.
  destruct ml as [| b | z | t | l | d]; simpl in H;
    try discriminate;
    try (injection H as <- <-; eexists _, _; repeat split; eauto; fail).
  destruct (all_have_keys l) as [[|] | e]; simpl in H; try discriminate.
  injection H as <- <-. eexists _, _. repeat split; eauto.
Qed.

(** C7.  [check_server] issues at most [retries] requests.  If each of them
    misses (another status than 200, or a [requests] exception) it returns
    [False] without raising, and [handler], which probes 500 times, then
    returns the error saying the server is not reachable.  If an attempt
    within the budget, the last one included, is answered with 200 after
    misses only, it returns [True]. *)
Theorem readiness_probe_outcomes :
  forall (w : World) (url : string) (retries delay : Z) (s : state),
    0 <= delay ->
    ((forall k, (k < Z.to_nat retries)%nat ->
                is_miss (http_get w url (reqs s + k)) = true) ->
     exists s',
       check_server w url retries delay s = (Ret false, s')
       /\ reqs s' = (reqs s + Z.to_nat retries)%nat)
    /\ (forall k, (k < Z.to_nat retries)%nat ->
          (forall j, (j < k)%nat ->
                     is_miss (http_get w url (reqs s + j)) = true) ->
          is_ready (http_get w url (reqs s + k)) = true ->
          exists s',
            check_server w url retries delay s = (Ret true, s')
            /\ reqs s' = S (reqs s + k))
    /\ (forall job_input job_id data,
          validate_input w job_input = Ok (Some data, None) ->
          (forall k, (k < 500)%nat ->
             is_miss (http_get w ("http://" ++ COMFY_HOST ++ "/")%string
                               (reqs s + k)) = true) ->
          exists s',
            handler w (PDict [("input", job_input); ("id", job_id)]) s
            = (Ret (error_result msg_unreachable), s')).
Proof.
  intros w url retries delay s Hdelay. split; [| split].
  - intros Hall. unfold check_server.
    destruct (check_server_attempts_all_miss w url delay Hdelay (range retries) s)
      as (s' & Hrun & Hreq & _).
    + rewrite range_length. exact Hall.
    + exists s'. rewrite range_length in Hreq. split; assumption.
  - intros k Hk Hbefore Hhit. unfold check_server.
    destruct (range_split retries k Hk) as (l1 & x & l2 & -> & Hlen & _).
    destruct (check_server_attempts_hit w url delay Hdelay l1 x l2 s)
      as (s' & Hrun & Hreq).
    + rewrite Hlen. exact Hbefore.
    + rewrite Hlen. exact Hhit.
    + exists s'. rewrite Hlen in Hreq. split; assumption.
  - intros job_input job_id data Hvalid Hall.
    destruct (validate_input_ok_shape w job_input data None Hvalid)
      as (workflow & media_list & -> & _ & _ & _).
    destruct (check_server_attempts_all_miss w
                ("http://" ++ COMFY_HOST ++ "/")%string
                COMFY_API_AVAILABLE_INTERVAL_MS ltac:(discriminate)
                (range COMFY_API_AVAILABLE_MAX_RETRIES) s)
      as (s' & Hrun & _).
    + rewrite range_length. exact Hall.
    + exists s'. unfold handler.
      rewrite (bind_ret _ _ s s job_input) by reflexivity.
      rewrite (bind_ret _ _ s s job_id) by reflexivity.
      erewrite bind_ret by (rewrite Hvalid; reflexivity).
      cbn [snd fst message_given option_pyval].
      erewrite bind_ret by reflexivity.
      erewrite bind_ret by reflexivity.
      erewrite bind_ret by exact Hrun.
      reflexivity.
Qed.

Lemma readiness_probe_outcomes_witness :
  (exists s', check_server down_world root_url 3 50 init_state = (Ret false, s')
              /\ reqs s' = 3%nat)
  /\ (exists s', check_server warming_world root_url 3 50 init_state = (Ret true, s')
                 /\ reqs s' = 3%nat)
  /\ (exists s', handler down_world
                   (PDict [("input", plain_job_input); ("id", PStr "job-1")])
                   init_state
                 = (Ret (error_result msg_unreachable), s')).
Proof.
  split; [| split].
  - destruct (readiness_probe_outcomes down_world root_url 3 50 init_state
                ltac:(discriminate)) as (H & _ & _).
    apply H. intros k _. reflexivity.
  - destruct (readiness_probe_outcomes warming_world root_url 3 50 init_state
                ltac:(discriminate)) as (_ & H & _).
    apply (H 2%nat).
    + simpl. lia.
    + intros [| [| j]] Hj; [reflexivity | reflexivity | lia].
    + reflexivity.
  - destruct (readiness_probe_outcomes down_world root_url 3 50 init_state
                ltac:(discriminate)) as (_ & _ & H).
    apply (H plain_job_input (PStr "job-1") _ eq_refl).
    intros k _. reflexivity.
Defined.

(** ** Base64 round trip *)

Section Base64.

Lemma sextets_enumerated (P : N -> bool) :
  forallb P (map N.of_nat (seq 0 64)) = true ->
  forall n : N, (n < 64)%N -> P n = true.
Proof.
  intros Hall n Hn. rewrite forallb_forall in Hall. apply Hall.
  rewrite in_map_iff. exists (N.to_nat n). split.
  - apply N2Nat.id.
  - apply in_seq. lia.
Qed.

Lemma b64_index_char (n : N) :
  (n < 64)%N -> b64_index (b64_char n) = Some n.
Proof.
  intros Hn.
  pose (P := fun n => match b64_index (b64_char n) with
                      | Some m => N.eqb m n
                      | None => false
                      end).
  assert (HP : P n = true) by (apply sextets_enumerated; [reflexivity | exact Hn]).
  unfold P in HP. destruct (b64_index (b64_char n)) as [m |]; [| discriminate].
  apply N.eqb_eq in HP. congruence.
Qed.

Lemma b64_char_not_pad (n : N) :
  (n < 64)%N -> Ascii.eqb (b64_char n) b64_pad = false.
Proof.
  intros Hn.
  pose (P := fun n => negb (Ascii.eqb (b64_char n) b64_pad)).
  assert (HP : P n = true) by (apply sextets_enumerated; [reflexivity | exact Hn]).
  unfold P in HP. apply negb_true_iff in HP. exact HP.
Qed.

Lemma byte_of_to_N (b : byte) : byte_of_N (Byte.to_N b) = b.
Proof. unfold byte_of_N. rewrite Byte.of_to_N. reflexivity. Qed.

Ltac octet_arith :=
  repeat match goal with
         | b : byte |- _ =>
             let H := fresh "Hb" in
             pose proof (Byte.to_N_bounded b) as H;
             generalize dependent (Byte.to_N b); clear b; intros
         end;
  zify; Z.to_euclidean_division_equations; lia.

(** The four sextets of a group are below 64. *)
Lemma sextet_bounds (a b c : byte) :
  let x := Byte.to_N a in
  let y := Byte.to_N b in
  let z := Byte.to_N c in
  (x / 4 < 64 /\ (x mod 4) * 16 + y / 16 < 64
   /\ (y mod 16) * 4 + z / 64 < 64 /\ z mod 64 < 64
   /\ (x mod 4) * 16 < 64 /\ (y mod 16) * 4 < 64)%N.
Proof. cbv zeta. repeat split; octet_arith. Qed.

(** Reassembling the octets from the sextets. *)
Lemma octets_of_sextets (a b c : byte) :
  let x := Byte.to_N a in
  let y := Byte.to_N b in
  let z := Byte.to_N c in
  (x / 4 * 4 + ((x mod 4) * 16 + y / 16) / 16 = x
   /\ (((x mod 4) * 16 + y / 16) mod 16) * 16 + ((y mod 16) * 4 + z / 64) / 4 = y
   /\ (((y mod 16) * 4 + z / 64) mod 4) * 64 + z mod 64 = z
   /\ x / 4 * 4 + ((x mod 4) * 16) / 16 = x
   /\ (((x mod 4) * 16 + y / 16) mod 16) * 16 + ((y mod 16) * 4) / 4 = y)%N.
Proof. cbv zeta. repeat split; octet_arith. Qed.

Lemma bytes_ind3 (P : bytes -> Prop) :
  P [] -> (forall a, P [a]) -> (forall a b, P [a; b]) ->
  (forall a b c rest, P rest -> P (a :: b :: c :: rest)) ->
  forall data, P data.
Proof.
  intros H0 H1 H2 H3.
  fix IH 1. intros [| a [| b [| c rest]]].
  - exact H0.
  - apply H1.
  - apply H2.
  - apply H3. apply IH.
Qed.

Lemma b64decode_encode_chars (data : bytes) :
  b64decode_chars (b64encode_chars data) = Some data.
Proof.
  induction data as [| a | a b | a b c rest IH] using bytes_ind3.
  - reflexivity.
  - destruct (sextet_bounds a a a) as (H1 & _ & _ & _ & H5 & _).
    destruct (octets_of_sextets a a a) as (_ & _ & _ & E4 & _).
    cbn [b64encode_chars b64decode_chars].
    rewrite !b64_index_char by assumption.
    rewrite Ascii.eqb_refl, E4, byte_of_to_N. reflexivity.
  - destruct (sextet_bounds a b b) as (H1 & H2 & _ & _ & _ & H6).
    destruct (octets_of_sextets a b b) as (E1 & _ & _ & _ & E5).
    cbn [b64encode_chars b64decode_chars].
    rewrite !b64_index_char by assumption.
    rewrite (b64_char_not_pad _ H6), Ascii.eqb_refl, E1, E5, !byte_of_to_N.
    reflexivity.
  - destruct (sextet_bounds a b c) as (H1 & H2 & H3 & H4 & _ & _).
    destruct (octets_of_sextets a b c) as (E1 & E2 & E3 & _ & _).
    cbn [b64encode_chars b64decode_chars].
    rewrite !b64_index_char by assumption.
    rewrite (b64_char_not_pad _ H3), (b64_char_not_pad _ H4).
    rewrite E1, E2, E3, !byte_of_to_N, IH. reflexivity.
Qed.

End Base64.

(** Without a bucket, an artifact that is not [temp], has a file name and
    is fetched with a content that is not empty enters the outputs as the
    Base64 text of that content. *)
Lemma process_image_inline (w : World) (job_id : pyval) (node_id : string)
    (d : list (string * pyval)) (name url_values : string) (resp : response)
    (s : state) :
  assoc "filename" d = Some (PStr name) ->
  String.eqb name "" = false ->
  py_eq_str (descriptor_type d) "temp" = false ->
  unset (environ w "BUCKET_ENDPOINT_URL") = true ->
  view_query w (PStr name) (descriptor_subfolder d) (descriptor_type d)
  = Ok url_values ->
  http_get w (view_url url_values) (reqs s) = Ok resp ->
  (400 <=? status_code resp) && (status_code resp <? 600) = false ->
  content resp <> [] ->
  exists s',
    process_image w job_id node_id (PDict d) s = (Ret tt, s')
    /\ output_data s'
       = output_data s ++ [base64_entry (PStr name) (b64encode (content resp))].
Proof.
  intros Hname Hne Htemp Hbucket Hquery Hget Hstatus Hcontent.
  unfold process_image, py_get, py_get_val. cbn [hashable dict_lookup].
  rewrite Hname. fold (descriptor_subfolder d). fold (descriptor_type d).
  unfold bind at 1. cbn [lift ret]. unfold bind at 1. cbn [lift ret].
  unfold bind at 1. cbn [lift ret]. rewrite Htemp.
  cbn [truthy]. rewrite Hne. cbn [negb].
  unfold bind at 1, get_image_data, bind at 1, modify.
  unfold view_query in Hquery. unfold bind at 1. rewrite Hquery.
  cbn [lift ret]. unfold try_except.
  unfold bind at 1, requests_get. cbn [reqs log].
  fold (view_url url_values).
  rewrite Hget. cbn [lift ret].
  unfold bind at 1, raise_for_status. rewrite Hstatus. cbn [ret].
  destruct (content resp) as [| b0 data] eqn:Hc; [contradiction |].
  unfold bind at 1, py_splitext. cbn [lift ret].
  rewrite Hbucket. cbn [negb].
  eexists. split; reflexivity.
Qed.

(** C9.  Decoding the payload of an inline artifact gives back the bytes that
    were fetched: the entry [publish_inline] appends to [output_data] carries
    [b64encode image_bytes] as its [data], and the decoder of RFC 4648
    inverts the encoder on every byte sequence. *)
Theorem inline_publication_round_trip :
  forall (filename : pyval) (image_bytes : bytes) (s : state),
    publish_inline filename image_bytes s
    = (Ret tt, set_output_data
                 (output_data s
                  ++ [PDict [("filename", filename); ("type", PStr "base64");
                             ("data", PStr (b64encode image_bytes))]]) s)
    /\ b64decode_strict (b64encode image_bytes) = Some image_bytes.
Proof.
  intros filename image_bytes s. split; [reflexivity |].
  unfold b64decode_strict, b64encode.
  rewrite list_ascii_of_string_of_list_ascii.
  apply b64decode_encode_chars.
Qed.

(** ** Calls that return *)

Section Returns.
Context {A B : Type}.

Lemma returns_ret (a : A) : returns (ret a).
Proof. intros s s' H. discriminate. Qed.

Lemma returns_raise (e : exn) : returns (@raise A e).
Proof. intros s s' H. discriminate. Qed.

Lemma returns_lift (r : result A) : returns (lift r).
Proof. destruct r; [apply returns_ret | apply returns_raise]. Qed.

Lemma returns_bind (m : M A) (k : A -> M B) :
  returns m -> (forall a, returns (k a)) -> returns (bind m k).
Proof.
  intros Hm Hk s s' H. unfold bind in H.
  destruct (m s) as [[a | e |] s1] eqn:E.
  - exact (Hk a s1 s' H).
  - discriminate.
  - exact (Hm s s1 E).
Qed.

Lemma returns_try_except (m : M A) (h : exn -> M A) :
  returns m -> (forall e, returns (h e)) -> returns (try_except m h).
Proof.
  intros Hm Hh s s' H. unfold try_except in H.
  destruct (m s) as [[a | e |] s1] eqn:E.
  - discriminate.
  - exact (Hh e s1 s' H).
  - exact (Hm s s1 E).
Qed.

Lemma returns_modify (f : state -> state) : returns (modify f).
Proof. intros s s' H. discriminate. Qed.

Lemma returns_get_state : returns get_state.
Proof. intros s s' H. discriminate. Qed.

End Returns.

Lemma returns_requests_get (w : World) (url : string) :
  returns (requests_get w url).
Proof.
  intros s s' H. unfold requests_get in H.
  destruct (http_get w url (reqs s)); discriminate.
Qed.

Lemma returns_requests_post (w : World) (url : string) :
  returns (requests_post w url).
Proof.
  intros s s' H. unfold requests_post in H.
  destruct (http_post w url (reqs s)); discriminate.
Qed.

Lemma returns_raise_for_status (w : World) (r : response) :
  returns (raise_for_status r).
Proof.
  unfold raise_for_status.
  destruct (_ && _); [apply returns_raise | apply returns_ret].
Qed.

Lemma returns_sleep_ms (ms : Z) : returns (sleep_ms ms).
Proof.
  unfold sleep_ms. destruct (ms <? 0); [apply returns_raise | apply returns_modify].
Qed.

Create HintDb returns.

#[local] Hint Resolve returns_ret returns_raise returns_lift returns_modify
  returns_get_state returns_requests_get returns_requests_post
  returns_raise_for_status returns_sleep_ms : returns.

(** Break a goal [returns m] along the structure of [m]. *)
Ltac returns_step :=
  match goal with
  | |- returns (bind _ _) => apply returns_bind; [| intros ?]
  | |- returns (try_except _ _) => apply returns_try_except; [| intros ?]
  | |- returns (if ?b then _ else _) => destruct b
  | |- returns (match ?x with _ => _ end) => destruct x
  | |- returns _ => solve [auto with returns]
  end.

Ltac returns_auto := repeat returns_step.

Lemma returns_boto_download_media (w : World) (key : pyval) :
  returns (boto_download_media w key).
Proof. unfold boto_download_media. returns_auto. Qed.

Lemma returns_read_file (path : string) : returns (read_file path).
Proof.
  intros s s' H. unfold read_file in H.
  destruct (assoc path (files s)); discriminate.
Qed.

Lemma returns_write_temp_file (w : World) (suffix : string) (data : bytes) :
  returns (write_temp_file w suffix data).
Proof.
  intros s s' H. unfold write_temp_file in H.
  destruct (tmp_create w (fresh s)); [discriminate |].
  destruct (tmp_write w (fresh s)); discriminate.
Qed.

Lemma returns_local_temp_file_path : returns local_temp_file_path.
Proof.
  intros s s' H. unfold local_temp_file_path in H.
  destruct (temp_file_path s); discriminate.
Qed.

Lemma returns_os_remove (path : string) : returns (os_remove path).
Proof.
  intros s s' H. unfold os_remove in H.
  destruct (path_exists path s); discriminate.
Qed.

#[local] Hint Resolve returns_read_file returns_write_temp_file
  returns_local_temp_file_path returns_os_remove : returns.

Lemma returns_boto_upload_media (w : World) (job_id : pyval) (path : string) :
  returns (boto_upload_media w job_id path).
Proof. unfold boto_upload_media. returns_auto. Qed.

#[local] Hint Resolve returns_boto_upload_media : returns.

Lemma returns_upload_one (w : World) (media : pyval) :
  returns (upload_one w media).
Proof.
  unfold upload_one. returns_auto; apply returns_boto_download_media.
Qed.

(** ** Uploading the input media *)

Section UploadMedia.
Variable w : World.

Lemma upload_error_msg_returns_value (d : list (string * pyval)) (e : exn)
    (s : state) :
  exists msg, upload_error_msg w (PDict d) e s = (Ret msg, s).
Proof.
  unfold upload_error_msg, py_get, py_get_val. simpl.
  unfold bind, lift, ret.
  repeat match goal with
         | |- context [if ?b then _ else _] => destruct b
         end; eexists; reflexivity.
Qed.

(** On an object, one iteration always yields a line: a success line or an
    error line. *)
Lemma upload_item_total (d : list (string * pyval)) (s : state) :
  exists line s', upload_item w (PDict d) s = (Ret line, s').
Proof.
  unfold upload_item, try_except, bind at 1.
  destruct (upload_one w (PDict d) s) as [[line | e |] s1] eqn:E.
  - eexists _, _. reflexivity.
  - unfold bind.
    destruct (upload_error_msg_returns_value d e s1) as (msg & ->).
    eexists _, _. reflexivity.
  - exfalso. exact (returns_upload_one w (PDict d) s s1 E).
Qed.

(** An item whose [type] is missing or unknown yields its error line, and
    nothing else happens. *)
Lemma upload_item_type_problem (d : list (string * pyval)) (name data : pyval)
    (text : string) (s : state) :
  assoc "name" d = Some name -> assoc "media" d = Some data ->
  type_problem w d = Some text ->
  upload_item w (PDict d) s
  = (Ret (inr ("Unexpected error uploading " ++ py_str w name ++ ": " ++ text)%string),
     s).
Proof.
  intros Hn Hm Ht.
  unfold upload_item, try_except, upload_one, bind at 1, bind at 1.
  unfold bind at 1, py_index. rewrite Hn. cbn [lift ret].
  unfold bind at 1. rewrite Hm. cbn [lift ret].
  unfold type_problem in Ht. unfold bind at 1.
  destruct (assoc "type" d) as [ty |].
  - unfold recognized_type in Ht. cbn [lift ret]. unfold bind at 1.
    destruct (py_eq_str ty "base64"); [discriminate |].
    destruct (py_eq_str ty "web"); [discriminate |].
    destruct (py_eq_str ty "s3"); [discriminate |].
    injection Ht as <-. cbn [raise].
    unfold upload_error_msg, bind, py_get, py_get_val. simpl. rewrite Hn.
    reflexivity.
  - injection Ht as <-. cbn [lift raise].
    unfold upload_error_msg, bind, py_get, py_get_val. simpl. rewrite Hn.
    reflexivity.
Qed.

Lemma upload_each_cons (media : pyval) (rest : list pyval)
    (responses upload_errors : list string) (s : state) :
  upload_each w (media :: rest) responses upload_errors s
  = match upload_item w media s with
    | (Ret (inl line), s1) =>
        upload_each w rest (responses ++ [line]) upload_errors s1
    | (Ret (inr error_msg), s1) =>
        upload_each w rest responses (upload_errors ++ [error_msg]) s1
    | (Exc e, s1) => (Exc e, s1)
    | (Hang, s1) => (Hang, s1)
    end.
Proof.
  cbn [upload_each]. unfold bind at 1. fold (upload_item w media).
  destruct (upload_item w media s) as [[[line | msg] | e |] s1]; reflexivity.
Qed.

(** The loop over well-formed items ends with every item accounted for, in
    [responses] or in [upload_errors], and with the error line of every item
    whose [type] is missing or unknown. *)
Lemma upload_each_total (items : list pyval) :
  Forall well_formed_item items ->
  forall (responses upload_errors : list string) (s : state),
  exists new_responses new_errors s',
    upload_each w items responses upload_errors s
    = (Ret (responses ++ new_responses, upload_errors ++ new_errors), s')
    /\ (List.length new_responses + List.length new_errors
        = List.length items)%nat
    /\ (forall d name text,
          In (PDict d) items -> assoc "name" d = Some name ->
          type_problem w d = Some text ->
          In ("Unexpected error uploading " ++ py_str w name ++ ": " ++ text)%string
             new_errors).
Proof.
  induction 1 as [| media rest Hwf _ IH]; intros responses upload_errors s.
  - exists [], [], s. rewrite !app_nil_r. repeat split.
    intros d name text [].
  - destruct Hwf as (d & name & data & -> & Hn & Hm).
    rewrite upload_each_cons.
    destruct (upload_item_total d s) as ([line | msg] & s1 & Hitem).
    + rewrite Hitem.
      destruct (IH (responses ++ [line]) upload_errors s1)
        as (r2 & e2 & s' & Hrun & Hlen & Hbad).
      exists (line :: r2), e2, s'. rewrite Hrun, <- app_assoc.
      repeat split; [simpl; lia |].
      intros d' name' text [Heq | Hin] Hn' Ht; [| eauto].
      injection Heq as <-.
      rewrite (upload_item_type_problem d name data text s Hn Hm Ht) in Hitem.
      discriminate.
    + rewrite Hitem.
      destruct (IH responses (upload_errors ++ [msg]) s1)
        as (r2 & e2 & s' & Hrun & Hlen & Hbad).
      exists r2, (msg :: e2), s'. rewrite Hrun, <- app_assoc.
      repeat split; [simpl; lia |].
      intros d' name' text [Heq | Hin] Hn' Ht; [| right; eauto].
      injection Heq as <-. left.
      rewrite Hn in Hn'. injection Hn' as <-.
      rewrite (upload_item_type_problem d name data text s Hn Hm Ht) in Hitem.
      injection Hitem as Hmsg _. symmetry. exact Hmsg.
Qed.

End UploadMedia.

(** C10 (code defect).  [upload_media] raises on a media list that passes
    validation: the validator's membership tests hold of a string that
    contains the two words, the loop of [upload_media] then fails on
    [media["name"]], and the [except] clause that should record the item
    calls [media.get], which a string does not have.  The [AttributeError]
    leaves [upload_media] and [handler], after the items before it were
    uploaded and without a report. *)
Theorem upload_media_raises_on_validated_text_item :
  forall (w : World) (s : state),
    validate_input w job_with_text_media
    = Ok (Some (PDict [("workflow", PDict [("key", PStr "value")]);
                       ("media", PList [text_item])]), None)
    /\ upload_media w (PList [text_item]) s
       = (Exc (Exn AttributeError "object has no attribute 'get'"), s)
    /\ upload_media (calm_world [] []) (PList [item_inline; text_item])
                    init_state
       = (Exc (Exn AttributeError "object has no attribute 'get'"),
          tick_reqs (log (EvHttpPost ("http://" ++ COMFY_HOST
                                      ++ "/upload/image")) init_state))
    /\ fst (handler (calm_world [] [])
              (PDict [("input", job_with_text_media); ("id", PStr "job-1")])
              init_state)
       = Exc (Exn AttributeError "object has no attribute 'get'").
Proof.
  intros w s. repeat split; reflexivity.
Qed.

Example upload_media_mixed_batch :
  fst (upload_media (calm_world [] [])
         (PList [item_inline; item_untyped; item_odd_type]) init_state)
  = Ret (report "error" "Some media failed to upload"
           ["Unexpected error uploading mask.png: 'type'";
            "Unexpected error uploading clip.mp4: Unknown media type ftp"]).
Proof. vm_compute. reflexivity. Qed.

(** ** Reconnecting the websocket *)

Section Reconnect.
Variable w : World.
Variable ws_url : string.
Variables max_attempts delay_s : Z.

Lemma comfy_server_status_run (s : state) :
  exists status,
    _comfy_server_status w s = (Ret status, probed s)
    /\ py_index status "reachable"
       = Ok (PBool (is_ready (http_get w root_url (reqs s)))).
Proof.
  unfold _comfy_server_status, try_except, bind, requests_get, probed.
  fold root_url.
  destruct (http_get w root_url (reqs s)) as [resp | e]; simpl;
    eexists; split; reflexivity.
Qed.

(** One round of the loop of [_attempt_websocket_reconnect]. *)
Lemma reconnect_attempts_cons (attempt : Z) (rest : list Z) (last : exn)
    (s : state) :
  reconnect_attempts w ws_url max_attempts delay_s (attempt :: rest) last s
  = if is_ready (http_get w root_url (reqs s)) then
      let sock := List.length (socks s) in
      let s3 := tried ws_url s in
      match ws_handshake w ws_url sock with
      | None => (Ret sock, set_socks (list_set sock true (socks s3)) s3)
      | Some e =>
          if handshake_failure e then
            if attempt <? max_attempts - 1 then
              if 1000 * delay_s <? 0 then
                (Exc (Exn ValueError "sleep length must be non-negative"), s3)
              else
                reconnect_attempts w ws_url max_attempts delay_s rest e
                                   (log (EvSleepMs (1000 * delay_s)) s3)
            else reconnect_attempts w ws_url max_attempts delay_s rest e s3
          else (Exc e, s3)
      end
    else (Exc (Exn WebSocketConnectionClosedException msg_http_unreachable),
          probed s).
Proof.
  cbn [reconnect_attempts].
  destruct (comfy_server_status_run s) as (status & Hrun & Hreach).
  rewrite (bind_ret _ _ _ _ _ Hrun). rewrite Hreach. cbn [lift].
  unfold bind at 1, ret at 1. cbn [truthy].
  destruct (is_ready (http_get w root_url (reqs s))); cbn [negb];
    [| reflexivity].
  unfold bind at 1, try_except, bind at 1, WebSocket, bind at 1, ws_connect.
  cbn [socks set_socks log probed tick_reqs].
  destruct (ws_handshake w ws_url (List.length (socks s))) as [e |];
    [| reflexivity].
  destruct (handshake_failure e); [| reflexivity].
  unfold bind at 1.
  destruct (attempt <? max_attempts - 1).
  - unfold sleep_ms. destruct (1000 * delay_s <? 0); reflexivity.
  - reflexivity.
Qed.

End Reconnect.

Lemma list_set_app_length {A : Type} (l1 l2 : list A) (x y : A) :
  list_set (List.length l1) x (l1 ++ y :: l2) = l1 ++ x :: l2.
Proof. induction l1 as [| a l1 IH]; simpl; [reflexivity | now rewrite IH]. Qed.

Lemma nth_app_length {A : Type} (l1 l2 : list A) (x d : A) :
  nth (List.length l1) (l1 ++ x :: l2) d = x.
Proof. induction l1 as [| a l1 IH]; simpl; [reflexivity | exact IH]. Qed.

Lemma all_closed_app (l1 l2 : list bool) :
  all_closed (l1 ++ l2) <-> all_closed l1 /\ all_closed l2.
Proof. apply Forall_app. Qed.

Lemma all_closed_snoc (l : list bool) :
  all_closed l -> all_closed (l ++ [false]).
Proof.
  intros H. apply all_closed_app. split; [assumption |].
  repeat constructor.
Qed.

Lemma all_closed_list_set (l : list bool) (i : nat) :
  all_closed l -> all_closed (list_set i false l).
Proof.
  unfold all_closed. intros H. revert i.
  induction H as [| b l Hb Hl IH]; intros [| i]; simpl; constructor; auto.
Qed.

Lemma all_closed_nth (l : list bool) (i : nat) :
  all_closed l -> nth i l false = false.
Proof.
  unfold all_closed. intros H. revert i.
  induction H as [| b l Hb _ IH]; intros [| i]; simpl; auto.
Qed.

Lemma only_open_close (l : list bool) (sock : nat) :
  only_open sock l -> all_closed (list_set sock false l).
Proof.
  intros (l1 & l2 & -> & <- & H1 & H2). rewrite list_set_app_length.
  apply all_closed_app. split; [assumption | constructor; auto].
Qed.

Lemma only_open_nth (l : list bool) (sock : nat) :
  only_open sock l -> nth sock l false = true.
Proof. intros (l1 & l2 & -> & <- & _). apply nth_app_length. Qed.

Lemma probes_precede_connects_from_probe (url : string) (t : list event) :
  probes_precede_connects url false t = true ->
  probes_precede_connects url true t = true.
Proof.
  destruct t as [| [] t]; simpl; auto. discriminate.
Qed.

Ltac connects_le := unfold count_connects in *; simpl in *; lia.

Section ReconnectShape.
Variable w : World.
Variable ws_url : string.
Variables max_attempts delay_s : Z.

(** Whatever the answers of the engine: the calls made by the loop are
    rounds of one probe, at most one handshake with [ws_url] right after it,
    and at most one pause; there are no more handshakes than attempts; a
    returned socket is connected and is the only one to be. *)
Lemma reconnect_attempts_shape (attempts : list Z) :
  forall (last : exn) (s : state) (r : outcome nat) (s' : state),
    reconnect_attempts w ws_url max_attempts delay_s attempts last s = (r, s') ->
    exists t,
      trace s' = trace s ++ t
      /\ probes_precede_connects ws_url false t = true
      /\ (count_connects t <= List.length attempts)%nat
      /\ ws_var s' = ws_var s /\ files s' = files s
      /\ errors s' = errors s /\ output_data s' = output_data s
      /\ temp_file_path s' = temp_file_path s
      /\ match r with
         | Ret sock =>
             In (EvWsConnect ws_url sock) t
             /\ (all_closed (socks s) -> only_open sock (socks s'))
         | Exc _ => all_closed (socks s) -> all_closed (socks s')
         | Hang => False
         end.
Proof.
  induction attempts as [| attempt rest IH]; intros last s r s' Hrun.
  - injection Hrun as <- <-. exists []. rewrite app_nil_r.
    repeat split; auto.
  - rewrite reconnect_attempts_cons in Hrun.
    destruct (is_ready (http_get w root_url (reqs s))).
    2:{ injection Hrun as <- <-. exists [EvHttpGet root_url].
        repeat split; simpl; auto; connects_le. }
    cbv zeta in Hrun.
    assert (Htried : all_closed (socks s) -> all_closed (socks (tried ws_url s))).
    { intros Hc. simpl. apply all_closed_snoc, Hc. }
    destruct (ws_handshake w ws_url (List.length (socks s))) as [e |].
    2:{ injection Hrun as <- <-.
        exists [EvHttpGet root_url; EvWsConnect ws_url (List.length (socks s))].
        simpl. rewrite <- app_assoc, !String.eqb_refl.
        repeat split; simpl; auto; try connects_le.
        intros Hc. rewrite list_set_app_length.
        exists (socks s), []. repeat split; auto. constructor. }
    destruct (handshake_failure e).
    2:{ injection Hrun as <- <-.
        exists [EvHttpGet root_url; EvWsConnect ws_url (List.length (socks s))].
        simpl. rewrite <- app_assoc, !String.eqb_refl.
        repeat split; simpl; auto; try connects_le.
        all: try (intros Hc; apply all_closed_snoc, Hc). }
    destruct (attempt <? max_attempts - 1).
    + destruct (1000 * delay_s <? 0).
      * injection Hrun as <- <-.
        exists [EvHttpGet root_url; EvWsConnect ws_url (List.length (socks s))].
        simpl. rewrite <- app_assoc, !String.eqb_refl.
        repeat split; simpl; auto; try connects_le.
        all: try (intros Hc; apply all_closed_snoc, Hc).
      * apply IH in Hrun.
        destruct Hrun as (t & Ht & Hp & Hc & Hws & Hf & He & Ho & Htp & Hr).
        exists ([EvHttpGet root_url; EvWsConnect ws_url (List.length (socks s));
                 EvSleepMs (1000 * delay_s)] ++ t).
        simpl in *. rewrite Ht, <- !app_assoc, !String.eqb_refl. simpl.
        repeat split; auto; try connects_le.
        destruct r as [sock | e' |]; [| | exact Hr].
        -- destruct Hr as (Hin & Hopen).
           split; [simpl; auto 6 | intros Hcl; apply Hopen, Htried, Hcl].
        -- intros Hcl. apply Hr, Htried, Hcl.
    + apply IH in Hrun.
      destruct Hrun as (t & Ht & Hp & Hc & Hws & Hf & He & Ho & Htp & Hr).
      exists ([EvHttpGet root_url; EvWsConnect ws_url (List.length (socks s))]
              ++ t).
      simpl in *. rewrite Ht, <- !app_assoc, !String.eqb_refl. simpl.
      repeat split; auto; try connects_le.
      destruct r as [sock | e' |]; [| | exact Hr].
      * destruct Hr as (Hin & Hopen).
        split; [simpl; auto 6 | intros Hcl; apply Hopen, Htried, Hcl].
      * intros Hcl. apply Hr, Htried, Hcl.
Qed.

End ReconnectShape.

Section ReconnectBudget.
Variable w : World.
Variable ws_url : string.
Variables max_attempts delay_s : Z.
Hypothesis delay_ok : 0 <= delay_s.

Lemma no_negative_pause : (1000 * delay_s <? 0) = false.
Proof. apply Z.ltb_ge. lia. Qed.

(** A failed round, whether or not it pauses, leaves one more request and
    one more socket behind. *)
Lemma failed_round (attempt : Z) (rest : list Z) (last e : exn) (s : state) :
  is_ready (http_get w root_url (reqs s)) = true ->
  ws_handshake w ws_url (List.length (socks s)) = Some e ->
  handshake_failure e = true ->
  exists s1,
    reconnect_attempts w ws_url max_attempts delay_s (attempt :: rest) last s
    = reconnect_attempts w ws_url max_attempts delay_s rest e s1
    /\ reqs s1 = S (reqs s)
    /\ List.length (socks s1) = S (List.length (socks s))
    /\ exists pause,
         trace s1 = trace s ++ EvHttpGet root_url
                      :: EvWsConnect ws_url (List.length (socks s)) :: pause
         /\ count_connects pause = 0%nat.
Proof.
  intros Hp Hh He. rewrite reconnect_attempts_cons, Hp. cbv zeta.
  rewrite Hh, He, no_negative_pause.
  destruct (attempt <? max_attempts - 1); eexists; (split; [reflexivity |]);
    cbn [reqs socks trace log tried probed tick_reqs set_socks];
    rewrite length_app, <- !app_assoc; cbn [app List.length];
    (repeat split; try lia);
    [exists [EvSleepMs (1000 * delay_s)] | exists []]; split; reflexivity.
Qed.



End ReconnectBudget.






Example reconnect_third_handshake :
  trace (snd (_attempt_websocket_reconnect flaky_world demo_ws_url 5 3
                lost_connection init_state))
  = [EvHttpGet root_url; EvWsConnect demo_ws_url 0; EvSleepMs 3000;
     EvHttpGet root_url; EvWsConnect demo_ws_url 1; EvSleepMs 3000;
     EvHttpGet root_url; EvWsConnect demo_ws_url 2].
Proof. vm_compute. reflexivity. Qed.

Example reconnect_abandoned_when_unreachable :
  _attempt_websocket_reconnect down_world demo_ws_url 5 3 lost_connection
                               init_state
  = (Exc (Exn WebSocketConnectionClosedException msg_http_unreachable),
     probed init_state).
Proof. vm_compute. reflexivity. Qed.

(** ** The monitoring loop *)

Lemma py_get_cases (v : pyval) (k : string) (default : pyval) :
  (exists x, py_get v k default = Ok x)
  \/ (exists e, py_get v k default = Raise e /\ exn_cls e = AttributeError).
Proof.
  destruct v; simpl; eauto.
Qed.

Ltac get_cases v k d x :=
  let e := fresh "e" in
  let H := fresh "Hget" in
  let Hc := fresh "Hcls" in
  destruct (py_get_cases v k d) as [(x & H) | (e & H & Hc)];
  rewrite H; cbn [lift bind ret raise].

(** What one decoded message does to the loop and to the state. *)
Lemma on_message_cases (w : World) (prompt_id message : pyval) (s : state) :
  match on_message w prompt_id message s with
  | (Ret Continue, s') => s' = s
  | (Ret (Break true), s') =>
      s' = s /\ is_completion_message prompt_id message = true
  | (Ret (Break false), s') =>
      is_error_message prompt_id message = true
      /\ exists msg, s' = set_errors (errors s ++ [msg]) s
  | (Exc e, s') => s' = s /\ exn_cls e = AttributeError
  | (Hang, _) => False
  end.
Proof.
  unfold on_message, is_completion_message, is_error_message, message_type_is.
  unfold bind at 1.
  get_cases message "type" PNone type; [| split; [reflexivity | assumption]].
  destruct (py_eq_str type "status").
  { unfold bind at 1.
    get_cases message "data" (PDict []) data; [| auto].
    unfold bind at 1. get_cases data "status" (PDict []) status_data; [| auto].
    unfold bind at 1.
    get_cases status_data "exec_info" (PDict []) exec_info; [| auto].
    unfold bind at 1.
    get_cases exec_info "queue_remaining" (PStr "N/A") remaining; auto. }
  destruct (py_eq_str type "executing").
  { unfold bind at 1.
    get_cases message "data" (PDict []) data; [| auto].
    unfold bind at 1. get_cases data "node" PNone node; [| auto].
    destruct (is_none node); [| reflexivity].
    unfold bind at 1. get_cases data "prompt_id" PNone pid; [| auto].
    destruct (py_eq pid prompt_id); [| reflexivity].
    split; reflexivity. }
  destruct (py_eq_str type "execution_error"); [| reflexivity].
  unfold bind at 1.
  get_cases message "data" (PDict []) data; [| auto].
  unfold bind at 1. get_cases data "prompt_id" PNone pid; [| auto].
  destruct (py_eq pid prompt_id); [| reflexivity].
  unfold execution_error_details.
  unfold bind at 1, bind at 1, bind at 1.
  get_cases data "node_type" PNone node_type; [| auto].
  unfold bind at 1. get_cases data "node_id" PNone node_id; [| auto].
  unfold bind at 1. get_cases data "exception_message" PNone exception_message; [| auto].
  unfold bind, append_error, modify. split; [reflexivity |].
  eexists. reflexivity.
Qed.

Lemma ws_recv_cases (fr : recv_reply) (s : state) :
  errors (snd (ws_recv fr s)) = errors s
  /\ match fr with
     | RecvRaises e => fst (ws_recv fr s) = Exc e
     | _ => ws_recv fr s = (Ret fr, s)
     end.
Proof.
  unfold ws_recv. destruct fr as [text | b | e]; simpl; auto.
  destruct (is_instance e WebSocketConnectionClosedException); simpl; auto.
  destruct (ws_var s); simpl; auto.
Qed.

(** What one iteration does to the loop and to the recorded errors: the
    loop is left only on a completion signal or on an execution error of the
    job, and only the latter records an error. *)
Lemma monitor_iteration_cases (w : World) (ws_url : string)
    (prompt_id : pyval) (fr : recv_reply) (s : state) :
  match monitor_iteration w ws_url prompt_id fr s with
  | (Ret Continue, s') => errors s' = errors s
  | (Ret (Break true), s') =>
      errors s' = errors s /\ completion_signal w prompt_id fr = true
  | (Ret (Break false), s') =>
      execution_error_signal w prompt_id fr = true
      /\ exists msg, errors s' = errors s ++ [msg]
  | _ => True
  end.
Proof.
  unfold monitor_iteration, try_except, bind at 1.
  unfold completion_signal, execution_error_signal, frame_message.
  destruct (ws_recv_cases fr s) as (Herr & Hrecv).
  destruct fr as [text | b | e].
  - rewrite Hrecv.
    destruct (json_loads w text) as [message |]; [| reflexivity].
    pose proof (on_message_cases w prompt_id message s) as Hm.
    destruct (on_message w prompt_id message s) as [[[| [|]] | e |] s'].
    + now subst.
    + destruct Hm as (-> & Hm). auto.
    + destruct Hm as (Hm & msg & ->). split; [exact Hm |].
      exists msg. reflexivity.
    + destruct Hm as (-> & Hcls). destruct e as [c t]. simpl in Hcls.
      subst c. exact I.
    + exact I.
  - rewrite Hrecv. reflexivity.
  - destruct (ws_recv (RecvRaises e) s) as [r s1]. simpl in Hrecv, Herr.
    subst r.
    destruct (is_instance e WebSocketTimeoutException); [exact Herr |].
    destruct (is_instance e WebSocketConnectionClosedException).
    + unfold bind at 1.
      destruct (_attempt_websocket_reconnect w ws_url _ _ e s1)
        as [[new_ws | e' |] s2] eqn:E; try exact I.
      unfold _attempt_websocket_reconnect in E.
      apply reconnect_attempts_shape in E.
      destruct E as (t & _ & _ & _ & _ & _ & He & _). simpl. congruence.
    + destruct (is_instance e JSONDecodeError); [exact Herr | exact I].
Qed.

(** The loop returns only after a completion signal, with
    [execution_done] set and no error added, or after an execution error of
    the job, with that error recorded. *)
Lemma monitor_loop_exit (w : World) (ws_url : string) (prompt_id : pyval)
    (frames : list recv_reply) :
  forall (s : state) (execution_done : bool) (s' : state),
    monitor_loop w ws_url prompt_id frames s = (Ret execution_done, s') ->
    exists fr,
      In fr frames
      /\ ((execution_done = true /\ completion_signal w prompt_id fr = true
           /\ errors s' = errors s)
          \/ (execution_done = false
              /\ execution_error_signal w prompt_id fr = true
              /\ exists msg, errors s' = errors s ++ [msg])).
Proof.
  induction frames as [| fr rest IH]; intros s done s' Hrun.
  - discriminate.
  - cbn [monitor_loop] in Hrun. unfold bind at 1 in Hrun.
    pose proof (monitor_iteration_cases w ws_url prompt_id fr s) as Hstep.
    destruct (monitor_iteration w ws_url prompt_id fr s)
      as [[[| [|]] | e |] s1]; try discriminate.
    + apply IH in Hrun. destruct Hrun as (fr' & Hin & Hcase).
      exists fr'. split; [right; exact Hin |]. rewrite <- Hstep. exact Hcase.
    + injection Hrun as <- <-. destruct Hstep as (He & Hsig).
      exists fr. split; [left; reflexivity |]. left. auto.
    + injection Hrun as <- <-. destruct Hstep as (Hsig & msg & He).
      exists fr. split; [left; reflexivity |]. right. eauto.
Qed.

(** C3.  When the lines after the monitoring loop are reached without a
    completion signal seen ([execution_done] false) and without an error
    recorded, [handler] raises the error of an unconfirmed exit instead of
    fetching the history, and its result is that error.  The loop itself
    returns only on a completion signal for the job's prompt id, which sets
    [execution_done], or on an execution error for it, which records an
    error. *)
Theorem silent_loop_exit_is_an_error :
  forall (w : World) (job_id prompt_id : pyval) (s : state),
    errors s = [] ->
    after_monitoring w job_id prompt_id false s
    = (Exc (Exn ValueError msg_incomplete_monitoring), s)
    /\ try_except (after_monitoring w job_id prompt_id false) handler_except s
       = (Ret (Some (error_result msg_incomplete_monitoring)), s)
    /\ (forall ws_url frames s0 execution_done s1,
          monitor_loop w ws_url prompt_id frames s0 = (Ret execution_done, s1) ->
          exists fr,
            In fr frames
            /\ ((execution_done = true
                 /\ completion_signal w prompt_id fr = true
                 /\ errors s1 = errors s0)
                \/ (execution_done = false
                    /\ execution_error_signal w prompt_id fr = true
                    /\ exists msg, errors s1 = errors s0 ++ [msg]))).
Proof.
  intros w job_id prompt_id s Herr.
  assert (Hraise : after_monitoring w job_id prompt_id false s
                   = (Exc (Exn ValueError msg_incomplete_monitoring), s)).
  { unfold after_monitoring, bind at 1, get_state. rewrite Herr. reflexivity. }
  split; [exact Hraise | split].
  - unfold try_except. rewrite Hraise. reflexivity.
  - intros ws_url frames s0 done s1 Hrun.
    exact (monitor_loop_exit w ws_url prompt_id frames s0 done s1 Hrun).
Qed.

Lemma silent_loop_exit_is_an_error_witness :
  try_except (after_monitoring (calm_world [] []) (PStr "job-1") (PStr "p1") false)
             handler_except init_state
  = (Ret (Some (error_result msg_incomplete_monitoring)), init_state).
Proof.
  destruct (silent_loop_exit_is_an_error (calm_world [] []) (PStr "job-1")
              (PStr "p1") init_state eq_refl) as (_ & H & _).
  exact H.
Defined.

(** ** Invariants along a run *)

Section Preserves.
Context {A B : Type}.
Variable P : state -> Prop.

Lemma preserves_ret (a : A) : preserves P (ret a).
Proof. intros s r s' HP H. injection H as _ <-. exact HP. Qed.

Lemma preserves_raise (e : exn) : preserves P (@raise A e).
Proof. intros s r s' HP H. injection H as _ <-. exact HP. Qed.

Lemma preserves_hang : preserves P (@hang A).
Proof. intros s r s' HP H. injection H as _ <-. exact HP. Qed.

Lemma preserves_lift (x : result A) : preserves P (lift x).
Proof. destruct x; [apply preserves_ret | apply preserves_raise]. Qed.

Lemma preserves_get_state : preserves P get_state.
Proof. intros s r s' HP H. injection H as _ <-. exact HP. Qed.

Lemma preserves_modify (f : state -> state) :
  (forall s, P s -> P (f s)) -> preserves P (modify f).
Proof. intros Hf s r s' HP H. injection H as _ <-. auto. Qed.

Lemma preserves_bind (m : M A) (k : A -> M B) :
  preserves P m -> (forall a, preserves P (k a)) -> preserves P (bind m k).
Proof.
  intros Hm Hk s r s' HP H. unfold bind in H.
  destruct (m s) as [[a | e |] s1] eqn:E.
  - exact (Hk a s1 r s' (Hm s _ s1 HP E) H).
  - injection H as _ <-. exact (Hm s _ s1 HP E).
  - injection H as _ <-. exact (Hm s _ s1 HP E).
Qed.

Lemma preserves_try_except (m : M A) (h : exn -> M A) :
  preserves P m -> (forall e, preserves P (h e)) ->
  preserves P (try_except m h).
Proof.
  intros Hm Hh s r s' HP H. unfold try_except in H.
  destruct (m s) as [[a | e |] s1] eqn:E.
  - injection H as _ <-. exact (Hm s _ s1 HP E).
  - exact (Hh e s1 r s' (Hm s _ s1 HP E) H).
  - injection H as _ <-. exact (Hm s _ s1 HP E).
Qed.

Lemma preserves_try_finally (m : M A) (f : M unit) :
  preserves P m -> preserves P f -> preserves P (try_finally m f).
Proof.
  intros Hm Hf s r s' HP H. unfold try_finally in H.
  destruct (m s) as [[a | e |] s1] eqn:E.
  - destruct (f s1) as [[u | e' |] s2] eqn:F; injection H as _ <-;
      exact (Hf s1 _ s2 (Hm s _ s1 HP E) F).
  - destruct (f s1) as [[u | e' |] s2] eqn:F; injection H as _ <-;
      exact (Hf s1 _ s2 (Hm s _ s1 HP E) F).
  - injection H as _ <-. exact (Hm s _ s1 HP E).
Qed.

End Preserves.

Lemma preserves_for_each {A : Type} (P : state -> Prop) (f : A -> M unit)
    (l : list A) :
  (forall x, preserves P (f x)) -> preserves P (for_each f l).
Proof.
  intros Hf. induction l as [| x l IH]; simpl.
  - apply preserves_ret.
  - apply preserves_bind; auto.
Qed.

Create HintDb preserves.

#[local] Hint Resolve preserves_ret preserves_raise preserves_hang
  preserves_lift preserves_get_state : preserves.

(** Break a goal [preserves P m] along the structure of [m]. *)
Ltac preserves_step :=
  match goal with
  | |- preserves _ (bind _ _) => apply preserves_bind; [| intros ?]
  | |- preserves _ (try_except _ _) => apply preserves_try_except; [| intros ?]
  | |- preserves _ (try_finally _ _) => apply preserves_try_finally
  | |- preserves _ (for_each _ _) => apply preserves_for_each; intros ?
  | |- preserves _ (modify _) => apply preserves_modify; intros ? ?
  | |- preserves _ (if ?b then _ else _) => destruct b
  | |- preserves _ (match ?x with _ => _ end) => destruct x
  | |- preserves _ _ => solve [eauto with preserves]
  end.

Ltac preserves_auto := repeat preserves_step.

(** A property of the state that no benign update breaks is kept by every
    function of the module.  The hypotheses on sockets are used by the
    functions that handle the websocket only. *)
Section StableInvariant.
Variable w : World.
Variable P : state -> Prop.
Hypothesis P_log : forall e s, benign e = true -> P s -> P (log e s).
Hypothesis P_tick_reqs : forall s, P s -> P (tick_reqs s).
Hypothesis P_tick_fresh : forall s, P s -> P (tick_fresh s).
Hypothesis P_set_files : forall l s, P s -> P (set_files l s).
Hypothesis P_set_errors : forall l s, P s -> P (set_errors l s).
Hypothesis P_set_output_data : forall l s, P s -> P (set_output_data l s).
Hypothesis P_set_temp_file_path :
  forall p s, P s -> P (set_temp_file_path p s).
Hypothesis P_set_socks : forall l s, P s -> P (set_socks l s).
Hypothesis P_set_ws_var : forall v s, P s -> P (set_ws_var v s).

Lemma keeps_requests_get (url : string) : preserves P (requests_get w url).
Proof.
  intros s r s' HP H. unfold requests_get in H.
  apply (preserves_lift P (http_get w url (reqs s))
           (tick_reqs (log (EvHttpGet url) s)) r s'); auto.
Qed.

Lemma keeps_requests_post (url : string) : preserves P (requests_post w url).
Proof.
  intros s r s' HP H. unfold requests_post in H.
  apply (preserves_lift P (http_post w url (reqs s))
           (tick_reqs (log (EvHttpPost url) s)) r s'); auto.
Qed.

Lemma keeps_raise_for_status (r : response) : preserves P (raise_for_status r).
Proof. unfold raise_for_status. preserves_auto. Qed.

Lemma keeps_sleep_ms (ms : Z) : preserves P (sleep_ms ms).
Proof. unfold sleep_ms. preserves_auto. auto. Qed.

Hint Resolve keeps_requests_get keeps_requests_post keeps_raise_for_status
  keeps_sleep_ms : preserves.

Lemma keeps_comfy_server_status : preserves P (_comfy_server_status w).
Proof. unfold _comfy_server_status. preserves_auto. Qed.

Lemma keeps_check_server (url : string) (retries delay : Z) :
  preserves P (check_server w url retries delay).
Proof.
  unfold check_server. induction (range retries) as [| x l IH]; simpl;
    preserves_auto.
Qed.

Lemma keeps_boto_download_media (key : pyval) :
  preserves P (boto_download_media w key).
Proof. unfold boto_download_media. preserves_auto. Qed.

Lemma keeps_read_file (path : string) : preserves P (read_file path).
Proof.
  intros s r s' HP H. unfold read_file in H.
  destruct (assoc path (files s)); injection H as _ <-; exact HP.
Qed.

Hint Resolve keeps_comfy_server_status keeps_check_server
  keeps_boto_download_media keeps_read_file : preserves.

Lemma keeps_boto_upload_media (job_id : pyval) (path : string) :
  preserves P (boto_upload_media w job_id path).
Proof. unfold boto_upload_media. preserves_auto; auto. Qed.

Lemma keeps_upload_one (media : pyval) : preserves P (upload_one w media).
Proof. unfold upload_one. preserves_auto. Qed.

Lemma keeps_upload_error_msg (media : pyval) (e : exn) :
  preserves P (upload_error_msg w media e).
Proof. unfold upload_error_msg. preserves_auto. Qed.

Hint Resolve keeps_boto_upload_media keeps_upload_one keeps_upload_error_msg
  : preserves.

Lemma keeps_upload_each (items : list pyval) :
  forall responses upload_errors,
    preserves P (upload_each w items responses upload_errors).
Proof.
  induction items as [| media rest IH]; intros responses upload_errors; simpl;
    preserves_auto.
Qed.

Hint Resolve keeps_upload_each : preserves.

Lemma keeps_upload_media (media_list : pyval) :
  preserves P (upload_media w media_list).
Proof. unfold upload_media. preserves_auto. Qed.

Lemma keeps_get_available_models : preserves P (get_available_models w).
Proof.
  unfold get_available_models, read_available_models. preserves_auto.
Qed.

Hint Resolve keeps_get_available_models : preserves.

Lemma keeps_queue_workflow_400 (response : response) :
  preserves P (queue_workflow_400 w response).
Proof. unfold queue_workflow_400. cbv zeta. preserves_auto. Qed.

Hint Resolve keeps_queue_workflow_400 : preserves.

Lemma keeps_queue_workflow (workflow : pyval) (client_id : string) :
  preserves P (queue_workflow w workflow client_id).
Proof. unfold queue_workflow. preserves_auto. Qed.

Lemma keeps_get_history (prompt_id : pyval) :
  preserves P (get_history w prompt_id).
Proof. unfold get_history. preserves_auto. Qed.

(** The fetch is the one call whose event is not benign for every
    argument: the type must not be [temp]. *)
Lemma keeps_get_image_data (filename subfolder image_type : pyval) :
  py_eq_str image_type "temp" = false ->
  preserves P (get_image_data w filename subfolder image_type).
Proof.
  intros Ht. unfold get_image_data. preserves_auto.
  apply P_log; [simpl; rewrite Ht; reflexivity | assumption].
Qed.

Lemma keeps_append_error (msg : string) : preserves P (append_error msg).
Proof. unfold append_error. preserves_auto. auto. Qed.

Lemma keeps_append_output (entry : pyval) : preserves P (append_output entry).
Proof. unfold append_output. preserves_auto. auto. Qed.

Lemma keeps_write_temp_file (suffix : string) (data : bytes) :
  preserves P (write_temp_file w suffix data).
Proof.
  intros s r s' HP H. unfold write_temp_file in H.
  destruct (tmp_create w (fresh s)); [injection H as _ <-; auto |].
  destruct (tmp_write w (fresh s)); injection H as _ <-; auto 8.
Qed.

Lemma keeps_local_temp_file_path : preserves P local_temp_file_path.
Proof.
  intros s r s' HP H. unfold local_temp_file_path in H.
  destruct (temp_file_path s); injection H as _ <-; exact HP.
Qed.

Lemma keeps_os_remove (path : string) : preserves P (os_remove path).
Proof.
  intros s r s' HP H. unfold os_remove in H.
  destruct (path_exists path s); injection H as _ <-; auto.
Qed.

Hint Resolve keeps_upload_media keeps_queue_workflow keeps_get_history
  keeps_append_error keeps_append_output keeps_write_temp_file
  keeps_local_temp_file_path keeps_os_remove : preserves.

Lemma keeps_publish_s3 (job_id filename : pyval) (ext : string) (data : bytes) :
  preserves P (publish_s3 w job_id filename ext data).
Proof. unfold publish_s3. preserves_auto. Qed.

Lemma keeps_publish_inline (filename : pyval) (data : bytes) :
  preserves P (publish_inline filename data).
Proof. unfold publish_inline. preserves_auto. Qed.

Hint Resolve keeps_publish_s3 keeps_publish_inline : preserves.

Lemma keeps_process_image (job_id : pyval) (node_id : string)
    (image_info : pyval) :
  preserves P (process_image w job_id node_id image_info).
Proof.
  unfold process_image.
  apply preserves_bind; [auto with preserves | intros filename].
  apply preserves_bind; [auto with preserves | intros subfolder].
  apply preserves_bind; [auto with preserves | intros img_type].
  destruct (py_eq_str img_type "temp") eqn:Htemp; [auto with preserves |].
  destruct (negb (truthy filename)); [auto with preserves |].
  apply preserves_bind; [apply keeps_get_image_data; exact Htemp |].
  intros image_bytes. preserves_auto.
Qed.

Hint Resolve keeps_process_image : preserves.

Lemma keeps_process_node (job_id : pyval) (node : string * pyval) :
  preserves P (process_node w job_id node).
Proof. unfold process_node. preserves_auto. Qed.

Hint Resolve keeps_process_node : preserves.

Lemma keeps_after_monitoring (job_id prompt_id : pyval) (done : bool) :
  preserves P (after_monitoring w job_id prompt_id done).
Proof. unfold after_monitoring. preserves_auto. Qed.

Lemma keeps_queue_and_get_prompt_id (workflow : pyval) (client_id : string) :
  preserves P (queue_and_get_prompt_id w workflow client_id).
Proof. unfold queue_and_get_prompt_id. preserves_auto. Qed.

Lemma keeps_on_message (prompt_id message : pyval) :
  preserves P (on_message w prompt_id message).
Proof. unfold on_message, execution_error_details. preserves_auto. Qed.

Lemma keeps_upload_inputs (input_media : pyval) :
  preserves P (upload_inputs w input_media).
Proof. unfold upload_inputs. preserves_auto. Qed.

Lemma keeps_WebSocket : preserves P WebSocket.
Proof. intros s r s' HP H. injection H as _ <-. auto. Qed.

Lemma keeps_ws_connect (sock : nat) (url : string) :
  preserves P (ws_connect w sock url).
Proof.
  intros s r s' HP H. unfold ws_connect in H.
  destruct (ws_handshake w url sock); injection H as _ <-; auto.
Qed.

Lemma keeps_ws_connected (sock : nat) : preserves P (ws_connected sock).
Proof. intros s r s' HP H. injection H as _ <-. exact HP. Qed.

Lemma keeps_ws_close (sock : nat) : preserves P (ws_close sock).
Proof. unfold ws_close. preserves_auto. auto. Qed.

Lemma keeps_ws_recv (fr : recv_reply) : preserves P (ws_recv fr).
Proof.
  intros s r s' HP H. unfold ws_recv in H.
  destruct fr as [text | b | e]; try (injection H as _ <-; exact HP).
  destruct (is_instance e WebSocketConnectionClosedException);
    [destruct (ws_var s) |]; injection H as _ <-; auto.
Qed.

Hint Resolve keeps_upload_inputs keeps_WebSocket keeps_ws_connect
  keeps_ws_connected keeps_ws_close keeps_ws_recv keeps_on_message
  keeps_after_monitoring keeps_queue_and_get_prompt_id : preserves.

Lemma keeps_reconnect_attempts (ws_url : string) (max_attempts delay_s : Z)
    (attempts : list Z) :
  forall last,
    preserves P (reconnect_attempts w ws_url max_attempts delay_s attempts last).
Proof.
  induction attempts as [| attempt rest IH]; intros last; simpl;
    preserves_auto.
Qed.

Lemma keeps_attempt_websocket_reconnect (ws_url : string)
    (max_attempts delay_s : Z) (e : exn) :
  preserves P (_attempt_websocket_reconnect w ws_url max_attempts delay_s e).
Proof. apply keeps_reconnect_attempts. Qed.

Hint Resolve keeps_attempt_websocket_reconnect : preserves.

Lemma keeps_monitor_iteration (ws_url : string) (prompt_id : pyval)
    (fr : recv_reply) :
  preserves P (monitor_iteration w ws_url prompt_id fr).
Proof. unfold monitor_iteration. preserves_auto. auto. Qed.

Hint Resolve keeps_monitor_iteration : preserves.

Lemma keeps_monitor_loop (ws_url : string) (prompt_id : pyval)
    (frames : list recv_reply) :
  preserves P (monitor_loop w ws_url prompt_id frames).
Proof. induction frames as [| fr rest IH]; simpl; preserves_auto. Qed.

Hint Resolve keeps_monitor_loop : preserves.

Lemma keeps_guarded_try (job_id workflow : pyval) (client_id : string) :
  preserves P (guarded_try w job_id workflow client_id).
Proof.
  unfold guarded_try, handler_try, handler_except, handler_finally.
  preserves_auto. auto.
Qed.

Hint Resolve keeps_guarded_try : preserves.

Lemma keeps_run_workflow (job_id workflow : pyval) :
  preserves P (run_workflow w job_id workflow).
Proof.
  unfold run_workflow. preserves_auto; unfold reset_locals; auto.
Qed.

Hint Resolve keeps_run_workflow : preserves.

(** Every run of [handler] keeps such a property. *)
Lemma keeps_handler (job : pyval) : preserves P (handler w job).
Proof. unfold handler. preserves_auto. Qed.

End StableInvariant.

(** ** Temporary artifacts *)

Lemma no_temp_fetch_log (e : event) (s : state) :
  benign e = true -> no_temp_fetch s -> no_temp_fetch (log e s).
Proof.
  unfold no_temp_fetch. simpl. intros He Hs. apply Forall_app. split; auto.
Qed.

Lemma process_image_temp (w : World) (job_id : pyval) (node_id : string)
    (image_info : pyval) (s : state) :
  is_temp_descriptor image_info = true ->
  process_image w job_id node_id image_info s = (Ret tt, s).
Proof.
  unfold is_temp_descriptor. destruct image_info as [| | | | | d];
    try discriminate.
  intros Ht. unfold process_image, py_get, py_get_val. simpl.
  destruct (assoc "type" d) as [image_type |]; [| discriminate].
  unfold bind, lift, ret. rewrite Ht. reflexivity.
Qed.

Lemma for_each_skips_temp (w : World) (job_id : pyval) (node_id : string)
    (items : list pyval) :
  forall s,
    for_each (process_image w job_id node_id) items s
    = for_each (process_image w job_id node_id)
               (filter (fun i => negb (is_temp_descriptor i)) items) s.
Proof.
  induction items as [| item rest IH]; intros s; [reflexivity |].
  cbn [filter for_each].
  destruct (is_temp_descriptor item) eqn:Ht; cbn [negb].
  - unfold bind at 1. rewrite (process_image_temp _ _ _ _ _ Ht). apply IH.
  - cbn [for_each]. unfold bind.
    destruct (process_image w job_id node_id item s) as [[[] | e |] s1]; auto.
Qed.

Example demo_run_publishes_the_output_image_only :
  handler demo_world demo_job init_state
  = (Ret (PDict [("media",
                  PList [base64_entry (PStr "a.png") "AQI="])]),
     State [EvHttpGet root_url;
            EvWsConnect demo_ws_url 0;
            EvHttpPost ("http://" ++ COMFY_HOST ++ "/prompt");
            EvHttpGet ("http://" ++ COMFY_HOST ++ "/history/p1");
            EvFetch (PStr "a.png") (PStr "") (PStr "output");
            EvHttpGet ("http://" ++ COMFY_HOST ++ "/view?output/a.png");
            EvWsClose 0]
           [false] [] 4 1 (Some 0%nat) []
           [base64_entry (PStr "a.png") "AQI="] None).
Proof. vm_compute. reflexivity. Qed.

(** ** Closing the websocket *)

(** A call that leaves the sockets and [ws] alone keeps whatever holds of
    them. *)
Lemma untouched_sockets {A : Type} (m : M A) (Q : list bool -> option nat -> Prop) :
  (forall l v, preserves (sockets_are l v) m) ->
  preserves (fun s => Q (socks s) (ws_var s)) m.
Proof.
  intros Hm s r s' HQ Hrun.
  destruct (Hm (socks s) (ws_var s) s r s' (conj eq_refl eq_refl) Hrun)
    as (-> & ->).
  exact HQ.
Qed.

Lemma ws_tracks_open_socket_tracked (s : state) :
  ws_tracks_open_socket s <-> tracked (socks s) (ws_var s).
Proof. reflexivity. Qed.

Section SocketInvariant.
Variable w : World.

Ltac sockets_untouched :=
  intros; match goal with H : sockets_are _ _ _ |- _ => exact H end.

Lemma check_server_sockets (url : string) (retries delay : Z) (l : list bool)
    (v : option nat) :
  preserves (sockets_are l v) (check_server w url retries delay).
Proof. apply keeps_check_server; sockets_untouched. Qed.

Lemma upload_inputs_sockets (input_media : pyval) (l : list bool)
    (v : option nat) :
  preserves (sockets_are l v) (upload_inputs w input_media).
Proof. apply keeps_upload_inputs; sockets_untouched. Qed.

Lemma queue_sockets (workflow : pyval) (client_id : string) (l : list bool)
    (v : option nat) :
  preserves (sockets_are l v) (queue_and_get_prompt_id w workflow client_id).
Proof.
  apply keeps_queue_and_get_prompt_id; sockets_untouched.
Qed.

Lemma after_monitoring_sockets (job_id prompt_id : pyval) (done : bool)
    (l : list bool) (v : option nat) :
  preserves (sockets_are l v) (after_monitoring w job_id prompt_id done).
Proof.
  apply keeps_after_monitoring; sockets_untouched.
Qed.

(** A receive keeps the invariant; when it reports the connection closed,
    no socket is left connected. *)
Lemma ws_recv_sockets (fr : recv_reply) (s : state) (r : outcome recv_reply)
    (s' : state) :
  ws_tracks_open_socket s -> ws_recv fr s = (r, s') ->
  ws_tracks_open_socket s'
  /\ ws_var s' = ws_var s
  /\ match r with
     | Exc e => fr = RecvRaises e
                /\ (connection_closed e = true -> all_closed (socks s'))
     | Ret x => s' = s
     | Hang => False
     end.
Proof.
  intros Hinv Hrun. unfold ws_recv in Hrun.
  destruct fr as [text | b | e]; try (injection Hrun as <- <-; auto).
  unfold connection_closed.
  destruct (is_instance e WebSocketConnectionClosedException) eqn:Hcc.
  - destruct (ws_var s) as [sock |] eqn:Hws; injection Hrun as <- <-.
    + assert (Hc : all_closed (list_set sock false (socks s))).
      { destruct Hinv as [Hc | (sock' & Hv & Hopen)].
        - apply all_closed_list_set, Hc.
        - rewrite Hws in Hv. injection Hv as <-.
          apply only_open_close, Hopen. }
      repeat split; auto. left. exact Hc.
    + repeat split; auto. intros _.
      destruct Hinv as [Hc | (sock' & Hv & _)]; [exact Hc | congruence].
  - injection Hrun as <- <-. repeat split; auto. congruence.
Qed.

Lemma monitor_iteration_sockets (ws_url : string) (prompt_id : pyval)
    (fr : recv_reply) :
  preserves ws_tracks_open_socket (monitor_iteration w ws_url prompt_id fr).
Proof.
  intros s r s' Hinv Hrun.
  unfold monitor_iteration, try_except, bind at 1 in Hrun.
  destruct (ws_recv fr s) as [[out | e |] s1] eqn:Hrecv;
    destruct (ws_recv_sockets fr s _ s1 Hinv Hrecv) as (Hinv1 & Hws & Hout).
  - subst s1.
    assert (Hm : forall message,
               preserves ws_tracks_open_socket (on_message w prompt_id message)).
    { intros message.
      apply (untouched_sockets _ tracked). intros l v.
      apply keeps_on_message; sockets_untouched. }
    destruct out as [text | b | e0].
    + destruct (json_loads w text) as [message |].
      * pose proof (on_message_cases w prompt_id message s) as Hcases.
        destruct (on_message w prompt_id message s) as [[step | e |] s2] eqn:E.
        -- injection Hrun as _ <-. exact (Hm message s _ s2 Hinv E).
        -- destruct Hcases as (-> & Hcls). destruct e as [c t].
           simpl in Hcls. subst c. injection Hrun as _ <-. exact Hinv.
        -- contradiction.
      * injection Hrun as _ <-. exact Hinv.
    + injection Hrun as _ <-. exact Hinv.
    + injection Hrun as _ <-. exact Hinv.
  - destruct Hout as (-> & Hclosed).
    destruct (is_instance e WebSocketTimeoutException);
      [injection Hrun as _ <-; exact Hinv1 |].
    fold (connection_closed e) in Hrun.
    destruct (connection_closed e).
    + specialize (Hclosed eq_refl). unfold bind at 1 in Hrun.
      destruct (_attempt_websocket_reconnect w ws_url _ _ e s1)
        as [[new_ws | e' |] s2] eqn:E;
        unfold _attempt_websocket_reconnect in E;
        apply reconnect_attempts_shape in E;
        destruct E as (t & _ & _ & _ & _ & _ & _ & _ & _ & Hr).
      * injection Hrun as _ <-. destruct Hr as (_ & Hopen).
        right. exists new_ws. split; [reflexivity | exact (Hopen Hclosed)].
      * injection Hrun as _ <-. left. exact (Hr Hclosed).
      * contradiction.
    + destruct (is_instance e JSONDecodeError); injection Hrun as _ <-;
        exact Hinv1.
  - contradiction.
Qed.

Lemma monitor_loop_sockets (ws_url : string) (prompt_id : pyval)
    (frames : list recv_reply) :
  preserves ws_tracks_open_socket (monitor_loop w ws_url prompt_id frames).
Proof.
  induction frames as [| fr rest IH]; simpl.
  - apply preserves_hang.
  - apply preserves_bind; [apply monitor_iteration_sockets |].
    intros [|]; [exact IH | apply preserves_ret].
Qed.

End SocketInvariant.

Section ClosingTheSocket.
Variable w : World.

(** The body of the [try]: started with no socket connected, it leaves at
    most the socket of [ws] connected. *)
Lemma handler_try_sockets (job_id workflow : pyval) (client_id : string)
    (s : state) (r : outcome (option pyval)) (s' : state) :
  all_closed (socks s) ->
  handler_try w job_id workflow client_id s = (r, s') ->
  ws_tracks_open_socket s'.
Proof.
  intros Hclosed Hrun. unfold handler_try in Hrun.
  unfold bind at 1, WebSocket in Hrun.
  unfold bind at 1, modify in Hrun.
  unfold bind at 1, ws_connect in Hrun.
  cbn [socks set_socks set_ws_var log ws_var] in Hrun.
  destruct (ws_handshake w _ (List.length (socks s))).
  { injection Hrun as _ <-. left. simpl. apply all_closed_snoc, Hclosed. }
  rewrite list_set_app_length in Hrun.
  revert Hrun.
  match goal with
  | |- bind ?m ?k ?s1 = _ -> _ =>
      intros Hrun;
      assert (Hs1 : ws_tracks_open_socket s1)
  end.
  { right. exists (List.length (socks s)). split; [reflexivity |].
    exists (socks s), []. repeat split; auto. constructor. }
  revert Hrun. 
  apply (preserves_bind ws_tracks_open_socket); [| | exact Hs1].
  - apply (untouched_sockets _ tracked). intros l v. apply queue_sockets.
  - intros prompt_id. apply preserves_bind.
    + apply monitor_loop_sockets.
    + intros done. apply (untouched_sockets _ tracked). intros l v.
      apply after_monitoring_sockets.
Qed.

(** The [finally] clause closes the socket the invariant allows to be
    connected. *)
Lemma handler_finally_closes (s : state) :
  ws_tracks_open_socket s ->
  exists s', handler_finally s = (Ret tt, s') /\ all_closed (socks s').
Proof.
  intros Hinv. unfold handler_finally, bind at 1, get_state.
  destruct (ws_var s) as [sock |] eqn:Hws.
  - unfold bind, ws_connected.
    destruct (nth sock (socks s) false) eqn:Hnth.
    + eexists. split; [reflexivity |]. simpl.
      destruct Hinv as [Hc | (sock' & Hv & Hopen)].
      * apply all_closed_list_set, Hc.
      * rewrite Hws in Hv. injection Hv as <-. apply only_open_close, Hopen.
    + exists s. split; [reflexivity |].
      destruct Hinv as [Hc | (sock' & Hv & Hopen)]; [exact Hc |].
      rewrite Hws in Hv. injection Hv as <-.
      rewrite (only_open_nth _ _ Hopen) in Hnth. discriminate.
  - exists s. split; [reflexivity |].
    destruct Hinv as [Hc | (sock' & Hv & _)]; [exact Hc | congruence].
Qed.

Lemma guarded_try_closes (job_id workflow : pyval) (client_id : string)
    (s : state) (r : outcome (option pyval)) (s' : state) :
  all_closed (socks s) ->
  guarded_try w job_id workflow client_id s = (r, s') ->
  r <> Hang ->
  all_closed (socks s').
Proof.
  intros Hclosed Hrun Hret. unfold guarded_try, try_finally in Hrun.
  destruct (try_except (handler_try w job_id workflow client_id) handler_except s)
    as [body s1] eqn:Hbody.
  assert (Hinv : ws_tracks_open_socket s1).
  { unfold try_except in Hbody.
    destruct (handler_try w job_id workflow client_id s) as [[a | e |] s0] eqn:E;
      pose proof (handler_try_sockets _ _ _ _ _ _ Hclosed E) as H0.
    - injection Hbody as _ <-. exact H0.
    - unfold handler_except in Hbody.
      repeat match type of Hbody with
             | context [if ?b then _ else _] => destruct b
             end; injection Hbody as _ <-; exact H0.
    - injection Hbody as _ <-. exact H0. }
  destruct (handler_finally_closes s1 Hinv) as (s2 & Hfin & Hc).
  rewrite Hfin in Hrun.
  destruct body as [a | e |]; injection Hrun as <- <-; [exact Hc | exact Hc |].
  contradiction.
Qed.

Lemma run_workflow_closes (job_id workflow : pyval) (s : state)
    (r : outcome pyval) (s' : state) :
  all_closed (socks s) ->
  run_workflow w job_id workflow s = (r, s') ->
  r <> Hang ->
  all_closed (socks s').
Proof.
  intros Hclosed Hrun Hret. unfold run_workflow in Hrun.
  unfold bind at 1, modify in Hrun. unfold bind at 1, get_state in Hrun.
  unfold bind at 1 in Hrun. unfold bind at 1 in Hrun.
  match type of Hrun with
  | context [guarded_try w job_id workflow ?c ?s0] =>
      destruct (guarded_try w job_id workflow c s0) as [g s1] eqn:Hg;
      assert (Hc1 : g <> Hang -> all_closed (socks s1))
        by (intros Hg'; exact (guarded_try_closes _ _ _ s0 _ _ Hclosed Hg Hg'))
  end.
  destruct g as [[result |] | e |].
  - injection Hrun as _ <-. apply Hc1. discriminate.
  - unfold bind, get_state, ret in Hrun. injection Hrun as _ <-.
    apply Hc1. discriminate.
  - injection Hrun as _ <-. apply Hc1. discriminate.
  - injection Hrun as <- _. contradiction.
Qed.

End ClosingTheSocket.

(** C5.  Whenever [handler] gives control back, by a result or by an
    exception, and whichever way it left its [try] block, no websocket is
    connected any more: the socket it opened, or the one it got from a
    reconnection, has been closed by the [finally] clause or by the library
    when the connection was lost. *)
Theorem websocket_closed_on_every_exit :
  forall (w : World) (job : pyval) (s : state) (r : outcome pyval) (s' : state),
    all_closed (socks s) ->
    handler w job s = (r, s') ->
    r <> Hang ->
    all_closed (socks s').
Proof.
  intros w job s r s' Hclosed Hrun Hret.
  set (Q := fun (l : list bool) (_ : option nat) => all_closed l).
  assert (Hpre : forall {A} (m : M A),
             (forall l v, preserves (sockets_are l v) m) ->
             preserves (fun s => all_closed (socks s)) m).
  { intros A m Hm. exact (untouched_sockets m Q Hm). }
  unfold handler in Hrun.
  repeat match type of Hrun with
         | bind (lift ?x) _ _ = _ =>
             unfold bind at 1 in Hrun; destruct x as [? | ?];
             cbn [lift ret raise] in Hrun;
             [| injection Hrun as _ <-; exact Hclosed]
         end.
  destruct (message_given _); [injection Hrun as _ <-; exact Hclosed |].
  cbv zeta in Hrun.
  repeat match type of Hrun with
         | bind (lift ?x) _ _ = _ =>
             unfold bind at 1 in Hrun; destruct x as [? | ?];
             cbn [lift ret raise] in Hrun;
             [| injection Hrun as _ <-; exact Hclosed]
         end.
  unfold bind at 1 in Hrun.
  destruct (check_server w _ _ _ s) as [[ready | e |] s1] eqn:Hcheck;
    pose proof (Hpre _ _ (check_server_sockets w _ _ _) s _ s1 Hclosed Hcheck)
      as Hc1; try (injection Hrun as _ <-; exact Hc1).
  destruct (negb ready); [injection Hrun as _ <-; exact Hc1 |].
  unfold bind at 1 in Hrun.
  match type of Hrun with
  | context [upload_inputs w ?m s1] =>
      destruct (upload_inputs w m s1) as [[[result |] | e |] s2] eqn:Hup;
      pose proof (Hpre _ _ (upload_inputs_sockets w m) s1 _ s2 Hc1 Hup) as Hc2
  end; try (injection Hrun as _ <-; exact Hc2).
  exact (run_workflow_closes w _ _ s2 r s' Hc2 Hrun Hret).
Qed.

Lemma websocket_closed_on_every_exit_witness :
  all_closed (socks (snd (handler dropping_world demo_job init_state)))
  /\ all_closed (socks (snd (handler lost_world demo_job init_state))).
Proof.
  split.
  - apply (websocket_closed_on_every_exit dropping_world demo_job init_state
             (fst (handler dropping_world demo_job init_state))).
    + constructor.
    + destruct (handler dropping_world demo_job init_state); reflexivity.
    + vm_compute. discriminate.
  - apply (websocket_closed_on_every_exit lost_world demo_job init_state
             (fst (handler lost_world demo_job init_state))).
    + constructor.
    + destruct (handler lost_world demo_job init_state); reflexivity.
    + vm_compute. discriminate.
Defined.

Example reconnected_run_closes_the_new_socket :
  let run := handler dropping_world demo_job init_state in
  fst run = Ret (PDict [("media", PList [base64_entry (PStr "a.png") "AQI="])])
  /\ socks (snd run) = [false; false; false]
  /\ ws_var (snd run) = Some 2%nat
  /\ filter (fun e => match e with
                      | EvWsConnect _ _ | EvWsClose _ => true
                      | _ => false
                      end) (trace (snd run))
     = [EvWsConnect demo_ws_url 0; EvWsConnect demo_ws_url 1;
        EvWsConnect demo_ws_url 2; EvWsClose 2].
Proof. vm_compute. repeat split. Qed.

Example lost_connection_fails_the_job :
  fst (handler lost_world demo_job init_state)
  = Ret (error_result
           "WebSocket communication error: Connection closed and failed to reconnect. Last error: Connection refused").
Proof. vm_compute. reflexivity. Qed.

(** ** Publishing to the object store *)

Lemma assoc_remove_gone {A : Type} (k : string) (d : list (string * A)) :
  assoc k (assoc_remove k d) = None.
Proof.
  induction d as [| [k' v] d IH]; simpl; [reflexivity |].
  destruct (String.eqb k k') eqn:E; [exact IH |].
  simpl. rewrite E. exact IH.
Qed.

Lemma assoc_dict_set {A : Type} (k : string) (v : A) (d : list (string * A)) :
  assoc k (dict_set k v d) = Some v.
Proof.
  induction d as [| [k' v'] d IH]; simpl.
  - rewrite String.eqb_refl. reflexivity.
  - destruct (String.eqb k k') eqn:E; simpl.
    + rewrite String.eqb_refl. reflexivity.
    + rewrite E. exact IH.
Qed.

Section PublishS3.
Variable w : World.
Variables job_id filename : pyval.
Variable file_extension : string.
Variable image_bytes : bytes.

Lemma upload_steps_records (s0 : state) :
  preserves (records_of s0)
            (upload_steps w job_id file_extension image_bytes).
Proof.
  assert (Hstable : forall f : state -> state,
             (forall s, output_data (f s) = output_data s) ->
             (forall s, errors (f s) = errors s) ->
             forall s, records_of s0 s -> records_of s0 (f s)).
  { intros f Ho He s [H1 H2]. split; [rewrite Ho | rewrite He]; assumption. }
  unfold upload_steps.
  apply preserves_bind; [apply keeps_write_temp_file | intros _];
    try (intros; apply Hstable; auto; fail).
  apply preserves_bind; [apply keeps_local_temp_file_path | intros path].
  apply preserves_bind; [apply keeps_boto_upload_media | intros uploaded];
    try (intros; apply Hstable; auto; fail).
  apply preserves_bind; [apply keeps_local_temp_file_path | intros path'].
  apply preserves_bind; [apply keeps_os_remove | intros _; apply preserves_ret];
    try (intros; apply Hstable; auto; fail).
Qed.

Lemma returns_upload_steps :
  returns (upload_steps w job_id file_extension image_bytes).
Proof. unfold upload_steps. returns_auto. Qed.

Lemma publish_s3_unfold (s : state) :
  publish_s3 w job_id filename file_extension image_bytes s
  = try_except
      (bind (upload_steps w job_id file_extension image_bytes) (fun uploaded =>
         append_output (s3_entry filename (fst uploaded) (snd uploaded))))
      (fun e =>
         bind (append_error ("Error uploading " ++ py_str w filename
                             ++ " to S3: " ++ exn_text e)%string) (fun _ =>
         bind get_state (fun s =>
         match temp_file_path s with
         | Some path =>
             if path_exists path s then
               try_except (os_remove path)
                 (fun rm_err =>
                    if is_instance rm_err OSError then ret tt else raise rm_err)
             else ret tt
         | None => ret tt
         end))) s.
Proof.
  unfold publish_s3, upload_steps, try_except, bind.
  destruct (write_temp_file w file_extension image_bytes s) as [[[] | e |] s1];
    try reflexivity.
  destruct (local_temp_file_path s1) as [[path | e |] s2]; try reflexivity.
  destruct (boto_upload_media w job_id path s2) as [[up | e |] s3];
    try reflexivity.
  destruct (local_temp_file_path s3) as [[path' | e |] s4]; try reflexivity.
  destruct (os_remove path' s4) as [[[] | e |] s5]; reflexivity.
Qed.

(** The removal in the [except] clause cannot fail the publication. *)
Lemma cleanup_returns (s : state) :
  exists s',
    match temp_file_path s with
    | Some path =>
        if path_exists path s then
          try_except (os_remove path)
            (fun rm_err =>
               if is_instance rm_err OSError then ret tt else raise rm_err)
        else ret tt
    | None => ret tt
    end s = (Ret tt, s')
    /\ records_of s s'.
Proof.
  destruct (temp_file_path s) as [path |]; [| exists s; repeat split].
  destruct (path_exists path s) eqn:E; [| exists s; repeat split].
  unfold try_except, os_remove. rewrite E. eexists. repeat split.
Qed.

(** Every failure of the publication is caught: the step returns, with
    either the entry of the artifact appended to the outputs, or one error
    recorded and the outputs as they were. *)
Lemma publish_s3_outcome (s : state) :
  exists s',
    publish_s3 w job_id filename file_extension image_bytes s = (Ret tt, s')
    /\ ((exists url key,
            output_data s' = output_data s ++ [s3_entry filename url key]
            /\ errors s' = errors s)
        \/ (output_data s' = output_data s
            /\ exists msg, errors s' = errors s ++ [msg])).
Proof.
  rewrite publish_s3_unfold. unfold try_except, bind at 1.
  destruct (upload_steps w job_id file_extension image_bytes s)
    as [[uploaded | e |] s1] eqn:E.
  - destruct (upload_steps_records s s _ s1 (conj eq_refl eq_refl) E)
      as (Ho & He).
    eexists. split; [reflexivity |]. left. exists (fst uploaded), (snd uploaded).
    simpl. rewrite Ho, He. split; reflexivity.
  - destruct (upload_steps_records s s _ s1 (conj eq_refl eq_refl) E)
      as (Ho & He).
    unfold bind at 1, append_error, modify. unfold bind at 1, get_state.
    match goal with
    | |- context [temp_file_path ?s2] =>
        destruct (cleanup_returns s2) as (s' & Hrun & Ho' & He')
    end.
    cbn [temp_file_path set_errors] in *.
    exists s'. split; [exact Hrun |]. right.
    simpl in Ho', He'. rewrite Ho', He', Ho, He. split; [reflexivity |].
    eexists. reflexivity.
  - exfalso. exact (returns_upload_steps s s1 E).
Qed.

End PublishS3.

Section TemporaryFile.
Variable w : World.
Variables job_id filename : pyval.
Variable file_extension : string.
Variable image_bytes : bytes.

Lemma boto_upload_media_disk (path : string) (l : list (string * bytes))
    (p : option string) :
  preserves (disk_is l p) (boto_upload_media w job_id path).
Proof.
  apply keeps_boto_upload_media; intros;
    match goal with H : disk_is _ _ _ |- _ => exact H end.
Qed.

(** Once the image has been written to the temporary file, the file is gone
    when the publication step ends, whether the upload and the presigned URL
    succeeded or not. *)
Lemma publish_s3_removes_written_file (s s' : state) (r : outcome unit) :
  tmp_create w (fresh s) = None ->
  tmp_write w (fresh s) = None ->
  publish_s3 w job_id filename file_extension image_bytes s = (r, s') ->
  path_exists (tmp_name w file_extension (fresh s)) s' = false.
Proof.
  intros Hcreate Hwrite Hrun.
  set (path := tmp_name w file_extension (fresh s)) in *.
  unfold publish_s3, try_except in Hrun.
  unfold bind at 1, write_temp_file in Hrun. rewrite Hcreate, Hwrite in Hrun.
  fold path in Hrun.
  unfold bind at 1, local_temp_file_path in Hrun.
  cbn [temp_file_path set_temp_file_path] in Hrun.
  unfold bind at 1 in Hrun.
  match type of Hrun with
  | context [boto_upload_media w job_id path ?s1] =>
      destruct (boto_upload_media w job_id path s1) as [[up | e |] s2] eqn:E;
      destruct (boto_upload_media_disk path _ _ s1 _ s2
                  (conj eq_refl eq_refl) E) as (Hfiles & Hpath);
      cbn [files temp_file_path set_temp_file_path set_files log tick_fresh]
        in Hfiles, Hpath
  end.
  - unfold bind at 1 in Hrun. rewrite Hpath in Hrun.
    unfold bind at 1, os_remove, path_exists in Hrun.
    rewrite Hfiles, assoc_dict_set in Hrun.
    unfold append_output, modify in Hrun. injection Hrun as _ <-.
    unfold path_exists. cbn [files set_output_data set_files log].
    rewrite assoc_remove_gone. reflexivity.
  - unfold bind at 1, append_error, modify in Hrun.
    unfold bind at 1, get_state in Hrun.
    cbn [temp_file_path set_errors] in Hrun. rewrite Hpath in Hrun.
    unfold path_exists in Hrun at 1. cbn [files set_errors] in Hrun.
    rewrite Hfiles, assoc_dict_set in Hrun.
    unfold try_except, os_remove, path_exists in Hrun.
    cbn [files set_errors] in Hrun. rewrite Hfiles, assoc_dict_set in Hrun.
    injection Hrun as _ <-.
    unfold path_exists. cbn [files set_files log].
    rewrite assoc_remove_gone. reflexivity.
  - exfalso. exact (returns_boto_upload_media w job_id path _ _ E).
Qed.

(** But when writing the image fails, [temp_file_path] has not been
    assigned: in a frame where it was not bound before, the [except] clause
    removes nothing and the file that was created stays on disk. *)
Lemma publish_s3_leaves_unwritten_file (s : state) (e : exn) :
  tmp_create w (fresh s) = None ->
  tmp_write w (fresh s) = Some e ->
  temp_file_path s = None ->
  let path := tmp_name w file_extension (fresh s) in
  let s' := set_errors
              (errors s ++ [("Error uploading " ++ py_str w filename
                             ++ " to S3: " ++ exn_text e)%string])
              (set_files (dict_set path [] (files s))
                         (log (EvTmpCreate path) (tick_fresh s))) in
  publish_s3 w job_id filename file_extension image_bytes s = (Ret tt, s')
  /\ path_exists path s' = true
  /\ trace s' = trace s ++ [EvTmpCreate path].
Proof.
  intros Hcreate Hwrite Hpath path s'.
  split; [| split].
  - unfold publish_s3, try_except.
    unfold bind at 1, write_temp_file. rewrite Hcreate, Hwrite.
    unfold bind at 1, append_error, modify. unfold bind at 1, get_state.
    cbn [temp_file_path set_errors set_files log tick_fresh]. rewrite Hpath.
    reflexivity.
  - unfold path_exists, s'. cbn [files set_errors set_files].
    rewrite assoc_dict_set. reflexivity.
  - reflexivity.
Qed.

End TemporaryFile.

(** What one descriptor contributes to the outputs: nothing, or one entry
    carrying its file name, and then its type is not [temp]. *)
Lemma is_temp_descriptor_type (d : list (string * pyval)) :
  is_temp_descriptor (PDict d) = py_eq_str (descriptor_type d) "temp".
Proof.
  unfold is_temp_descriptor, descriptor_type.
  destruct (assoc "type" d); reflexivity.
Qed.

Lemma get_image_data_outputs (w : World) (filename subfolder image_type : pyval)
    (s : state) (r : outcome (option bytes)) (s' : state) :
  py_eq_str image_type "temp" = false ->
  get_image_data w filename subfolder image_type s = (r, s') ->
  output_data s' = output_data s.
Proof.
  intros Htemp Hrun.
  apply (keeps_get_image_data w (outputs_are (output_data s))
           ltac:(intros; assumption) ltac:(intros; assumption)
           filename subfolder image_type Htemp s r s' eq_refl Hrun).
Qed.

Lemma process_image_provenance (w : World) (job_id : pyval) (node_id : string)
    (image_info : pyval) (s : state) (r : outcome unit) (s' : state) :
  process_image w job_id node_id image_info s = (r, s') ->
  output_data s' = output_data s
  \/ exists entry,
       output_data s' = output_data s ++ [entry]
       /\ is_temp_descriptor image_info = false
       /\ entry_filename entry = Some (descriptor_filename image_info).
Proof.
  intros Hrun. unfold process_image in Hrun.
  destruct image_info as [| b | z | t | l | d];
    try (injection Hrun as _ <-; left; reflexivity).
  rewrite is_temp_descriptor_type.
  unfold descriptor_filename, py_get, py_get_val in *.
  cbn [hashable dict_lookup] in *.
  fold (descriptor_subfolder d) in Hrun. fold (descriptor_type d) in Hrun.
  set (filename := match assoc "filename" d with
                   | Some x => x
                   | None => PNone
                   end) in *.
  unfold bind at 1 in Hrun. cbn [lift ret] in Hrun.
  unfold bind at 1 in Hrun. cbn [lift ret] in Hrun.
  unfold bind at 1 in Hrun. cbn [lift ret] in Hrun.
  destruct (py_eq_str (descriptor_type d) "temp") eqn:Htemp;
    [injection Hrun as _ <-; left; reflexivity |].
  destruct (negb (truthy filename));
    [injection Hrun as _ <-; left; reflexivity |].
  unfold bind at 1 in Hrun.
  destruct (get_image_data w filename (descriptor_subfolder d)
              (descriptor_type d) s) as [[image_bytes | e |] s1] eqn:E;
    pose proof (get_image_data_outputs w _ _ _ s _ s1 Htemp E) as Ho;
    try (injection Hrun as _ <-; left; exact Ho).
  destruct image_bytes as [[| b0 data] |];
    try (injection Hrun as _ <-; left; exact Ho).
  unfold bind at 1 in Hrun.
  destruct (py_splitext w filename) as [ext | e];
    [| injection Hrun as _ <-; left; exact Ho].
  cbn [lift ret] in Hrun.
  destruct (negb (unset (environ w "BUCKET_ENDPOINT_URL"))).
  - match type of Hrun with
    | publish_s3 w job_id filename ?x ?y s1 = _ =>
        destruct (publish_s3_outcome w job_id filename x y s1)
          as (s2 & Hrun2 & Hcase)
    end.
    rewrite Hrun2 in Hrun. injection Hrun as _ <-.
    destruct Hcase as [(url & key & Hout & _) | (Hout & _)].
    + right. exists (s3_entry filename url key).
      rewrite Hout, Ho. repeat split.
    + left. congruence.
  - injection Hrun as _ <-. right.
    exists (base64_entry filename (b64encode (b0 :: data))).
    cbn [output_data set_output_data]. rewrite Ho. repeat split.
Qed.

(** C6.  An artifact descriptor of type [temp] is passed over before anything
    is done with it: processing it leaves the state as it is, so that the
    artifacts published for a node are those of its descriptors that are not
    [temp], whatever a fetch of the others would give.  An entry enters the
    outputs only for a descriptor whose type is not [temp], and no run of
    [handler] asks the engine for an artifact of type [temp]. *)
Theorem temp_artifacts_are_skipped :
  forall (w : World) (job_id : pyval) (node_id : string),
    (forall image_info s,
        is_temp_descriptor image_info = true ->
        process_image w job_id node_id image_info s = (Ret tt, s))
    /\ (forall items s,
          for_each (process_image w job_id node_id) items s
          = for_each (process_image w job_id node_id)
                     (filter (fun i => negb (is_temp_descriptor i)) items) s)
    /\ (forall image_info s r s',
          process_image w job_id node_id image_info s = (r, s') ->
          output_data s' = output_data s
          \/ exists entry,
               output_data s' = output_data s ++ [entry]
               /\ is_temp_descriptor image_info = false
               /\ entry_filename entry = Some (descriptor_filename image_info))
    /\ (forall job s r s',
          no_temp_fetch s -> handler w job s = (r, s') -> no_temp_fetch s').
Proof.
  intros w job_id node_id. split; [| split; [| split]].
  - intros image_info s Ht. apply process_image_temp. exact Ht.
  - intros items s. apply for_each_skips_temp.
  - intros image_info s r s' Hrun.
    exact (process_image_provenance w job_id node_id image_info s r s' Hrun).
  - intros job s r s' Hs Hrun.
    apply (keeps_handler w no_temp_fetch) with (job := job) (s := s) (r := r);
      auto using no_temp_fetch_log.
Qed.

Lemma temp_artifacts_are_skipped_witness :
  process_image demo_world (PStr "job-1") "9"
    (PDict [("filename", PStr "t.png"); ("subfolder", PStr "");
            ("type", PStr "temp")]) init_state = (Ret tt, init_state)
  /\ no_temp_fetch (snd (handler demo_world demo_job init_state)).
Proof.
  destruct (temp_artifacts_are_skipped demo_world (PStr "job-1") "9")
    as (H1 & _ & _ & H3).
  split.
  - apply H1. reflexivity.
  - apply (H3 demo_job init_state
              (fst (handler demo_world demo_job init_state))).
    + constructor.
    + destruct (handler demo_world demo_job init_state); reflexivity.
Defined.

(** C8 (code defect).  With a bucket configured and a disk on which the
    image cannot be written, the job of [demo_world] ends with the error
    recorded for its artifact, as it should, but the temporary file that was created for
    the artifact is still on disk when [handler] returns: it was created,
    and never removed. *)
Theorem temp_file_left_behind_when_write_fails :
  let run := handler full_disk_world demo_job init_state in
  fst run
  = Ret (error_result_with "Job processing failed"
           (str_list ["Error uploading a.png to S3: [Errno 28] No space left on device"]))
  /\ files (snd run) = [("/tmp/tmp1.png", [])]
  /\ In (EvTmpCreate "/tmp/tmp1.png") (trace (snd run))
  /\ ~ In (EvRemove "/tmp/tmp1.png") (trace (snd run)).
Proof.
  vm_compute. repeat split.
  - do 6 right. left. reflexivity.
  - intros H. repeat (destruct H as [H | H]; [discriminate |]). exact H.
Qed.

Example refused_upload_removes_the_file :
  let run := handler failing_bucket_world demo_job init_state in
  fst run
  = Ret (error_result_with "Job processing failed"
           (str_list ["Error uploading a.png to S3: AccessDenied"]))
  /\ files (snd run) = []
  /\ In (EvRemove "/tmp/tmp1.png") (trace (snd run)).
Proof. vm_compute. repeat split. do 8 right. left. reflexivity. Qed.

Example accepted_upload_publishes_the_url :
  let run := handler bucket_world demo_job init_state in
  fst run
  = Ret (PDict [("media",
                 PList [s3_entry (PStr "a.png")
                          "https://bucket.example/job-1/0f8fad5b.png"
                          "job-1/0f8fad5b.png"])])
  /\ files (snd run) = [].
Proof. vm_compute. split; reflexivity. Qed.

Example b64encode_man : b64encode [x4d; x61; x6e] = "TWFu".
Proof. reflexivity. Qed.

Example b64encode_padding :
  b64encode [x4d] = "TQ==" /\ b64encode [x4d; x61] = "TWE=".
Proof. split; reflexivity. Qed.

(** An item that is a string passes the validator, which tests ["name" in
    media] on it as a substring test, and then makes [upload_media] raise
    from inside its own [except] clause. *)
Example string_item_passes_validation_and_crashes_upload :
  validate_input (calm_world [] [])
    (PDict [("workflow", PDict [("1", PStr "x")]);
            ("media", PList [PStr "name media"])])
  = Ok (Some (PDict [("workflow", PDict [("1", PStr "x")]);
                     ("media", PList [PStr "name media"])]), None)
  /\ fst (upload_media (calm_world [] []) (PList [PStr "name media"]) init_state)
     = Exc (Exn AttributeError "object has no attribute 'get'").
Proof. split; reflexivity. Qed.

Lemma result_assembly_outcomes_witness :
  let s1 := snd (guarded_try demo_world (PStr "job-1") demo_workflow
                   (uuid4 demo_world (fresh (reset_locals init_state)))
                   (tick_fresh (reset_locals init_state))) in
  run_workflow demo_world (PStr "job-1") demo_workflow init_state
  = (Ret (assemble_result (output_data s1) (errors s1)), s1).
Proof.
  intros s1.
  destruct (result_assembly_outcomes demo_world (PStr "job-1") demo_workflow
              init_state s1) as (H & _).
  - vm_compute. reflexivity.
  - exact H.
Defined.

(** * Further properties of the module *)

(** ** Listing the installed checkpoints *)

Lemma is_list_true (v : pyval) : is_list v = true -> exists l, v = PList l.
Proof. destruct v; try discriminate. eauto. Qed.

Lemma get_available_models_run (w : World) (s : state) :
  exists models,
    get_available_models w s
    = (Ret models, tick_reqs (log (EvHttpGet object_info_url) s))
    /\ (models = PDict []
        \/ exists names, models = PDict [("checkpoints", PList names)]).
Proof.
  unfold get_available_models, try_except, read_available_models.
  unfold bind at 1, requests_get.
  destruct (http_get w object_info_url (reqs s)) as [resp | e];
    cbn [lift raise];
    [| exists (PDict []); split; [reflexivity | left; reflexivity]].
  cbv [bind raise_for_status lift ret raise].
  repeat (cbv beta iota;
          match goal with
          | |- context [match ?x with _ => _ end] =>
              lazymatch x with
              | context [match _ with _ => _ end] => fail
              | is_list ?v =>
                  let H := fresh "Hl" in
                  destruct (is_list v) eqn:H;
                  [apply is_list_true in H; destruct H as (? & ->) |]
              | _ => destruct x
              end
          end);
    cbv beta iota; eexists; (split; [reflexivity |]); eauto.
Qed.

(** X1.  [get_available_models] never raises: it makes one GET of
    [/object_info] and answers [{}] or a dict whose only entry,
    [checkpoints], is a list.  When the answer of the engine lists the
    checkpoint names as the first element of
    [CheckpointLoaderSimple.input.required.ckpt_name], that list is the
    result. *)
Theorem get_available_models_total :
  forall (w : World) (s : state),
    (exists models,
        get_available_models w s
        = (Ret models, tick_reqs (log (EvHttpGet object_info_url) s))
        /\ (models = PDict []
            \/ exists names, models = PDict [("checkpoints", PList names)]))
    /\ (forall resp info loader input required names others,
          http_get w object_info_url (reqs s) = Ok resp ->
          (400 <=? status_code resp) && (status_code resp <? 600) = false ->
          json resp = Ok (PDict info) ->
          assoc "CheckpointLoaderSimple" info = Some (PDict loader) ->
          assoc "input" loader = Some (PDict input) ->
          assoc "required" input = Some (PDict required) ->
          assoc "ckpt_name" required = Some (PList (PList names :: others)) ->
          fst (get_available_models w s)
          = Ret (PDict [("checkpoints", PList names)])).
Proof.
  intros w s. split.
  - apply get_available_models_run.
  - intros resp info loader input required names others
           Hget Hstatus Hjson Hloader Hinput Hreq Hckpt.
    unfold get_available_models, try_except, read_available_models.
    unfold bind at 1, requests_get. rewrite Hget. cbn [lift ret].
    unfold bind at 1, raise_for_status. rewrite Hstatus. cbn [ret].
    unfold bind at 1. rewrite Hjson. cbn [lift ret].
    unfold bind, lift, ret, py_in, py_index, py_get, py_get_val.
    cbn [hashable dict_lookup]. rewrite Hloader.
    cbn [hashable dict_lookup]. rewrite Hinput.
    cbn [hashable dict_lookup]. rewrite Hreq.
    cbn [hashable dict_lookup]. rewrite Hckpt.
    reflexivity.
Qed.

Lemma get_available_models_total_witness :
  fst (get_available_models models_world init_state)
  = Ret (PDict [("checkpoints",
                 PList [PStr "sd15.safetensors"; PStr "sdxl.safetensors"])]).
Proof.
  destruct (get_available_models_total models_world init_state) as (_ & H).
  eapply H; reflexivity.
Defined.

(** ** The object-store configuration *)

Lemma first_unset_none (w : World) (vars : list string) :
  first_unset w vars = None <-> all_set w vars.
Proof.
  unfold all_set. induction vars as [| var rest IH]; simpl.
  - split; [constructor | reflexivity].
  - destruct (unset (environ w var)) eqn:E.
    + split; [discriminate |]. intros H. inversion H. congruence.
    + rewrite IH. split; [intros H; constructor; assumption |].
      intros H. inversion H. assumption.
Qed.

Lemma first_unset_some (w : World) (vars : list string) (var : string) :
  first_unset w vars = Some var ->
  exists before after,
    vars = before ++ var :: after /\ all_set w before
    /\ unset (environ w var) = true.
Proof.
  unfold all_set. induction vars as [| v rest IH]; simpl; [discriminate |].
  destruct (unset (environ w v)) eqn:E.
  - intros H. injection H as <-. exists [], rest. repeat split; auto.
  - intros H. destruct (IH H) as (before & after & -> & Hb & Hu).
    exists (v :: before), after. repeat split; auto.
Qed.

(** X2.  [get_boto_upload_client] first checks that the four required
    variables are set and not empty, and raises for the first of them, in
    the order of the source, that is missing, without calling
    [boto3.client].  With all four set its answer is that of [boto3.client]
    on the endpoint, the two keys and [BUCKET_REGION] (possibly nothing):
    the client it built, paired with [BUCKET_NAME], or the exception it
    raised on a configuration it refuses. *)
Theorem upload_client_needs_four_variables :
  forall w : World,
    (all_set w upload_vars ->
     get_boto_upload_client w
     = rbind (boto3_upload w)
             (fun client => Ok (client, environ w "BUCKET_NAME")))
    /\ (forall client bucket,
          get_boto_upload_client w = Ok (client, bucket) ->
          all_set w upload_vars /\ boto3_upload w = Ok client
          /\ bucket = environ w "BUCKET_NAME")
    /\ (forall e,
          get_boto_upload_client w = Raise e ->
          (exists before var after,
              upload_vars = before ++ var :: after
              /\ all_set w before /\ unset (environ w var) = true
              /\ e = Exn PlainException (var ++ " is None")%string)
          \/ (all_set w upload_vars /\ boto3_upload w = Raise e)).
Proof.
  intros w. unfold get_boto_upload_client. fold upload_vars.
  unfold get_boto_client. fold (boto3_upload w).
  pose proof (first_unset_none w upload_vars) as Hnone.
  pose proof (first_unset_some w upload_vars) as Hsome.
  destruct (first_unset w upload_vars) as [var |].
  - split; [| split].
    + intros H. apply Hnone in H. discriminate.
    + discriminate.
    + intros e H. injection H as <-. left.
      destruct (Hsome var eq_refl) as (before & after & Heq & Hb & Hu).
      exists before, var, after. repeat split; assumption.
  - assert (Hall : all_set w upload_vars) by (apply Hnone; reflexivity).
    split; [reflexivity | split].
    + intros client bucket H.
      destruct (boto3_upload w) as [c | e]; cbn [rbind] in H;
        [| discriminate].
      injection H as <- <-. repeat split. exact Hall.
    + intros e H. right.
      destruct (boto3_upload w) as [c | e']; cbn [rbind] in H;
        [discriminate |].
      injection H as <-. split; [exact Hall | reflexivity].
Qed.

Lemma upload_client_needs_four_variables_witness :
  get_boto_upload_client (env_world bucket_env)
  = Ok (upload_client (env_world bucket_env))
  /\ get_boto_upload_client malformed_bucket_world
     = Raise (Exn ValueError "Invalid endpoint: s3.example")
  /\ exists var,
       In var upload_vars
       /\ unset (environ (env_world nameless_bucket_env) var) = true.
Proof.
  destruct (upload_client_needs_four_variables (env_world bucket_env))
    as (Hgood & _).
  destruct (upload_client_needs_four_variables malformed_bucket_world)
    as (Hbad & _).
  destruct (upload_client_needs_four_variables (env_world nameless_bucket_env))
    as (_ & _ & Hmissing).
  split; [| split].
  - rewrite Hgood; [reflexivity | repeat constructor].
  - rewrite Hbad; [reflexivity | repeat constructor].
  - destruct (Hmissing (Exn PlainException "BUCKET_NAME is None") eq_refl)
      as [(before & var & after & Heq & _ & Hunset & _) | (Hall & _)].
    + exists var. split; [rewrite Heq; apply in_elt | exact Hunset].
    + exfalso.
      inversion Hall as [| ? ? _ Hkey]. inversion Hkey as [| ? ? _ Hsecret].
      inversion Hsecret as [| ? ? _ Hbucket].
      inversion Hbucket as [| ? ? Hname _]. discriminate.
Defined.

(** X3.  [get_boto_download_client] uses the download variables when all
    four of them are set, whatever the upload variables hold: its answer is
    then that of [boto3.client] on them, paired with
    [BUCKET_DOWNLOAD_NAME], and a configuration [boto3.client] refuses makes
    it raise without falling back.  As soon as one of the four is missing
    it answers what [get_boto_upload_client] answers, the exception
    included. *)
Theorem download_client_falls_back :
  forall w : World,
    (all_set w download_vars ->
     get_boto_download_client w
     = rbind (boto3_download w)
             (fun client => Ok (client, environ w "BUCKET_DOWNLOAD_NAME")))
    /\ (~ all_set w download_vars ->
        get_boto_download_client w = get_boto_upload_client w).
Proof.
  intros w. unfold get_boto_download_client. fold download_vars.
  unfold get_boto_client. fold (boto3_download w).
  pose proof (first_unset_none w download_vars) as Hnone.
  destruct (first_unset w download_vars) as [var |].
  - split; [| reflexivity].
    intros H. apply Hnone in H. discriminate.
  - split; [reflexivity |].
    intros H. exfalso. apply H, Hnone. reflexivity.
Qed.

Lemma download_client_falls_back_witness :
  get_boto_download_client (env_world two_buckets_env)
  = Ok (download_client (env_world two_buckets_env))
  /\ get_boto_download_client malformed_download_world
     = Raise (Exn ValueError "Invalid endpoint: in.example")
  /\ get_boto_download_client (env_world bucket_env)
     = get_boto_upload_client (env_world bucket_env)
  /\ get_boto_download_client (env_world nameless_bucket_env)
     = Raise (Exn PlainException "BUCKET_NAME is None").
Proof.
  split; [| split; [| split]].
  - destruct (download_client_falls_back (env_world two_buckets_env)) as (H & _).
    rewrite H; [reflexivity | repeat constructor].
  - destruct (download_client_falls_back malformed_download_world) as (H & _).
    rewrite H; [reflexivity | repeat constructor].
  - destruct (download_client_falls_back (env_world bucket_env)) as (_ & H).
    apply H. intros Hall. inversion Hall. discriminate.
  - destruct (download_client_falls_back (env_world nameless_bucket_env))
      as (_ & H).
    rewrite H; [reflexivity |]. intros Hall. inversion Hall. discriminate.
Defined.

(** ** Calls to the engine *)

(** X4.  [_comfy_server_status] never raises and makes exactly one request,
    a GET of the root URL.  The answer says [reachable] exactly when the
    status was 200; it carries the status code when a response arrived and
    the text of the exception otherwise. *)
Theorem comfy_server_status_never_raises :
  forall (w : World) (s : state),
  exists status,
    _comfy_server_status w s = (Ret status, probed s)
    /\ py_index status "reachable"
       = Ok (PBool (is_ready (http_get w root_url (reqs s))))
    /\ match http_get w root_url (reqs s) with
       | Ok resp =>
           py_index status "status_code" = Ok (PInt (status_code resp))
           /\ py_in (PStr "error") status = Ok false
       | Raise e =>
           py_index status "error" = Ok (PStr (exn_text e))
           /\ py_in (PStr "status_code") status = Ok false
       end.
Proof.
  intros w s.
  unfold _comfy_server_status, try_except, bind, requests_get, probed.
  fold root_url.
  destruct (http_get w root_url (reqs s)) as [resp | e]; simpl;
    eexists; repeat split; reflexivity.
Qed.

Lemma get_image_data_run (w : World) (filename subfolder image_type : pyval)
    (s : state) :
  get_image_data w filename subfolder image_type s
  = match view_query w filename subfolder image_type with
    | Ok url_values =>
        (Ret (fetched (http_get w (view_url url_values) (reqs s))),
         fetch_done url_values filename subfolder image_type s)
    | Raise e => (Exc e, log (EvFetch filename subfolder image_type) s)
    end.
Proof.
  unfold get_image_data, view_query, fetch_done, view_url.
  unfold bind at 1, modify. unfold bind at 1.
  destruct (urlencode w _) as [url_values | e]; cbn [lift ret raise];
    [| reflexivity].
  unfold try_except, bind, requests_get, fetched, is_http_error,
    raise_for_status.
  cbn [reqs log tick_reqs].
  destruct (http_get w _ (reqs s)) as [resp | e]; cbn [lift ret raise];
    [| reflexivity].
  destruct ((400 <=? status_code resp)%Z && (status_code resp <? 600)%Z);
    reflexivity.
Qed.

(** X5.  [get_image_data] builds the query string before its [try] block:
    when [urlencode] cannot encode a value, its exception leaves the
    function and no request is made.  Once the query string is built the
    function does not raise: it makes one GET of the [/view] URL and
    returns the body of the response, or [None] on an exception of the
    request or a 4xx or 5xx status. *)
Theorem get_image_data_raises_only_from_urlencode :
  forall (w : World) (filename subfolder image_type : pyval) (s : state),
    (forall url_values,
        view_query w filename subfolder image_type = Ok url_values ->
        get_image_data w filename subfolder image_type s
        = (Ret (fetched (http_get w (view_url url_values) (reqs s))),
           fetch_done url_values filename subfolder image_type s))
    /\ (forall e,
          view_query w filename subfolder image_type = Raise e ->
          get_image_data w filename subfolder image_type s
          = (Exc e, log (EvFetch filename subfolder image_type) s)).
Proof.
  intros w filename subfolder image_type s.
  rewrite get_image_data_run.
  split; [intros url_values -> | intros e ->]; reflexivity.
Qed.

Lemma get_image_data_raises_only_from_urlencode_witness :
  get_image_data strict_files_world (PStr "a.png") (PStr "") (PStr "output")
    init_state
  = (Ret (Some []), fetch_done "output/a.png" (PStr "a.png") (PStr "")
                               (PStr "output") init_state)
  /\ get_image_data strict_files_world surrogate_name (PStr "") (PStr "output")
       init_state
     = (Exc (Exn UnicodeEncodeError "surrogates not allowed"),
        log (EvFetch surrogate_name (PStr "") (PStr "output")) init_state).
Proof.
  destruct (get_image_data_raises_only_from_urlencode strict_files_world
              (PStr "a.png") (PStr "") (PStr "output") init_state) as (H & _).
  destruct (get_image_data_raises_only_from_urlencode strict_files_world
              surrogate_name (PStr "") (PStr "output") init_state) as (_ & H').
  split.
  - apply (H "output/a.png"%string). reflexivity.
  - apply H'. reflexivity.
Defined.

(** The 400 branch always ends by raising, after at most the one request
    of [get_available_models]. *)
Lemma queue_workflow_400_raises (w : World) (resp : response) (s : state) :
  exists e s',
    queue_workflow_400 w resp s = (Exc e, s')
    /\ (s' = s \/ s' = models_read s).
Proof.
  destruct (get_available_models_run w s) as (models & Hrun & Hshape).
  fold (models_read s) in Hrun.
  unfold queue_workflow_400, try_except.
  cbv [bind lift ret raise].
  destruct Hshape as [-> | (names & ->)];
    repeat (cbv beta iota zeta;
            match goal with
            | |- context [get_available_models w s] => rewrite Hrun
            | |- context [match ?x with _ => _ end] =>
                lazymatch x with
                | context [match _ with _ => _ end] => fail
                | context [get_available_models] => fail
                | _ => destruct x
                end
            end);
    cbv beta iota; eexists _, _; (split; [reflexivity |]);
    ((left; reflexivity) || (right; reflexivity)).
Qed.

Lemma except_gives_value_error {A : Type} (e : exn) (s : state)
    (good : A -> Prop) :
  match
    fst ((if is_instance e RequestException then
            raise (Exn ValueError ("Error queuing workflow: " ++ exn_text e))
          else if is_instance e ValueError then raise e
          else raise (Exn ValueError ("Unexpected error queuing workflow: "
                                      ++ exn_text e))) s)
  with
  | Ret a => good a
  | Exc e' => is_instance e' ValueError = true
  | Hang => False
  end
  /\ snd ((if is_instance e RequestException then
             raise (Exn ValueError ("Error queuing workflow: " ++ exn_text e))
           else if is_instance e ValueError then raise e
           else raise (Exn ValueError ("Unexpected error queuing workflow: "
                                       ++ exn_text e))) s : outcome A * state)
     = s.
Proof.
  destruct (is_instance e RequestException); [split; reflexivity |].
  destruct (is_instance e ValueError) eqn:E; unfold raise; cbn [fst snd];
    split; auto.
Qed.

(** X6.  Queueing a workflow in [handler] ends in one of two ways: with a
    prompt id that is truthy, or with a [ValueError]; no other exception
    leaves the block, whatever [queue_workflow] raised.  The block makes
    one POST; only when that is answered with status 400 may one more
    request follow, the GET of [get_available_models]. *)
Theorem queueing_raises_only_value_errors :
  forall (w : World) (workflow : pyval) (client_id : string) (s : state),
    match fst (queue_and_get_prompt_id w workflow client_id s) with
    | Ret prompt_id => truthy prompt_id = true
    | Exc e => is_instance e ValueError = true
    | Hang => False
    end
    /\ match http_post w prompt_url (reqs s) with
       | Ok resp =>
           if status_code resp =? 400 then
             snd (queue_and_get_prompt_id w workflow client_id s)
             = prompt_posted s
             \/ snd (queue_and_get_prompt_id w workflow client_id s)
                = models_read (prompt_posted s)
           else
             snd (queue_and_get_prompt_id w workflow client_id s)
             = prompt_posted s
       | Raise _ =>
           snd (queue_and_get_prompt_id w workflow client_id s)
           = prompt_posted s
       end.
Proof.
  intros w workflow client_id s.
  cbv beta iota delta [queue_and_get_prompt_id try_except bind queue_workflow
                         requests_post raise_for_status].
  fold prompt_url. fold (prompt_posted s).
  destruct (http_post w prompt_url (reqs s)) as [resp | e];
    cbn [lift ret raise];
    [| apply (except_gives_value_error _ _ (fun p => truthy p = true))].
  destruct (status_code resp =? 400)%Z.
  { destruct (queue_workflow_400_raises w resp (prompt_posted s))
      as (e & s' & -> & Hstate).
    destruct (except_gives_value_error e s' (fun p : pyval => truthy p = true))
      as (Hclass & Hsnd).
    split; [exact Hclass |]. rewrite Hsnd.
    destruct Hstate as [-> | ->]; [left | right]; reflexivity. }
  destruct ((400 <=? status_code resp)%Z && (status_code resp <? 600)%Z);
    cbn [raise ret];
    [apply (except_gives_value_error _ _ (fun p => truthy p = true)) |].
  destruct (json resp) as [queued | e]; cbn [lift ret raise];
    [| apply (except_gives_value_error _ _ (fun p => truthy p = true))].
  destruct (py_get queued "prompt_id" PNone) as [prompt_id | e];
    cbn [lift ret raise];
    [| apply (except_gives_value_error _ _ (fun p => truthy p = true))].
  destruct (truthy prompt_id) eqn:E; cbn [negb raise ret fst snd];
    [split; auto |].
  apply (except_gives_value_error _ _ (fun p => truthy p = true)).
Qed.

Example rejected_workflow_lists_the_checkpoints :
  queue_and_get_prompt_id rejecting_world demo_workflow "c1" init_state
  = (Exc (Exn ValueError
              ("Workflow validation failed:" ++ nl ++ bullet
               ++ " Node 4 (errors): ckpt_name: value not in list" ++ nl ++ nl
               ++ "Available checkpoint models: sd15.safetensors, sdxl.safetensors")),
     models_read (prompt_posted init_state)).
Proof. vm_compute. reflexivity. Qed.

Lemma handler_finally_runs (s : state) :
  exists s', handler_finally s = (Ret tt, s').
Proof.
  unfold handler_finally, bind, get_state, ws_connected, ws_close, modify.
  destruct (ws_var s) as [sock |]; [| eexists; reflexivity].
  destruct (nth sock (socks s) false); eexists; reflexivity.
Qed.

Lemma handler_except_returns_error (e : exn) (s : state) :
  exists prefix,
    In prefix except_prefixes
    /\ handler_except e s
       = (Ret (Some (error_result (prefix ++ exn_text e)%string)), s).
Proof.
  unfold handler_except, except_prefixes.
  destruct (is_instance e WebSocketException);
    [eexists; split; [| reflexivity]; simpl; auto |].
  destruct (is_instance e RequestException);
    [eexists; split; [| reflexivity]; simpl; auto |].
  destruct (is_instance e ValueError).
  - exists ""%string. split; [simpl; auto | reflexivity].
  - eexists; split; [| reflexivity]; simpl; auto.
Qed.

(** X7.  From the line [ws = None] on, [handler] never raises: an
    exception raised inside the [try] block, whatever its class, is turned
    into a result [{"error": prefix + text}], where the text is that of the
    exception and the prefix is one of the four the [except] clauses
    write. *)
Theorem run_workflow_never_raises :
  forall (w : World) (job_id workflow : pyval) (s : state),
    (forall e, fst (run_workflow w job_id workflow s) <> Exc e)
    /\ (forall e s1,
          handler_try w job_id workflow (run_client_id w s) (try_entry s)
          = (Exc e, s1) ->
          exists prefix,
            In prefix except_prefixes
            /\ fst (run_workflow w job_id workflow s)
               = Ret (error_result (prefix ++ exn_text e)%string)).
Proof.
  intros w job_id workflow s.
  unfold run_workflow, guarded_try, try_finally, try_except, bind, modify,
    get_state, run_client_id, try_entry.
  cbn [fresh].
  destruct (handler_try w job_id workflow _ _) as [[returned | e | ] s1].
  - destruct (handler_finally_runs s1) as (s2 & ->).
    split; [| discriminate].
    destruct returned; discriminate.
  - destruct (handler_except_returns_error e s1) as (prefix & Hin & ->).
    destruct (handler_finally_runs s1) as (s2 & ->).
    split; [discriminate |].
    intros e' s1' H. injection H as <- <-.
    exists prefix. split; [assumption | reflexivity].
  - split; discriminate.
Qed.

Lemma run_workflow_never_raises_witness :
  exists prefix,
    In prefix except_prefixes
    /\ fst (run_workflow offline_world (PStr "job-1") (PDict []) init_state)
       = Ret (error_result
                (prefix ++ "Error queuing workflow: connection refused")%string).
Proof.
  destruct (run_workflow_never_raises offline_world (PStr "job-1") (PDict [])
              init_state) as (_ & H).
  eapply (H (Exn ValueError "Error queuing workflow: connection refused")).
  vm_compute. reflexivity.
Defined.

(** ** The first lines of [handler] *)

Lemma validate_fields_messages (job_input : pyval) (data : option pyval)
    (msg : string) :
  validate_fields job_input = Ok (data, Some msg) ->
  data = None /\ In msg validation_messages.
Proof.
  unfold validate_fields, validation_messages.
  destruct (py_get job_input "workflow" PNone) as [workflow | e];
    cbn [rbind]; [| discriminate].
  destruct (is_none workflow).
  { intros H. injection H as <- <-. simpl. tauto. }
  destruct (py_get job_input "media" PNone) as [media_list | e];
    cbn [rbind]; [| discriminate].
  destruct (match media_list with
            | PNone => Ok true
            | PList l => all_have_keys l
            | _ => Ok false
            end) as [[|] | e]; cbn [rbind]; try discriminate.
  intros H. injection H as <- <-. simpl. tauto.
Qed.

Lemma validate_input_messages (w : World) (job_input : pyval)
    (data : option pyval) (msg : string) :
  validate_input w job_input = Ok (data, Some msg) ->
  data = None /\ In msg validation_messages.
Proof.
  unfold validate_input.
  destruct job_input as [| b | z | t | l | d];
    try apply validate_fields_messages.
  - intros H. injection H as <- <-. unfold validation_messages. simpl. tauto.
  - destruct (json_loads w t) as [parsed |];
      [apply validate_fields_messages |].
    intros H. injection H as <- <-. unfold validation_messages. simpl. tauto.
Qed.

(** X8.  When [validate_input] gives a message, [handler] returns
    [{"error": message}] at once: no request is made, no socket is created
    and no local is touched.  The message is one of the four the validator
    knows, and no validated data comes with it. *)
Theorem handler_rejects_invalid_input_at_once :
  forall (w : World) (job job_input job_id : pyval) (data : option pyval)
         (msg : string) (s : state),
    py_index job "input" = Ok job_input ->
    py_index job "id" = Ok job_id ->
    validate_input w job_input = Ok (data, Some msg) ->
    handler w job s = (Ret (error_result msg), s)
    /\ In msg validation_messages /\ data = None.
Proof.
  intros w job job_input job_id data msg s Hin Hid Hval.
  destruct (validate_input_messages w job_input data msg Hval) as (-> & Hmsg).
  split; [| split; [assumption | reflexivity]].
  unfold handler.
  rewrite (bind_ret _ _ s s job_input) by (rewrite Hin; reflexivity).
  rewrite (bind_ret _ _ s s job_id) by (rewrite Hid; reflexivity).
  rewrite (bind_ret _ _ s s (None, Some msg)) by (rewrite Hval; reflexivity).
  cbn [snd message_given].
  unfold validation_messages in Hmsg. simpl in Hmsg.
  destruct Hmsg as [<- | [<- | [<- | [<- | []]]]]; reflexivity.
Qed.

Lemma handler_rejects_invalid_input_at_once_witness :
  handler (calm_world [] []) garbled_job init_state
  = (Ret (error_result msg_invalid_json), init_state)
  /\ In msg_invalid_json validation_messages.
Proof.
  destruct (handler_rejects_invalid_input_at_once (calm_world [] []) garbled_job
              (PStr "invalid json") (PStr "job-1") None msg_invalid_json
              init_state eq_refl eq_refl eq_refl) as (H & Hmsg & _).
  split; assumption.
Defined.

Lemma well_formed_items_pass (items : list pyval) :
  Forall well_formed_item items ->
  forallb is_object items = true /\ forallb has_name_and_media items = true.
Proof.
  induction 1 as [| media rest (d & name & data & -> & Hn & Hm) _ (IHo & IHk)];
    [split; reflexivity |].
  cbn [forallb is_object has_name_and_media]. rewrite Hn, Hm, IHo, IHk.
  split; reflexivity.
Qed.

(** With an item whose [type] is missing or unknown among well-formed
    items, [upload_inputs] ends in the [return] of the error result. *)
Lemma upload_inputs_failure (w : World) (items : list pyval)
    (d : list (string * pyval)) (name : pyval) (text : string) (s : state) :
  Forall well_formed_item items ->
  In (PDict d) items -> assoc "name" d = Some name ->
  type_problem w d = Some text ->
  exists details s',
    upload_inputs w (PList items) s
    = (Ret (Some (error_result_with msg_upload_failed (str_list details))), s')
    /\ In ("Unexpected error uploading " ++ py_str w name ++ ": " ++ text)%string
          details.
Proof.
  intros Hwf Hin Hname Htype.
  destruct (upload_each_total w items Hwf [] [] s)
    as (responses & upload_errors & s' & Hrun & _ & Hbad).
  specialize (Hbad d name text Hin Hname Htype).
  exists upload_errors, s'. split; [| exact Hbad].
  unfold upload_inputs, upload_media.
  destruct items as [| first others]; [destruct Hin |].
  cbn [truthy negb py_len py_iter lift].
  rewrite (bind_ret _ _ s s' (report "error" "Some media failed to upload"
                                      upload_errors)).
  - reflexivity.
  - rewrite (bind_ret _ _ s s (List.length (first :: others))) by reflexivity.
    rewrite (bind_ret _ _ s s (first :: others)) by reflexivity.
    rewrite (bind_ret _ _ _ _ _ Hrun). cbn [snd fst app].
    destruct upload_errors; [destruct Hbad | reflexivity].
Qed.

(** X9.  A job whose media list holds an item with a missing or unknown
    [type] is given up after the upload loop: once the engine answers the
    first readiness probe, [handler] returns the upload error, with the
    line of that item among the details, and it has created no websocket
    and thus queued nothing. *)
Theorem failed_upload_stops_the_job :
  forall (w : World) (job job_id workflow : pyval)
         (input d : list (string * pyval)) (items : list pyval) (name : pyval)
         (text : string) (s : state),
    py_index job "input" = Ok (PDict input) ->
    py_index job "id" = Ok job_id ->
    assoc "workflow" input = Some workflow -> is_none workflow = false ->
    assoc "media" input = Some (PList items) ->
    Forall well_formed_item items ->
    In (PDict d) items -> assoc "name" d = Some name ->
    type_problem w d = Some text ->
    probe_ok w s 0 ->
    exists details s',
      handler w job s
      = (Ret (error_result_with msg_upload_failed (str_list details)), s')
      /\ In ("Unexpected error uploading " ++ py_str w name ++ ": " ++ text)%string
            details
      /\ socks s' = socks s /\ ws_var s' = ws_var s.
Proof.
  intros w job job_id workflow input d items name text s
    Hin Hid Hwork Hnone Hmedia Hwf Hitem Hname Htype Hprobe.
  destruct (well_formed_items_pass items Hwf) as (Hobj & Hkeys).
  pose (s1 := tick_reqs (log (EvHttpGet root_url) s)).
  destruct (upload_inputs_failure w items d name text s1 Hwf Hitem Hname Htype)
    as (details & s' & Hup & Hline).
  exists details, s'. split; [| split; [exact Hline |]].
  - unfold handler.
    rewrite (bind_ret _ _ s s (PDict input)) by (rewrite Hin; reflexivity).
    rewrite (bind_ret _ _ s s job_id) by (rewrite Hid; reflexivity).
    rewrite (validate_input_media_list w input workflow items
               Hwork Hnone Hmedia Hobj), Hkeys.
    rewrite (bind_ret _ _ s s
               (Some (PDict [("workflow", workflow); ("media", PList items)]),
                @None string)) by reflexivity.
    cbn [snd fst message_given option_pyval].
    rewrite (bind_ret _ _ s s workflow) by reflexivity.
    rewrite (bind_ret _ _ s s (PList items)) by reflexivity.
    rewrite (bind_ret _ _ s s1 true).
    + cbn [negb]. rewrite (bind_ret _ _ _ _ _ Hup). reflexivity.
    + unfold check_server.
      destruct (range_split COMFY_API_AVAILABLE_MAX_RETRIES 0 ltac:(vm_compute; lia))
        as (l1 & x & l2 & -> & Hlen & _).
      destruct l1; [| discriminate]. cbn [app].
      apply check_server_hit.
      unfold probe_ok in Hprobe. rewrite Nat.add_0_r in Hprobe. exact Hprobe.
  - apply (upload_inputs_sockets w (PList items) (socks s) (ws_var s) s1
             _ s' (conj eq_refl eq_refl) Hup).
Qed.

Lemma failed_upload_stops_the_job_witness :
  exists details s',
    handler (calm_world [] []) job_with_odd_input init_state
    = (Ret (error_result_with msg_upload_failed (str_list details)), s')
    /\ In "Unexpected error uploading clip.mp4: Unknown media type ftp"%string
          details
    /\ socks s' = [] /\ ws_var s' = None.
Proof.
  apply (failed_upload_stops_the_job (calm_world [] []) job_with_odd_input
           (PStr "job-1") demo_workflow
           [("workflow", demo_workflow);
            ("media", PList [item_inline; item_odd_type])]
           [("name", PStr "clip.mp4"); ("media", PStr "AQI=");
            ("type", PStr "ftp")]
           [item_inline; item_odd_type] (PStr "clip.mp4")
           "Unknown media type ftp" init_state);
    try reflexivity.
  - repeat constructor; eexists _, _, _; repeat split; reflexivity.
  - simpl. auto.
Defined.

(** ** Frames the monitoring loop passes over *)

Lemma on_message_passing (w : World) (prompt_id message : pyval) (s : state) :
  passing_message prompt_id message = true ->
  on_message w prompt_id message s = (Ret Continue, s).
Proof.
  destruct message as [| | | | | m]; try discriminate.
  unfold passing_message, on_message, py_get, py_get_val, field_or.
  cbn [hashable dict_lookup lift]. unfold bind at 1. cbn [ret].
  destruct (py_eq_str (match assoc "type" m with
                       | Some x => x
                       | None => PNone
                       end) "status").
  { unfold status_update, field_or.
    destruct (match assoc "data" m with Some x => x | None => PDict [] end)
      as [| | | | | dd]; try discriminate.
    destruct (match assoc "status" dd with Some x => x | None => PDict [] end)
      as [| | | | | sd] eqn:Es; try discriminate.
    destruct (match assoc "exec_info" sd with Some x => x | None => PDict [] end)
      as [| | | | | ei] eqn:Ee; try discriminate.
    intros _. unfold bind. cbn [lift ret hashable dict_lookup].
    rewrite Es. cbn [lift ret hashable dict_lookup]. rewrite Ee. reflexivity. }
  destruct (py_eq_str (match assoc "type" m with
                       | Some x => x
                       | None => PNone
                       end) "executing").
  { unfold still_running, other_prompt, field_or.
    destruct (match assoc "data" m with Some x => x | None => PDict [] end)
      as [| | | | | dd]; try discriminate.
    unfold bind. cbn [lift ret hashable dict_lookup].
    destruct (is_none (match assoc "node" dd with
                       | Some x => x
                       | None => PNone
                       end)); [| reflexivity].
    cbn [negb orb lift ret]. intros H. apply negb_true_iff in H. rewrite H.
    reflexivity. }
  destruct (py_eq_str (match assoc "type" m with
                       | Some x => x
                       | None => PNone
                       end) "execution_error"); [| reflexivity].
  unfold other_prompt, field_or.
  destruct (match assoc "data" m with Some x => x | None => PDict [] end)
    as [| | | | | dd]; try discriminate.
  unfold bind. cbn [lift ret hashable dict_lookup].
  intros H. apply negb_true_iff in H. rewrite H. reflexivity.
Qed.

Lemma timeout_is_not_closed (e : exn) :
  is_instance e WebSocketTimeoutException = true ->
  is_instance e WebSocketConnectionClosedException = false.
Proof. destruct e as [[] t]; cbv; congruence. Qed.

Lemma monitor_iteration_passing (w : World) (ws_url : string)
    (prompt_id : pyval) (fr : recv_reply) (s : state) :
  passing_frame w prompt_id fr = true ->
  monitor_iteration w ws_url prompt_id fr s = (Ret Continue, s).
Proof.
  intros Hpass. unfold monitor_iteration, try_except, bind at 1.
  destruct fr as [text | b | e]; cbn [ws_recv passing_frame] in *.
  - destruct (json_loads w text) as [message |].
    + rewrite (on_message_passing w prompt_id message s Hpass). reflexivity.
    + reflexivity.
  - reflexivity.
  - rewrite (timeout_is_not_closed e Hpass), Hpass. reflexivity.
Qed.

(** X10.  The monitoring loop passes over binary frames, receives that time
    out, text that is not JSON, status updates, messages of types it does
    not know, [executing] messages that name a node, and [executing] or
    [execution_error] messages of another prompt: any number of them before
    the rest of the stream changes neither the outcome of the loop nor the
    state. *)
Theorem monitor_loop_passes_over_noise :
  forall (w : World) (ws_url : string) (prompt_id : pyval)
         (noise rest : list recv_reply) (s : state),
    forallb (passing_frame w prompt_id) noise = true ->
    monitor_loop w ws_url prompt_id (noise ++ rest) s
    = monitor_loop w ws_url prompt_id rest s.
Proof.
  intros w ws_url prompt_id noise rest s.
  induction noise as [| fr noise IH]; [reflexivity |].
  cbn [forallb app monitor_loop]. intros H.
  apply andb_prop in H. destruct H as (Hfr & Hnoise).
  unfold bind at 1.
  rewrite (monitor_iteration_passing w ws_url prompt_id fr s Hfr).
  apply IH, Hnoise.
Qed.

Lemma monitor_loop_passes_over_noise_witness :
  monitor_loop noisy_world "ws://engine" (PStr "p1")
    (noisy_frames ++ [RecvText "done"]) init_state
  = (Ret true, init_state).
Proof.
  rewrite (monitor_loop_passes_over_noise noisy_world "ws://engine" (PStr "p1")
             noisy_frames [RecvText "done"] init_state);
    reflexivity.
Defined.

(** ** After the monitoring loop *)

Lemma get_history_answer (w : World) (prompt_id : pyval) (s : state)
    (history : list (string * pyval)) :
  history_is w prompt_id s history ->
  get_history w prompt_id s = (Ret (PDict history), history_read w prompt_id s).
Proof.
  intros (resp & Hget & Hstatus & Hjson).
  unfold get_history, bind, requests_get, raise_for_status, history_read.
  fold (history_url w prompt_id). rewrite Hget. cbn [lift ret].
  unfold is_http_error in Hstatus. rewrite Hstatus, Hjson. reflexivity.
Qed.

(** X11.  When the history the engine returns has no entry for the prompt
    id, the run fails whatever the websocket said, and no artifact is
    looked at: with no error recorded so far the result is the not-found
    message alone; otherwise that message is added to the recorded errors
    and all of them are the details.  A prompt id that is not a string is
    never found, the keys of a JSON object being strings. *)
Theorem missing_history_entry_fails_the_job :
  forall (w : World) (job_id prompt_id : pyval) (execution_done : bool)
         (history : list (string * pyval)) (s : state),
    execution_done = true \/ errors s <> [] ->
    history_is w prompt_id s history ->
    hashable prompt_id = true ->
    dict_lookup prompt_id history = None ->
    after_monitoring w job_id prompt_id execution_done s
    = if is_nil (errors s)
      then (Ret (Some (error_result (msg_not_in_history w prompt_id))),
            history_read w prompt_id s)
      else (Ret (Some (error_result_with
                         "Job processing failed, prompt ID not found in history."
                         (str_list (errors s
                                    ++ [msg_not_in_history w prompt_id])))),
            set_errors (errors s ++ [msg_not_in_history w prompt_id])
                       (history_read w prompt_id s)).
Proof.
  intros w job_id prompt_id execution_done history s Hguard Hhist Hhash Hmiss.
  unfold after_monitoring. unfold bind at 1. cbn [get_state].
  assert (Hg : negb execution_done && is_nil (errors s) = false).
  { destruct Hguard as [-> | Herr]; [reflexivity |].
    destruct (errors s); [congruence |]. apply andb_false_r. }
  rewrite Hg.
  rewrite (bind_ret _ _ _ _ _ (get_history_answer w prompt_id s history Hhist)).
  unfold py_in. rewrite Hhash, Hmiss. cbn [lift].
  rewrite (bind_ret _ _ _ _ false eq_refl). cbn [negb].
  unfold bind at 1. cbn [get_state history_read tick_reqs log errors].
  fold (msg_not_in_history w prompt_id).
  destruct (errors s) as [| first others] eqn:E; [reflexivity |].
  cbn [is_nil]. unfold bind, append_error, modify, get_state, ret.
  unfold history_read, tick_reqs, log, set_errors. cbn [errors].
  rewrite E. reflexivity.
Qed.

Lemma missing_history_entry_fails_the_job_witness :
  after_monitoring (history_world (PDict [])) (PStr "job-1") (PStr "p1") true
    init_state
  = (Ret (Some (error_result
                  "Prompt ID p1 not found in history after execution.")),
     history_read (history_world (PDict [])) (PStr "p1") init_state)
  /\ fst (after_monitoring (history_world (PDict text_only_history))
            (PStr "job-1") (PInt 1) false state_with_error)
     = Ret (Some (error_result_with
                    "Job processing failed, prompt ID not found in history."
                    (str_list ["Workflow execution error: Node Type: KSampler";
                               "Prompt ID <value> not found in history after execution."]))).
Proof.
  split.
  - apply (missing_history_entry_fails_the_job (history_world (PDict []))
             (PStr "job-1") (PStr "p1") true [] init_state);
      [left; reflexivity | | reflexivity | reflexivity].
    eexists. repeat split; reflexivity.
  - rewrite (missing_history_entry_fails_the_job
               (history_world (PDict text_only_history))
               (PStr "job-1") (PInt 1) false text_only_history state_with_error);
      [reflexivity | right; discriminate | | reflexivity | reflexivity].
    eexists. repeat split; reflexivity.
Defined.

(** With an entry for the prompt whose [outputs] is an object, the block
    goes on to the nodes, after the warning for an empty object. *)
Lemma after_monitoring_outputs (w : World) (job_id prompt_id : pyval)
    (execution_done : bool) (history entry : list (string * pyval))
    (nodes : list (string * pyval)) (s : state) :
  execution_done = true \/ errors s <> [] ->
  history_is w prompt_id s history ->
  hashable prompt_id = true ->
  dict_lookup prompt_id history = Some (PDict entry) ->
  field_or "outputs" (PDict []) entry = PDict nodes ->
  after_monitoring w job_id prompt_id execution_done s
  = bind (if is_nil nodes then
            if is_nil (errors s) then append_error (msg_no_outputs w prompt_id)
            else ret tt
          else ret tt)
         (fun _ => bind (for_each (process_node w job_id) nodes)
                        (fun _ => ret None))
         (history_read w prompt_id s).
Proof.
  intros Hguard Hhist Hhash Hentry Houtputs.
  unfold after_monitoring. unfold bind at 1. cbn [get_state].
  assert (Hg : negb execution_done && is_nil (errors s) = false).
  { destruct Hguard as [-> | Herr]; [reflexivity |].
    destruct (errors s); [congruence |]. apply andb_false_r. }
  rewrite Hg.
  rewrite (bind_ret _ _ _ _ _ (get_history_answer w prompt_id s history Hhist)).
  unfold py_in, py_get, py_get_val. rewrite Hhash, Hentry. cbn [lift].
  rewrite (bind_ret _ _ _ _ true eq_refl). cbn [negb].
  rewrite (bind_ret _ _ _ _ (PDict entry) eq_refl).
  cbn [hashable dict_lookup]. unfold field_or in Houtputs. rewrite Houtputs.
  rewrite (bind_ret _ _ _ _ (PDict nodes) eq_refl).
  cbn [truthy py_len py_items lift].
  destruct nodes as [| node rest]; cbn [negb is_nil].
  - unfold bind, get_state, history_read, tick_reqs, log. cbn [errors].
    destruct (is_nil (errors s)); reflexivity.
  - reflexivity.
Qed.

(** X12.  When the entry of the prompt in the history has no outputs, no
    artifact is processed and the warning is recorded unless an error was
    recorded before; so a run that published nothing ends as a failure,
    [Job processing failed], never as a success without media. *)
Theorem empty_outputs_fail_the_job :
  forall (w : World) (job_id prompt_id : pyval) (execution_done : bool)
         (history entry : list (string * pyval)) (s : state),
    execution_done = true \/ errors s <> [] ->
    history_is w prompt_id s history ->
    hashable prompt_id = true ->
    dict_lookup prompt_id history = Some (PDict entry) ->
    field_or "outputs" (PDict []) entry = PDict [] ->
    exists s',
      after_monitoring w job_id prompt_id execution_done s = (Ret None, s')
      /\ output_data s' = output_data s
      /\ errors s' = (if is_nil (errors s) then [msg_no_outputs w prompt_id]
                      else errors s)
      /\ (output_data s = [] ->
          assemble_result (output_data s') (errors s')
          = error_result_with "Job processing failed" (str_list (errors s'))).
Proof.
  intros w job_id prompt_id execution_done history entry s
    Hguard Hhist Hhash Hentry Houtputs.
  rewrite (after_monitoring_outputs w job_id prompt_id execution_done history
             entry [] s Hguard Hhist Hhash Hentry Houtputs).
  cbn [is_nil for_each].
  destruct (errors s) as [| first others] eqn:E; cbn [is_nil].
  - eexists. split; [reflexivity |].
    cbn [output_data errors history_read tick_reqs log set_errors].
    rewrite E. repeat split. intros ->. reflexivity.
  - eexists. split; [reflexivity |].
    cbn [output_data errors history_read tick_reqs log].
    rewrite E. repeat split. intros ->. reflexivity.
Qed.

Lemma empty_outputs_fail_the_job_witness :
  exists s',
    after_monitoring (history_world (PDict [("p1", PDict [])])) (PStr "job-1")
      (PStr "p1") true init_state
    = (Ret None, s')
    /\ assemble_result (output_data s') (errors s')
       = error_result_with "Job processing failed"
           (str_list ["No outputs found in history for prompt p1."]).
Proof.
  destruct (empty_outputs_fail_the_job (history_world (PDict [("p1", PDict [])]))
              (PStr "job-1") (PStr "p1") true [("p1", PDict [])] [] init_state)
    as (s' & Hrun & _ & Herr & Hres);
    [left; reflexivity | | reflexivity | reflexivity | reflexivity |].
  - eexists. repeat split; reflexivity.
  - exists s'. split; [exact Hrun |].
    rewrite (Hres eq_refl), Herr. reflexivity.
Defined.

Lemma process_node_without_images (w : World) (job_id : pyval)
    (node : string * pyval) (s : state) :
  has_no_images node -> process_node w job_id node s = (Ret tt, s).
Proof.
  intros (d & Hd & Himages). unfold process_node, py_in. rewrite Hd.
  cbn [hashable dict_lookup]. rewrite Himages. reflexivity.
Qed.

Lemma for_each_without_images (w : World) (job_id : pyval)
    (nodes : list (string * pyval)) (s : state) :
  Forall has_no_images nodes ->
  for_each (process_node w job_id) nodes s = (Ret tt, s).
Proof.
  induction 1 as [| node rest Hnode _ IH]; [reflexivity |].
  cbn [for_each]. unfold bind.
  rewrite (process_node_without_images w job_id node s Hnode). exact IH.
Qed.

(** X13.  Node outputs that are objects without the key [images] are passed
    over: nothing is fetched, published or recorded for them.  A finished
    run whose outputs are all of this kind, with nothing recorded before,
    ends as [success_no_media]. *)
Theorem outputs_without_images_give_no_media :
  forall (w : World) (job_id prompt_id : pyval)
         (history entry : list (string * pyval))
         (nodes : list (string * pyval)) (s : state),
    history_is w prompt_id s history ->
    hashable prompt_id = true ->
    dict_lookup prompt_id history = Some (PDict entry) ->
    field_or "outputs" (PDict []) entry = PDict nodes ->
    nodes <> [] ->
    Forall has_no_images nodes ->
    after_monitoring w job_id prompt_id true s
    = (Ret None, history_read w prompt_id s)
    /\ (output_data s = [] -> errors s = [] ->
        assemble_result (output_data (history_read w prompt_id s))
                        (errors (history_read w prompt_id s))
        = success_no_media).
Proof.
  intros w job_id prompt_id history entry nodes s
    Hhist Hhash Hentry Houtputs Hnodes Himages.
  split.
  - rewrite (after_monitoring_outputs w job_id prompt_id true history entry
               nodes s (or_introl eq_refl) Hhist Hhash Hentry Houtputs).
    destruct nodes as [| node rest]; [congruence |]. cbn [is_nil].
    unfold bind at 1. cbn [ret]. unfold bind.
    rewrite (for_each_without_images w job_id (node :: rest) _ Himages).
    reflexivity.
  - cbn [output_data errors history_read tick_reqs log].
    intros -> ->. reflexivity.
Qed.

Lemma outputs_without_images_give_no_media_witness :
  after_monitoring (history_world (PDict text_only_history)) (PStr "job-1")
    (PStr "p1") true init_state
  = (Ret None,
     history_read (history_world (PDict text_only_history)) (PStr "p1")
                  init_state)
  /\ assemble_result [] [] = success_no_media.
Proof.
  destruct (outputs_without_images_give_no_media
              (history_world (PDict text_only_history)) (PStr "job-1")
              (PStr "p1") text_only_history
              [("outputs", PDict [("7", PDict [("text", PList [PStr "a cat"])])])]
              [("7", PDict [("text", PList [PStr "a cat"])])] init_state)
    as (Hrun & Hres);
    [| reflexivity | reflexivity | reflexivity | discriminate | |].
  - eexists. repeat split; reflexivity.
  - repeat constructor. eexists. split; reflexivity.
  - split; [exact Hrun | exact (Hres eq_refl eq_refl)].
Defined.

(** ** Artifacts that cannot be published *)

Lemma process_image_descriptor (w : World) (job_id : pyval) (node_id : string)
    (d : list (string * pyval)) (s : state) :
  py_eq_str (descriptor_type d) "temp" = false ->
  process_image w job_id node_id (PDict d) s
  = if negb (truthy (field_or "filename" PNone d)) then
      append_error (msg_missing_filename w node_id (PDict d)) s
    else
      bind (get_image_data w (field_or "filename" PNone d)
                           (descriptor_subfolder d) (descriptor_type d))
        (fun image_bytes =>
           match image_bytes with
           | Some ((_ :: _) as data) =>
               bind (lift (py_splitext w (field_or "filename" PNone d)))
                 (fun ext =>
                    let file_extension :=
                      if String.eqb ext "" then ".bin"%string else ext in
                    if negb (unset (environ w "BUCKET_ENDPOINT_URL"))
                    then publish_s3 w job_id (field_or "filename" PNone d)
                                    file_extension data
                    else publish_inline (field_or "filename" PNone d) data)
           | _ => append_error (msg_fetch_failed w (field_or "filename" PNone d))
           end) s.
Proof.
  intros Htemp.
  unfold process_image, py_get, py_get_val. cbn [hashable dict_lookup].
  fold (field_or "filename" PNone d).
  fold (descriptor_subfolder d). fold (descriptor_type d).
  unfold bind at 1. cbn [lift ret]. unfold bind at 1. cbn [lift ret].
  unfold bind at 1. cbn [lift ret]. rewrite Htemp.
  destruct (negb (truthy (field_or "filename" PNone d))); reflexivity.
Qed.

(** X14.  An artifact descriptor without a usable [filename] (missing,
    null or empty) is not fetched: one warning that names the node is added
    to the errors, nothing else changes, and the loop over the artifacts
    goes on. *)
Theorem artifact_without_filename_is_recorded :
  forall (w : World) (job_id : pyval) (node_id : string)
         (d : list (string * pyval)) (s : state),
    py_eq_str (descriptor_type d) "temp" = false ->
    truthy (field_or "filename" PNone d) = false ->
    process_image w job_id node_id (PDict d) s
    = (Ret tt,
       set_errors (errors s ++ [msg_missing_filename w node_id (PDict d)]) s).
Proof.
  intros w job_id node_id d s Htemp Hname.
  rewrite (process_image_descriptor w job_id node_id d s Htemp), Hname.
  reflexivity.
Qed.

Lemma artifact_without_filename_is_recorded_witness :
  process_image (calm_world [] []) (PStr "job-1") "9"
    (PDict nameless_descriptor) init_state
  = (Ret tt,
     set_errors ["Skipping image in node 9 due to missing filename: <value>"]
                init_state).
Proof.
  apply (artifact_without_filename_is_recorded (calm_world [] []) (PStr "job-1")
           "9" nameless_descriptor init_state); reflexivity.
Defined.

(** X15.  Once the query string of an artifact is built, a fetch that
    gives nothing, because the request raised, the status was 4xx or 5xx,
    or the body was empty, does not publish the artifact: one error that
    names the file is added after the one request, no file is written, and
    the loop over the artifacts goes on.  When the query string cannot be
    built, the exception of [urlencode] leaves the loop instead, before any
    request and with nothing recorded. *)
Theorem failed_fetch_is_recorded :
  forall (w : World) (job_id : pyval) (node_id : string)
         (d : list (string * pyval)) (s : state),
    py_eq_str (descriptor_type d) "temp" = false ->
    truthy (field_or "filename" PNone d) = true ->
    (forall url_values,
        view_query w (field_or "filename" PNone d) (descriptor_subfolder d)
                   (descriptor_type d) = Ok url_values ->
        nothing_fetched
          (fetched (http_get w (view_url url_values) (reqs s))) = true ->
        process_image w job_id node_id (PDict d) s
        = (Ret tt,
           set_errors
             (errors s ++ [msg_fetch_failed w (field_or "filename" PNone d)])
             (fetch_done url_values (field_or "filename" PNone d)
                         (descriptor_subfolder d) (descriptor_type d) s)))
    /\ (forall e,
          view_query w (field_or "filename" PNone d) (descriptor_subfolder d)
                     (descriptor_type d) = Raise e ->
          process_image w job_id node_id (PDict d) s
          = (Exc e,
             log (EvFetch (field_or "filename" PNone d)
                          (descriptor_subfolder d) (descriptor_type d)) s)).
Proof.
  intros w job_id node_id d s Htemp Hname.
  rewrite (process_image_descriptor w job_id node_id d s Htemp), Hname.
  cbn [negb]. unfold bind at 1. unfold bind at 2.
  rewrite get_image_data_run.
  split.
  - intros url_values -> Hnothing.
    destruct (fetched _) as [[| b data] |]; try discriminate; reflexivity.
  - intros e ->. reflexivity.
Qed.

Lemma failed_fetch_is_recorded_witness :
  process_image missing_files_world (PStr "job-1") "9" (PDict lost_descriptor)
    init_state
  = (Ret tt,
     set_errors ["Failed to fetch image data for a.png from /view endpoint."]
       (fetch_done "output/a.png" (PStr "a.png") (PStr "") (PStr "output")
                   init_state))
  /\ process_image strict_files_world (PStr "job-1") "9"
       (PDict surrogate_descriptor) init_state
     = (Exc (Exn UnicodeEncodeError "surrogates not allowed"),
        log (EvFetch surrogate_name (PStr "") (PStr "output")) init_state).
Proof.
  destruct (failed_fetch_is_recorded missing_files_world (PStr "job-1") "9"
              lost_descriptor init_state eq_refl eq_refl) as (H & _).
  destruct (failed_fetch_is_recorded strict_files_world (PStr "job-1") "9"
              surrogate_descriptor init_state eq_refl eq_refl) as (_ & H').
  split.
  - apply (H "output/a.png"%string); reflexivity.
  - apply H'. reflexivity.
Defined.

(** ** Publishing to the object store *)

(** Reduce the state updates and the reads of a run on an explicit
    state. *)
Ltac run_state :=
  cbv beta iota delta [trace socks files reqs fresh ws_var errors output_data
                         temp_file_path log set_socks set_files tick_reqs
                         tick_fresh set_ws_var set_errors set_output_data
                         set_temp_file_path].

(** X16.  With [BUCKET_ENDPOINT_URL] set but the configuration of the
    bucket incomplete, an artifact is written to its temporary file and the
    publication stops at [get_boto_upload_client]: the error of the
    configuration is recorded for the artifact, nothing is sent to the
    object store, nothing is published, and the temporary file is removed
    again. *)
Theorem unconfigured_bucket_is_recorded_per_artifact :
  forall (w : World) (job_id filename : pyval) (file_extension : string)
         (image_bytes : bytes) (e : exn) (s : state),
    disk_accepts w s ->
    get_boto_upload_client w = Raise e ->
    exists s',
      publish_s3 w job_id filename file_extension image_bytes s = (Ret tt, s')
      /\ errors s' = errors s ++ [msg_s3_failed w filename e]
      /\ output_data s' = output_data s
      /\ trace s' = trace s ++ [EvTmpCreate (temp_path w file_extension s);
                                EvRemove (temp_path w file_extension s)]
      /\ path_exists (temp_path w file_extension s) s' = false.
Proof.
  intros w job_id filename file_extension image_bytes e s (Hcreate & Hwrite)
    Hclient.
  destruct s as [tr so fi rq fr wv er od tp].
  cbn [fresh] in Hcreate, Hwrite.
  unfold temp_path, path_exists.
  unfold publish_s3, try_except, bind at 1, write_temp_file.
  run_state. rewrite Hcreate, Hwrite.
  unfold bind at 1, local_temp_file_path. run_state.
  unfold bind at 1, boto_upload_media, bind at 1. rewrite Hclient.
  cbn [lift raise].
  unfold bind at 1, append_error, modify. unfold bind at 1, get_state.
  unfold os_remove, path_exists. run_state.
  rewrite !assoc_dict_set.
  eexists. split; [reflexivity |]. run_state.
  rewrite assoc_remove_gone, <- app_assoc. repeat split.
Qed.

Lemma unconfigured_bucket_is_recorded_per_artifact_witness :
  exists s',
    publish_s3 (env_world nameless_bucket_env) (PStr "job-1") (PStr "a.png")
      ".png" [x01] init_state
    = (Ret tt, s')
    /\ errors s' = ["Error uploading a.png to S3: BUCKET_NAME is None"]
    /\ output_data s' = [].
Proof.
  destruct (unconfigured_bucket_is_recorded_per_artifact
              (env_world nameless_bucket_env) (PStr "job-1") (PStr "a.png")
              ".png" [x01] (Exn PlainException "BUCKET_NAME is None") init_state)
    as (s' & Hrun & Herr & Hout & _);
    [split; reflexivity | reflexivity |].
  exists s'. repeat split; assumption.
Defined.

(** X17.  With the bucket configured, the disk and the object store
    willing, an artifact is published as an [s3_url] entry whose key is the
    one the object was stored under, the job id followed by eight
    characters of a fresh UUID and the extension of the temporary file, and
    whose URL is the one signed for that key.  The file is written, stored,
    signed for and removed, in this order, and no error is recorded. *)
Theorem s3_publication_links_the_stored_object :
  forall (w : World) (job_id filename : pyval) (file_extension : string)
         (image_bytes : bytes) (client : boto_client) (bucket : option string)
         (url : string) (s : state),
    disk_accepts w s ->
    get_boto_upload_client w = Ok (client, bucket) ->
    s3_put_object w client bucket (object_key w job_id file_extension s) = None ->
    s3_presign w client bucket (object_key w job_id file_extension s) = Ok url ->
    exists s',
      publish_s3 w job_id filename file_extension image_bytes s = (Ret tt, s')
      /\ output_data s'
         = output_data s
           ++ [s3_entry filename url (object_key w job_id file_extension s)]
      /\ errors s' = errors s
      /\ trace s'
         = trace s ++ [EvTmpCreate (temp_path w file_extension s);
                       EvPutObject (object_key w job_id file_extension s);
                       EvPresign (object_key w job_id file_extension s);
                       EvRemove (temp_path w file_extension s)]
      /\ path_exists (temp_path w file_extension s) s' = false.
Proof.
  intros w job_id filename file_extension image_bytes client bucket url s
    (Hcreate & Hwrite) Hclient Hput Hsign.
  destruct s as [tr so fi rq fr wv er od tp].
  unfold object_key, temp_path in *. cbn [fresh] in Hcreate, Hwrite, Hput, Hsign.
  unfold path_exists.
  unfold publish_s3, try_except, bind at 1, write_temp_file.
  run_state. rewrite Hcreate, Hwrite.
  unfold bind at 1, local_temp_file_path. run_state.
  unfold bind at 1, boto_upload_media, bind at 1. rewrite Hclient.
  cbn [lift ret fst snd].
  unfold bind at 1, get_state. unfold bind at 1, modify.
  unfold bind at 1, read_file. run_state.
  rewrite assoc_dict_set.
  unfold bind at 1. rewrite Hput. unfold bind at 1. unfold bind at 1.
  cbn [lift ret]. rewrite Hsign. cbn [lift ret].
  unfold bind at 1. run_state.
  unfold bind at 1, os_remove, path_exists. run_state.
  rewrite assoc_dict_set.
  unfold append_output, modify.
  eexists. split; [reflexivity |]. run_state. cbn [fst snd].
  rewrite assoc_remove_gone, <- !app_assoc. repeat split.
Qed.

Lemma s3_publication_links_the_stored_object_witness :
  exists s',
    publish_s3 bucket_world (PStr "job-1") (PStr "a.png") ".png" [x01]
      init_state
    = (Ret tt, s')
    /\ output_data s'
       = [s3_entry (PStr "a.png") "https://bucket.example/job-1/0f8fad5b.png"
                   "job-1/0f8fad5b.png"]
    /\ errors s' = [].
Proof.
  destruct (s3_publication_links_the_stored_object bucket_world (PStr "job-1")
              (PStr "a.png") ".png" [x01]
              (fst (upload_client bucket_world))
              (snd (upload_client bucket_world))
              "https://bucket.example/job-1/0f8fad5b.png" init_state)
    as (s' & Hrun & Hout & Herr & _);
    [split; reflexivity | reflexivity | reflexivity | reflexivity |].
  exists s'. repeat split; assumption.
Defined.

(** ** Inline inputs given as data URLs *)

Lemma comma_is_found (prefix payload : string) :
  is_substring "," (prefix ++ "," ++ payload) = true.
Proof.
  unfold is_substring. induction prefix as [| c prefix IH].
  - destruct payload; reflexivity.
  - cbn [String.append index] in *.
    destruct (String.prefix "," (String c (prefix ++ String ","%char payload)));
      [reflexivity |].
    destruct (index 0 "," (prefix ++ String ","%char payload));
      [reflexivity | discriminate].
Qed.

Lemma comma_is_not_found (s : string) :
  comma_free s = true -> is_substring "," s = false.
Proof.
  unfold is_substring. induction s as [| c s IH]; [reflexivity |].
  cbn [comma_free index String.prefix]. intros H.
  apply andb_prop in H. destruct H as (Hc & Hs).
  apply negb_true_iff, Ascii.eqb_neq in Hc.
  destruct (ascii_dec ","%char c) as [<- | _]; [congruence |].
  specialize (IH Hs). destruct (index 0 "," s); [discriminate | reflexivity].
Qed.


(** ** The error a failed reconnection reports *)

Lemma reconnect_attempts_last_error (w : World) (ws_url : string)
    (max_attempts delay_s : Z) (delay_ok : 0 <= delay_s) (attempts : list Z) :
  forall (last : exn) (s : state),
    (forall k, (k < List.length attempts)%nat -> probe_ok w s k) ->
    (forall k, (k < List.length attempts)%nat -> handshake_fails w ws_url s k) ->
    exists s',
      reconnect_attempts w ws_url max_attempts delay_s attempts last s
      = (Exc (Exn WebSocketConnectionClosedException
                  (msg_reconnect_failed
                     (last_handshake_error w ws_url s (List.length attempts)
                                           last))), s').
Proof.
  induction attempts as [| attempt rest IH]; intros last s Hprobe Hshake.
  - exists s. reflexivity.
  - destruct (Hshake 0%nat ltac:(simpl; lia)) as (e & Hh & He).
    rewrite Nat.add_0_r in Hh.
    pose proof (Hprobe 0%nat ltac:(simpl; lia)) as Hp.
    unfold probe_ok in Hp. rewrite Nat.add_0_r in Hp.
    destruct (failed_round w ws_url max_attempts delay_s delay_ok attempt rest
                last e s Hp Hh He)
      as (s1 & -> & Hreq & Hlen & _).
    destruct (IH e s1) as (s' & Hrun).
    + intros k Hk. unfold probe_ok. rewrite Hreq. simpl.
      rewrite <- Nat.add_succ_r. apply Hprobe. simpl. lia.
    + intros k Hk. unfold handshake_fails. rewrite Hlen. simpl.
      rewrite <- Nat.add_succ_r. apply Hshake. simpl. lia.
    + exists s'. rewrite Hrun. do 4 f_equal.
      cbn [List.length]. unfold last_handshake_error.
      destruct (List.length rest) as [| m] eqn:Hrest.
      * rewrite Nat.add_0_r, Hh. reflexivity.
      * rewrite Hlen. cbn [Nat.add]. rewrite <- Nat.add_succ_r.
        destruct (Hshake (S m) ltac:(simpl; lia)) as (e' & -> & _).
        reflexivity.
Qed.

(** X19.  When every attempt of a reconnection fails at the handshake, the
    exception it raises quotes the error of the last handshake, not the one
    that made the connection drop; with a budget of zero attempts or less it
    raises at once, quoting the error it was entered with, without probing
    the engine. *)
Theorem failed_reconnect_quotes_the_last_error :
  forall (w : World) (ws_url : string) (max_attempts delay_s : Z)
         (initial_error : exn) (s : state),
    0 <= delay_s ->
    (max_attempts <= 0 ->
     _attempt_websocket_reconnect w ws_url max_attempts delay_s initial_error s
     = (Exc (Exn WebSocketConnectionClosedException
                 (msg_reconnect_failed initial_error)), s))
    /\ ((forall k, (k < Z.to_nat max_attempts)%nat ->
                   probe_ok w s k /\ handshake_fails w ws_url s k) ->
        exists s',
          _attempt_websocket_reconnect w ws_url max_attempts delay_s
                                       initial_error s
          = (Exc (Exn WebSocketConnectionClosedException
                      (msg_reconnect_failed
                         (last_handshake_error w ws_url s
                            (Z.to_nat max_attempts) initial_error))), s')).
Proof.
  intros w ws_url max_attempts delay_s initial_error s Hdelay.
  unfold _attempt_websocket_reconnect. split.
  - intros Hmax. unfold range.
    replace (Z.to_nat max_attempts) with 0%nat by lia. reflexivity.
  - intros Hfail.
    rewrite <- (range_length max_attempts).
    apply (reconnect_attempts_last_error w ws_url max_attempts delay_s Hdelay);
      intros k Hk; rewrite range_length in Hk; apply Hfail, Hk.
Qed.

Lemma failed_reconnect_quotes_the_last_error_witness :
  (exists s',
      _attempt_websocket_reconnect stubborn_world demo_ws_url 3 0
                                   lost_connection init_state
      = (Exc (Exn WebSocketConnectionClosedException
                  "Connection closed and failed to reconnect. Last error: refused #2"),
         s'))
  /\ _attempt_websocket_reconnect stubborn_world demo_ws_url 0 0
                                  lost_connection init_state
     = (Exc (Exn WebSocketConnectionClosedException
                 (msg_reconnect_failed lost_connection)), init_state).
Proof.
  destruct (failed_reconnect_quotes_the_last_error stubborn_world demo_ws_url 3 0
              lost_connection init_state ltac:(discriminate)) as (_ & H).
  destruct (failed_reconnect_quotes_the_last_error stubborn_world demo_ws_url 0 0
              lost_connection init_state ltac:(discriminate)) as (H0 & _).
  split; [| apply H0; discriminate].
  destruct H as (s' & Hrun).
  - intros k _. split; [reflexivity |]. eexists. split; reflexivity.
  - exists s'. exact Hrun.
Defined.

(** ** What the validator accepts *)

(** X20.  A payload given as JSON text is parsed once and then validated as
    the value it decodes to: text that decodes to an object gives what the
    object gives, text that does not parse gives the invalid-JSON message.
    Text that decodes to [null] or to another string is not treated as a
    missing payload or parsed again: the field checks are applied to it and
    raise. *)
Theorem json_text_is_validated_as_its_value :
  forall (w : World) (text : string),
    (forall d, json_loads w text = Some (PDict d) ->
               validate_input w (PStr text) = validate_input w (PDict d))
    /\ (json_loads w text = None ->
        validate_input w (PStr text) = Ok (None, Some msg_invalid_json))
    /\ (forall v, json_loads w text = Some v ->
                  v = PNone \/ (exists inner, v = PStr inner) ->
                  validate_input w (PStr text)
                  = Raise (Exn AttributeError "object has no attribute 'get'")).
Proof.
  intros w text. unfold validate_input. repeat split.
  - intros d ->. reflexivity.
  - intros ->. reflexivity.
  - intros v -> [-> | (inner & ->)]; reflexivity.
Qed.

Lemma json_text_is_validated_as_its_value_witness :
  validate_input (calm_world [("{}", PDict plain_fields)] []) (PStr "{}")
  = validate_input (calm_world [("{}", PDict plain_fields)] [])
                   (PDict plain_fields)
  /\ validate_input (calm_world [("null", PNone)] []) (PStr "null")
     = Raise (Exn AttributeError "object has no attribute 'get'").
Proof.
  destruct (json_text_is_validated_as_its_value
              (calm_world [("{}", PDict plain_fields)] []) "{}") as (H & _).
  destruct (json_text_is_validated_as_its_value
              (calm_world [("null", PNone)] []) "null") as (_ & _ & Hnull).
  split.
  - apply H. reflexivity.
  - apply (Hnull PNone); [reflexivity | left; reflexivity].
Defined.

Lemma all_have_keys_true (l : list pyval) :
  all_have_keys l = Ok true -> Forall names_both_keys l.
Proof.
  induction l as [| media rest IH]; [constructor |].
  cbn [all_have_keys].
  destruct (py_in (PStr "name") media) as [[|] | e] eqn:Hn; cbn [rbind];
    try discriminate.
  destruct (py_in (PStr "media") media) as [[|] | e'] eqn:Hm; cbn [rbind];
    try discriminate.
  intros H. constructor; [split; assumption | apply IH, H].
Qed.

(** X21.  The data [validate_input] returns for an object payload holds the
    payload's [workflow] and [media] unchanged and nothing else: every other
    key is dropped.  The workflow is not null; the media are absent or a
    list in which every item answers both membership tests, [name] and
    [media], whether it is an object with these keys or not. *)
Theorem validated_data_keeps_two_fields :
  forall (w : World) (d : list (string * pyval)) (data : pyval)
         (msg : option string),
    validate_input w (PDict d) = Ok (Some data, msg) ->
    data = PDict [("workflow", field_or "workflow" PNone d);
                  ("media", field_or "media" PNone d)]
    /\ msg = None
    /\ is_none (field_or "workflow" PNone d) = false
    /\ (field_or "media" PNone d = PNone
        \/ exists l, field_or "media" PNone d = PList l
                     /\ Forall names_both_keys l).
Proof.
  intros w d data msg.
  unfold validate_input, validate_fields, py_get, py_get_val.
  cbn [hashable dict_lookup rbind].
  fold (field_or "workflow" PNone d). fold (field_or "media" PNone d).
  destruct (is_none (field_or "workflow" PNone d)); [discriminate |].
  destruct (field_or "media" PNone d) as [| b | z | t | l | m];
    cbn [rbind]; try discriminate.
  - intros H. injection H as <- <-. repeat split. left. reflexivity.
  - destruct (all_have_keys l) as [[|] | e] eqn:Hall; cbn [rbind];
      try discriminate.
    intros H. injection H as <- <-. repeat split. right.
    exists l. split; [reflexivity | apply all_have_keys_true, Hall].
Qed.

Lemma validated_data_keeps_two_fields_witness :
  exists l,
    field_or "media" PNone crowded_payload = PList l
    /\ Forall names_both_keys l.
Proof.
  destruct (validated_data_keeps_two_fields (calm_world [] []) crowded_payload
              (PDict [("workflow", demo_workflow);
                      ("media", PList [item_inline; PStr "name and media"])])
              None eq_refl) as (_ & _ & _ & [H | H]);
    [discriminate | exact H].
Defined.

(** ** One input of [upload_media] *)

Lemma upload_one_fields (w : World) (d : list (string * pyval))
    (name data : pyval) (kind : string) (s : state) :
  input_fields d name data kind ->
  upload_one w (PDict d) s
  = bind (if String.eqb kind "base64" then
            bind (lift (py_in (PStr ",") data)) (fun has_comma =>
            bind (lift (if has_comma then py_after_comma data else Ok data))
                 (fun base64_data => lift (py_b64decode w base64_data)))
          else if String.eqb kind "web" then
            bind (requests_get w (url_of w data)) (fun response =>
            bind (raise_for_status response) (fun _ => ret (content response)))
          else if String.eqb kind "s3" then boto_download_media w data
          else raise (Exn PlainException
                          ("Unknown media type " ++ py_str w (PStr kind))%string))
      (fun blob =>
         bind (requests_post w upload_url) (fun response =>
         bind (raise_for_status response) (fun _ =>
         ret ("Successfully uploaded " ++ py_str w name)%string))) s.
Proof.
  intros (Hname & Hdata & Hkind).
  unfold upload_one, py_index. rewrite Hname, Hdata, Hkind.
  unfold bind at 1. cbn [lift ret]. unfold bind at 1. cbn [lift ret].
  unfold bind at 1. cbn [lift ret py_eq_str]. reflexivity.
Qed.

Lemma upload_error_line (w : World) (d : list (string * pyval)) (name : pyval)
    (e : exn) (s : state) :
  assoc "name" d = Some name ->
  upload_error_msg w (PDict d) e s
  = (Ret (if is_instance e BinasciiError then
            "Error decoding base64 for " ++ py_str w name ++ ": " ++ exn_text e
          else if is_instance e RequestsTimeout then
            "Timeout uploading " ++ py_str w name
          else if is_instance e RequestException then
            "Error uploading " ++ py_str w name ++ ": " ++ exn_text e
          else
            "Unexpected error uploading " ++ py_str w name ++ ": "
            ++ exn_text e)%string, s).
Proof.
  intros Hname. unfold upload_error_msg, py_get, py_get_val.
  cbn [hashable dict_lookup]. rewrite Hname. unfold bind. cbn [lift ret].
  destruct (is_instance e BinasciiError); [reflexivity |].
  destruct (is_instance e RequestsTimeout); [reflexivity |].
  destruct (is_instance e RequestException); reflexivity.
Qed.

Lemma upload_error_line_of (w : World) (d : list (string * pyval))
    (name : pyval) (e : exn) (s : state) :
  assoc "name" d = Some name ->
  upload_error_msg w (PDict d) e s = (Ret (error_line w name e), s).
Proof. intros Hname. apply (upload_error_line w d name e s Hname). Qed.

(** An inline input is decoded, then posted; what is decoded is the text
    after the first comma, or the whole text when it has no comma. *)
Lemma upload_item_inline (w : World) (d : list (string * pyval))
    (name : pyval) (data : string) (s : state) :
  input_fields d name (PStr data) "base64" ->
  upload_item w (PDict d) s = inline_upload w name (inline_payload data) s.
Proof.
  intros Hfields. pose proof Hfields as (Hname & _ & _).
  unfold upload_item, try_except. unfold bind at 1.
  rewrite (upload_one_fields w d name (PStr data) "base64" s Hfields).
  cbn [String.eqb Ascii.eqb Bool.eqb]. unfold bind at 1.
  assert (Hblob :
            bind (lift (py_in (PStr ",") (PStr data))) (fun has_comma =>
            bind (lift (if has_comma then py_after_comma (PStr data)
                        else Ok (PStr data)))
                 (fun base64_data => lift (py_b64decode w base64_data))) s
            = lift (b64decode w (inline_payload data)) s).
  { unfold inline_payload. cbn [py_in lift]. unfold bind at 1.
    cbn [ret]. destruct (is_substring "," data); reflexivity. }
  rewrite Hblob. unfold inline_upload.
  destruct (b64decode w (inline_payload data)) as [blob | e];
    cbn [lift ret raise].
  - unfold bind at 1, requests_post. fold upload_url. fold (posted s).
    destruct (http_post w upload_url (reqs s)) as [resp | e];
      cbn [lift ret raise].
    + unfold bind at 1, raise_for_status, is_http_error.
      destruct ((400 <=? status_code resp) && (status_code resp <? 600)).
      * cbn [raise]. unfold bind.
        rewrite (upload_error_line_of w d name _ (posted s) Hname).
        reflexivity.
      * reflexivity.
    + unfold bind.
      rewrite (upload_error_line_of w d name e (posted s) Hname). reflexivity.
  - unfold bind. rewrite (upload_error_line_of w d name e s Hname).
    reflexivity.
Qed.

(** X22.  An inline input is decoded before anything is sent.  When the
    decoder rejects it, the input gets the decoding error line and no
    request is made.  Otherwise one POST is made: a response that is not an
    error gives the success line, a 4xx or 5xx status gives the line of a
    failed upload. *)
Theorem inline_input_outcomes :
  forall (w : World) (d : list (string * pyval)) (name : pyval)
         (data : string) (s : state),
    input_fields d name (PStr data) "base64" ->
    (forall e,
        b64decode w (inline_payload data) = Raise e ->
        is_instance e BinasciiError = true ->
        upload_item w (PDict d) s
        = (Ret (inr ("Error decoding base64 for " ++ py_str w name ++ ": "
                     ++ exn_text e)%string), s))
    /\ (forall blob resp,
          b64decode w (inline_payload data) = Ok blob ->
          http_post w upload_url (reqs s) = Ok resp ->
          upload_item w (PDict d) s
          = (Ret (if is_http_error resp
                  then inr ("Error uploading " ++ py_str w name
                            ++ ": HTTPError")%string
                  else inl ("Successfully uploaded " ++ py_str w name)%string),
             posted s)).
Proof.
  intros w d name data s Hfields.
  rewrite (upload_item_inline w d name data s Hfields). unfold inline_upload.
  split.
  - intros e -> Hclass. unfold error_line. rewrite Hclass. reflexivity.
  - intros blob resp -> ->. destruct (is_http_error resp); reflexivity.
Qed.

Lemma inline_input_outcomes_witness :
  upload_item (calm_world [] []) (PDict item_garbled) init_state
  = (Ret (inr "Error decoding base64 for in.png: Incorrect padding"%string),
     init_state)
  /\ upload_item (calm_world [] []) item_inline init_state
     = (Ret (inl "Successfully uploaded in.png"%string), posted init_state).
Proof.
  destruct (inline_input_outcomes (calm_world [] []) item_garbled (PStr "in.png")
              "data:image/png;base64,A" init_state) as (Hbad & _);
    [repeat split |].
  destruct (inline_input_outcomes (calm_world [] [])
              [("name", PStr "in.png"); ("media", PStr "AQI=");
               ("type", PStr "base64")] (PStr "in.png") "AQI=" init_state)
    as (_ & Hgood); [repeat split |].
  split.
  - apply (Hbad (Exn BinasciiError "Incorrect padding")); reflexivity.
  - apply (Hgood [x01; x02] (ok_response (PDict []))); reflexivity.
Defined.

Lemma after_comma_of_data_url (prefix payload : string) :
  comma_free prefix = true -> after_comma (prefix ++ "," ++ payload) = payload.
Proof.
  induction prefix as [| c prefix IH]; [reflexivity |].
  cbn [comma_free]. intros H. apply andb_prop in H.
  destruct H as (Hc & Hrest). apply negb_true_iff in Hc.
  cbn [String.append after_comma]. rewrite Hc. apply IH, Hrest.
Qed.

Lemma inline_payload_of_data_url (prefix payload : string) :
  comma_free prefix = true ->
  inline_payload (prefix ++ "," ++ payload) = payload.
Proof.
  intros H. unfold inline_payload. rewrite comma_is_found.
  apply after_comma_of_data_url, H.
Qed.

Lemma inline_payload_without_comma (data : string) :
  comma_free data = true -> inline_payload data = data.
Proof.
  intros H. unfold inline_payload. rewrite (comma_is_not_found data H).
  reflexivity.
Qed.

(** X18.  For an inline input given as a data URL, what [upload_media]
    hands to the Base64 decoder is the text after the first comma, later
    commas included: the outcome of the item is the one the decoder and the
    POST give for that text.  An input whose text has no comma is decoded
    as it is, so that a payload without commas is uploaded alike with and
    without the prefix of a data URL. *)
Theorem data_url_prefix_is_dropped :
  forall (w : World) (d : list (string * pyval)) (name : pyval)
         (prefix payload : string) (s : state),
    input_fields d name (PStr (prefix ++ "," ++ payload)) "base64" ->
    comma_free prefix = true ->
    (forall e,
        b64decode w payload = Raise e ->
        is_instance e BinasciiError = true ->
        upload_item w (PDict d) s
        = (Ret (inr ("Error decoding base64 for " ++ py_str w name ++ ": "
                     ++ exn_text e)%string), s))
    /\ (forall blob resp,
          b64decode w payload = Ok blob ->
          http_post w upload_url (reqs s) = Ok resp ->
          is_http_error resp = false ->
          upload_item w (PDict d) s
          = (Ret (inl ("Successfully uploaded " ++ py_str w name)%string),
             posted s))
    /\ (forall bare,
          input_fields bare name (PStr payload) "base64" ->
          comma_free payload = true ->
          upload_item w (PDict bare) s = upload_item w (PDict d) s).
Proof.
  intros w d name prefix payload s Hfields Hfree.
  rewrite (upload_item_inline w d name _ s Hfields).
  rewrite (inline_payload_of_data_url prefix payload Hfree).
  split; [| split].
  - intros e Hdecode Hclass. unfold inline_upload, error_line.
    rewrite Hdecode, Hclass. reflexivity.
  - intros blob resp Hdecode Hpost Hstatus. unfold inline_upload, success_line.
    rewrite Hdecode, Hpost, Hstatus. reflexivity.
  - intros bare Hbare Hpayload.
    rewrite (upload_item_inline w bare name payload s Hbare).
    rewrite (inline_payload_without_comma payload Hpayload). reflexivity.
Qed.

Lemma data_url_prefix_is_dropped_witness :
  upload_item (calm_world [] []) item_second init_state
  = (Ret (inl "Successfully uploaded mask.png"%string), posted init_state)
  /\ upload_item (calm_world [] [])
       (PDict [("name", PStr "mask.png"); ("media", PStr "AQI=");
               ("type", PStr "base64")]) init_state
     = upload_item (calm_world [] []) item_second init_state.
Proof.
  destruct (data_url_prefix_is_dropped (calm_world [] [])
              [("name", PStr "mask.png");
               ("media", PStr "data:image/png;base64,AQI=");
               ("type", PStr "base64")]
              (PStr "mask.png") "data:image/png;base64" "AQI=" init_state)
    as (_ & Hgood & Hsame); [repeat split | reflexivity |].
  split.
  - apply (Hgood [x01; x02] (ok_response (PDict []))); reflexivity.
  - apply Hsame; [repeat split | reflexivity].
Defined.

(** X23.  A web input is downloaded with one GET of its URL and then sent
    with one POST.  When the download times out the input gets the timeout
    line, which does not quote the exception, and nothing is sent. *)
Theorem web_input_outcomes :
  forall (w : World) (d : list (string * pyval)) (name data : pyval)
         (s : state),
    input_fields d name data "web" ->
    (forall e,
        http_get w (url_of w data) (reqs s) = Raise e ->
        is_instance e RequestsTimeout = true ->
        upload_item w (PDict d) s
        = (Ret (inr ("Timeout uploading " ++ py_str w name)%string),
           downloaded (url_of w data) s))
    /\ (forall got sent,
          http_get w (url_of w data) (reqs s) = Ok got ->
          is_http_error got = false ->
          http_post w upload_url (S (reqs s)) = Ok sent ->
          is_http_error sent = false ->
          upload_item w (PDict d) s
          = (Ret (inl ("Successfully uploaded " ++ py_str w name)%string),
             posted (downloaded (url_of w data) s))).
Proof.
  intros w d name data s Hfields.
  pose proof Hfields as (Hname & _ & _).
  split.
  - intros e Hget Hclass.
    unfold upload_item, try_except. unfold bind at 1.
    rewrite (upload_one_fields w d name data "web" s Hfields).
    cbn [String.eqb Ascii.eqb Bool.eqb]. unfold bind at 1.
    unfold bind at 1, requests_get. rewrite Hget. cbn [lift raise].
    fold (downloaded (url_of w data) s). unfold bind.
    rewrite (upload_error_line w d name e _ Hname), Hclass.
    destruct e as [[] text]; try discriminate; reflexivity.
  - intros got sent Hget Hgot Hpost Hsent.
    unfold upload_item, try_except. unfold bind at 1.
    rewrite (upload_one_fields w d name data "web" s Hfields).
    cbn [String.eqb Ascii.eqb Bool.eqb]. unfold bind at 1.
    unfold bind at 1, requests_get. rewrite Hget. cbn [lift ret].
    fold (downloaded (url_of w data) s).
    unfold is_http_error in Hgot, Hsent.
    unfold bind at 1, raise_for_status. rewrite Hgot. cbn [ret].
    unfold bind at 1, requests_post.
    cbn [reqs downloaded tick_reqs log]. rewrite Hpost. cbn [lift ret].
    unfold bind at 1. rewrite Hsent. reflexivity.
Qed.

Lemma web_input_outcomes_witness :
  upload_item slow_world (PDict item_remote) init_state
  = (Ret (inr "Timeout uploading in.png"%string),
     downloaded "https://example.org/in.png" init_state)
  /\ upload_item (calm_world [] []) (PDict item_remote) init_state
     = (Ret (inl "Successfully uploaded in.png"%string),
        posted (downloaded "https://example.org/in.png" init_state)).
Proof.
  destruct (web_input_outcomes slow_world item_remote (PStr "in.png")
              (PStr "https://example.org/in.png") init_state) as (Hslow & _);
    [repeat split |].
  destruct (web_input_outcomes (calm_world [] []) item_remote (PStr "in.png")
              (PStr "https://example.org/in.png") init_state) as (_ & Hgood);
    [repeat split |].
  split.
  - apply (Hslow (Exn RequestsTimeout "Read timed out.")); reflexivity.
  - apply (Hgood (ok_response (PDict [])) (ok_response (PDict [])));
      reflexivity.
Defined.

(** ** The rounds of the readiness probe *)

Lemma check_server_attempts_trace (w : World) (url : string) (delay : Z)
    (delay_ok : 0 <= delay) (attempts : list Z) :
  forall s : state,
    (forall k, (k < List.length attempts)%nat ->
               is_miss (http_get w url (reqs s + k)) = true) ->
    trace (snd (check_server_attempts w url delay attempts s))
    = trace s ++ missed_rounds url delay attempts.
Proof.
  induction attempts as [| x rest IH]; intros s Hall.
  - cbn [check_server_attempts ret snd missed_rounds flat_map].
    rewrite app_nil_r. reflexivity.
  - rewrite (check_server_miss w url delay delay_ok).
    2:{ specialize (Hall 0%nat). rewrite Nat.add_0_r in Hall.
        apply Hall. simpl. lia. }
    rewrite IH.
    + simpl. rewrite <- !app_assoc. reflexivity.
    + intros k Hk. simpl. rewrite <- Nat.add_succ_r.
      apply Hall. simpl. lia.
Qed.

(** X24.  [check_server] pauses after every attempt that misses, the last
    one included: when all [retries] attempts miss, the trace grows by
    [retries] rounds of one GET and one pause of [delay] milliseconds.  With
    a negative [delay] the first miss ends the probe with the [ValueError]
    of [time.sleep]. *)
Theorem readiness_probe_pauses_after_every_miss :
  forall (w : World) (url : string) (retries delay : Z) (s : state),
    (0 <= delay ->
     (forall k, (k < Z.to_nat retries)%nat ->
                is_miss (http_get w url (reqs s + k)) = true) ->
     trace (snd (check_server w url retries delay s))
     = trace s ++ missed_rounds url delay (range retries))
    /\ (delay < 0 -> 0 < retries ->
        is_miss (http_get w url (reqs s)) = true ->
        check_server w url retries delay s
        = (Exc (Exn ValueError "sleep length must be non-negative"),
           tick_reqs (log (EvHttpGet url) s))).
Proof.
  intros w url retries delay s. split.
  - intros Hdelay Hall. unfold check_server.
    apply (check_server_attempts_trace w url delay Hdelay).
    intros k Hk. rewrite range_length in Hk. apply Hall, Hk.
  - intros Hdelay Hretries Hmiss. unfold check_server.
    destruct (range_split retries 0 ltac:(lia)) as (l1 & x & l2 & -> & Hlen & _).
    destruct l1; [| discriminate]. cbn [app check_server_attempts].
    unfold bind at 1, try_except, bind at 1, requests_get.
    apply Z.ltb_lt in Hdelay.
    destruct (http_get w url (reqs s)) as [resp | e]; cbn [lift ret raise].
    + cbn [is_miss] in Hmiss. apply negb_true_iff in Hmiss. rewrite Hmiss.
      unfold bind, sleep_ms. rewrite Hdelay. reflexivity.
    + cbn [is_miss] in Hmiss.
      assert (Hr : (if is_instance e RequestsTimeout then @ret bool false
                    else if is_instance e RequestException then ret false
                         else raise e) = ret false).
      { destruct (is_instance e RequestsTimeout); [reflexivity |].
        rewrite Hmiss. reflexivity. }
      rewrite Hr. unfold ret, bind, sleep_ms. rewrite Hdelay. reflexivity.
Qed.

Lemma readiness_probe_pauses_after_every_miss_witness :
  trace (snd (check_server down_world root_url 2 50 init_state))
  = [EvHttpGet root_url; EvSleepMs 50; EvHttpGet root_url; EvSleepMs 50]
  /\ check_server down_world root_url 2 (-1) init_state
     = (Exc (Exn ValueError "sleep length must be non-negative"),
        tick_reqs (log (EvHttpGet root_url) init_state)).
Proof.
  destruct (readiness_probe_pauses_after_every_miss down_world root_url 2 50
              init_state) as (H & _).
  destruct (readiness_probe_pauses_after_every_miss down_world root_url 2 (-1)
              init_state) as (_ & Hneg).
  split.
  - apply H; [discriminate | intros k _; reflexivity].
  - apply Hneg; reflexivity.
Defined.

(** ** The job object *)

(** X25.  [handler] reads [job["input"]] and [job["id"]] before anything
    else and outside every [try]: a job without one of them makes it raise
    [KeyError], naming [input] first, and a job without [id] raises even if
    its input is one the validator would reject with a message. *)
Theorem handler_needs_input_and_id :
  forall (w : World) (d : list (string * pyval)) (s : state),
    (assoc "input" d = None ->
     handler w (PDict d) s = (Exc (Exn KeyError "'input'"), s))
    /\ (forall job_input,
          assoc "input" d = Some job_input -> assoc "id" d = None ->
          handler w (PDict d) s = (Exc (Exn KeyError "'id'"), s)).
Proof.
  intros w d s. unfold handler, py_index. split.
  - intros ->. reflexivity.
  - intros job_input -> ->. reflexivity.
Qed.

Lemma handler_needs_input_and_id_witness :
  handler (calm_world [] []) (PDict [("id", PStr "job-1")]) init_state
  = (Exc (Exn KeyError "'input'"), init_state)
  /\ handler (calm_world [] []) (PDict [("input", PNone)]) init_state
     = (Exc (Exn KeyError "'id'"), init_state).
Proof.
  destruct (handler_needs_input_and_id (calm_world [] [])
              [("id", PStr "job-1")] init_state) as (H & _).
  destruct (handler_needs_input_and_id (calm_world [] [])
              [("input", PNone)] init_state) as (_ & H').
  split; [apply H | apply (H' PNone)]; reflexivity.
Defined.

(** ** Exits of the [try] block before the loop and inside it *)

(** X26.  When the first handshake of the websocket fails, the job ends
    there: nothing is queued, the error result quotes the exception of the
    handshake, and the [finally] clause does not close the socket, which
    never was connected. *)
Theorem refused_handshake_fails_the_job :
  forall (w : World) (job_id workflow : pyval) (client_id : string) (e : exn)
         (s : state),
    ws_handshake w (ws_url_of client_id) (List.length (socks s)) = Some e ->
    exists prefix,
      In prefix except_prefixes
      /\ guarded_try w job_id workflow client_id s
         = (Ret (Some (error_result (prefix ++ exn_text e)%string)),
            refused client_id s).
Proof.
  intros w job_id workflow client_id e s Hshake.
  destruct (handler_except_returns_error e (refused client_id s))
    as (prefix & Hin & Hexcept).
  exists prefix. split; [exact Hin |].
  unfold guarded_try, try_finally, try_except, handler_try.
  fold (ws_url_of client_id).
  unfold bind at 1, WebSocket. unfold bind at 1, modify.
  unfold bind at 1, ws_connect.
  cbn [socks set_socks set_ws_var log]. rewrite Hshake.
  fold (refused client_id s). rewrite Hexcept.
  unfold handler_finally, bind, get_state, ws_connected.
  cbn [ws_var socks refused log set_ws_var set_socks].
  rewrite nth_app_length. reflexivity.
Qed.

Lemma refused_handshake_fails_the_job_witness :
  exists prefix,
    In prefix except_prefixes
    /\ guarded_try down_world (PStr "job-1") demo_workflow "c1" init_state
       = (Ret (Some (error_result (prefix ++ "Connection refused")%string)),
          refused "c1" init_state).
Proof.
  apply (refused_handshake_fails_the_job down_world (PStr "job-1") demo_workflow
           "c1" (Exn ConnectionRefusedError "Connection refused") init_state).
  reflexivity.
Defined.

(** X27.  A text frame that decodes to a JSON value other than an object
    ends the monitoring loop with an [AttributeError]: the loop catches
    timeouts, closed connections and undecodable text only.  The job then
    ends with the result of an unexpected error, whatever frames would have
    followed. *)
Theorem frame_that_is_not_an_object_ends_the_job :
  forall (w : World) (ws_url : string) (prompt_id : pyval) (text : string)
         (v : pyval) (rest : list recv_reply) (s : state),
    json_loads w text = Some v ->
    is_object v = false ->
    monitor_loop w ws_url prompt_id (RecvText text :: rest) s
    = (Exc not_an_object, s)
    /\ handler_except not_an_object s
       = (Ret (Some (error_result
                       "An unexpected error occurred: object has no attribute 'get'")),
          s).
Proof.
  intros w ws_url prompt_id text v rest s Hjson Hobj.
  split; [| reflexivity].
  cbn [monitor_loop]. unfold bind at 1, monitor_iteration, try_except.
  unfold bind at 1. cbn [ws_recv]. rewrite Hjson.
  destruct v as [| b | z | t | l | d]; try discriminate; reflexivity.
Qed.

Lemma frame_that_is_not_an_object_ends_the_job_witness :
  monitor_loop array_world demo_ws_url (PStr "p1") [RecvText "[]"] init_state
  = (Exc not_an_object, init_state).
Proof.
  apply (frame_that_is_not_an_object_ends_the_job array_world demo_ws_url
           (PStr "p1") "[]" (PList []) [] init_state); reflexivity.
Defined.

(** ** The report of [upload_media] *)

Lemma upload_each_lines (w : World) (items : list pyval) :
  forall (responses upload_errors : list string) (s : state),
    upload_each w items responses upload_errors s
    = bind (item_lines w items)
           (fun lines => ret (responses ++ successes lines,
                              upload_errors ++ failures lines)) s.
Proof.
  induction items as [| media rest IH]; intros responses upload_errors s.
  - cbn [item_lines successes failures flat_map]. unfold bind, ret.
    rewrite !app_nil_r. reflexivity.
  - rewrite upload_each_cons. cbn [item_lines].
    destruct (upload_item w media s) as [[[line | error_msg] | e |] s1] eqn:E;
      unfold bind; rewrite E; try reflexivity.
    + rewrite IH. unfold bind.
      destruct (item_lines w rest s1) as [[lines | e |] s2]; try reflexivity.
      cbn [ret successes failures flat_map app].
      rewrite <- app_assoc. reflexivity.
    + rewrite IH. unfold bind.
      destruct (item_lines w rest s1) as [[lines | e |] s2]; try reflexivity.
      cbn [ret successes failures flat_map app].
      rewrite <- app_assoc. reflexivity.
Qed.

Lemma failures_nil (lines : list (string + string)) :
  failures lines = []
  <-> existsb (fun line => match line with inl _ => false | inr _ => true end)
              lines = false.
Proof.
  induction lines as [| [x | x] lines IH]; cbn [failures flat_map existsb app].
  - split; reflexivity.
  - exact IH.
  - split; discriminate.
Qed.

Lemma item_lines_total (w : World) (items : list pyval) :
  Forall (fun media => is_object media = true) items ->
  forall s : state,
  exists lines s',
    item_lines w items s = (Ret lines, s')
    /\ List.length lines = List.length items.
Proof.
  induction 1 as [| media rest Hobj _ IH]; intros s.
  - exists [], s. split; reflexivity.
  - destruct media as [| | | | | d]; try discriminate.
    destruct (upload_item_total w d s) as (line & s1 & Hline).
    destruct (IH s1) as (lines & s' & Hlines & Hlen).
    exists (line :: lines), s'. cbn [item_lines]. unfold bind.
    rewrite Hline, Hlines. split; [reflexivity |].
    cbn [List.length]. rewrite Hlen. reflexivity.
Qed.

Lemma iter_posted (n : nat) (s : state) :
  Nat.iter n posted (posted s) = posted (Nat.iter n posted s).
Proof. induction n as [| n IH]; [reflexivity |]. simpl. rewrite IH. reflexivity. Qed.

Lemma item_lines_inline (w : World) (items : list pyval) :
  forall s : state,
    (forall i media, nth_error items i = Some media ->
                     uploadable_inline w s i media) ->
    item_lines w items s
    = (Ret (map (fun media => inl (success_line w (item_name media))) items),
       Nat.iter (List.length items) posted s).
Proof.
  induction items as [| media rest IH]; intros s Hall; [reflexivity |].
  destruct (Hall 0%nat media eq_refl)
    as (d & name & data & blob & resp & -> & Hfields & Hdecode & Hpost & Hok).
  rewrite Nat.add_0_r in Hpost.
  cbn [item_lines]. unfold bind at 1.
  rewrite (upload_item_inline w d name data s Hfields). unfold inline_upload.
  rewrite Hdecode, Hpost, Hok.
  unfold bind. rewrite (IH (posted s)).
  - destruct Hfields as (Hname & _).
    cbn [ret map item_name List.length]. unfold field_or. rewrite Hname.
    rewrite iter_posted. reflexivity.
  - intros i media Hnth.
    destruct (Hall (S i) media Hnth)
      as (d' & name' & data' & blob' & resp' & Hm & Hf & Hd & Hp & Ho).
    exists d', name', data', blob', resp'.
    split; [exact Hm | split; [exact Hf | split; [exact Hd | split]]];
      [| exact Ho].
    replace (reqs (posted s) + i)%nat with (reqs s + S i)%nat
      by (simpl; lia).
    exact Hp.
Qed.

(** X28.  The report of [upload_media] on a non-empty list is made of the
    lines of its items, each item being run once and in the order of the
    list: the status is [error] exactly when the line of at least one item
    is an error line, the details are then the error lines, and otherwise
    the success lines.  When the items are objects every item has a line and
    nothing is raised.  When every item is an inline input that decodes and
    whose POST is answered without error, the report is [success] with the
    success line of every item, after one POST per item. *)
Theorem upload_media_report_follows_the_items :
  forall (w : World) (first : pyval) (others : list pyval) (s : state),
    upload_media w (PList (first :: others)) s
    = bind (item_lines w (first :: others))
           (fun lines => ret (report_of lines)) s
    /\ (Forall (fun media => is_object media = true) (first :: others) ->
        exists lines s',
          item_lines w (first :: others) s = (Ret lines, s')
          /\ List.length lines = List.length (first :: others))
    /\ (forall lines,
          (py_index (report_of lines) "status" = Ok (PStr "error")
           <-> exists error_msg, In (inr error_msg) lines)
          /\ py_index (report_of lines) "details"
             = Ok (str_list (if is_nil (failures lines)
                             then successes lines else failures lines)))
    /\ ((forall i media, nth_error (first :: others) i = Some media ->
                         uploadable_inline w s i media) ->
        upload_media w (PList (first :: others)) s
        = (Ret (report "success" "All media uploaded successfully"
                  (map (fun media => success_line w (item_name media))
                       (first :: others))),
           Nat.iter (List.length (first :: others)) posted s)).
Proof.
  intros w first others s.
  assert (Hrun : upload_media w (PList (first :: others)) s
                 = bind (item_lines w (first :: others))
                        (fun lines => ret (report_of lines)) s).
  { unfold upload_media. cbn [truthy negb py_len py_iter lift].
    rewrite (bind_ret _ _ s s (List.length (first :: others))) by reflexivity.
    rewrite (bind_ret _ _ s s (first :: others)) by reflexivity.
    unfold bind at 1. rewrite upload_each_lines. unfold bind.
    destruct (item_lines w (first :: others) s) as [[lines | e |] s'];
      try reflexivity.
    cbn [ret snd fst app]. unfold report_of.
    destruct (failures lines) as [| error_msg errs] eqn:E.
    - apply failures_nil in E. rewrite E. reflexivity.
    - destruct (existsb _ lines) eqn:Ex; [reflexivity |].
      apply failures_nil in Ex. congruence. }
  split; [exact Hrun | split; [| split]].
  - intros Hobj. apply (item_lines_total w (first :: others) Hobj s).
  - intros lines. unfold report_of. split.
    + destruct (existsb _ lines) eqn:Ex.
      * split; [| reflexivity]. intros _.
        apply existsb_exists in Ex. destruct Ex as ([x | x] & Hin & Hx);
          [discriminate |].
        exists x. exact Hin.
      * split; [discriminate |]. intros (error_msg & Hin). exfalso.
        assert (existsb (fun line : string + string =>
                           match line with inl _ => false | inr _ => true end)
                        lines = true)
          by (apply existsb_exists; exists (inr error_msg); split; auto).
        congruence.
    + destruct (existsb _ lines) eqn:Ex.
      * destruct (failures lines) eqn:E; [| reflexivity].
        apply failures_nil in E. congruence.
      * apply failures_nil in Ex. rewrite Ex. reflexivity.
  - intros Hall. rewrite Hrun. unfold bind.
    rewrite (item_lines_inline w (first :: others) s Hall).
    cbn [ret]. f_equal. unfold report_of.
    assert (Hlines : forall items : list pyval,
               existsb (fun line : string + string =>
                          match line with inl _ => false | inr _ => true end)
                       (map (fun media => inl (success_line w (item_name media)))
                            items) = false
               /\ successes (map (fun media =>
                                    inl (success_line w (item_name media)))
                                 items)
                  = map (fun media => success_line w (item_name media)) items).
    { induction items as [| media rest (IHe & IHs)]; [split; reflexivity |].
      cbn [map existsb successes flat_map app orb]. split; [exact IHe |].
      f_equal. exact IHs. }
    destruct (Hlines (first :: others)) as (-> & ->). reflexivity.
Qed.

Lemma upload_media_report_follows_the_items_witness :
  upload_media (calm_world [] []) (PList [item_inline; item_second]) init_state
  = (Ret (report "success" "All media uploaded successfully"
            ["Successfully uploaded in.png"; "Successfully uploaded mask.png"]),
     posted (posted init_state))
  /\ exists lines s',
       item_lines (calm_world [] []) [item_inline; item_untyped; item_odd_type]
                  init_state = (Ret lines, s')
       /\ List.length lines = 3%nat.
Proof.
  destruct (upload_media_report_follows_the_items (calm_world [] [])
              item_inline [item_second] init_state) as (_ & _ & _ & Hgood).
  destruct (upload_media_report_follows_the_items (calm_world [] [])
              item_inline [item_untyped; item_odd_type] init_state)
    as (_ & Htotal & _).
  split.
  - apply Hgood. intros [| [| i]] media Hnth; try (destruct i; discriminate);
      injection Hnth as <-;
      eexists _, _, _, _, _; repeat split; reflexivity.
  - apply Htotal. repeat constructor.
Defined.
